(** * A shallow embedding of the sandbox of ai-tools

    This development models [src/code_execution_env.py] (the validator
    [validate_code], the execution session [execute_code] and the entry point
    [execute_agent_code]), the mock capabilities of [src/mcp_server.py] and
    the skill store and task runner of [src/agent.py].

    Two collaborators are not code of the repository: CPython's [ast.parse]
    and the RestrictedPython compiler / CPython [exec].  The parser is a
    parameter of the development ([ast_parse], a Section variable).
    RestrictedPython's checks ([RestrictingNodeTransformer]) and the symbol
    table pass of [compile] are written out; the compiled form is the checked
    syntax tree, and [exec] is modelled by an interpreter for the fragment of
    Python the claims need: imports, [global], assignments, expression
    statements, [raise], names, attribute access (routed through
    [_getattr_], as RestrictedPython rewrites it), calls and dict displays.

    A run that reaches a construct outside this fragment has the outcome
    [NotModelled]: it carries neither an envelope nor a later state, so no
    statement below says anything about such runs. *)

From Stdlib Require Import String List ZArith NArith Bool Ascii Lia Floats.
Import ListNotations.
Open Scope string_scope.
Set Warnings "-register-all".

(** ** Python values *)

(** The streams the program can reach: the host's original channels and the
    two [io.StringIO] buffers created by the running [execute_code] call. *)
Inductive stream : Type :=
| HostStdout
| HostStderr
| CaptureOut
| CaptureErr.

Definition stream_eqb (a b : stream) : bool :=
  match a, b with
  | HostStdout, HostStdout | HostStderr, HostStderr
  | CaptureOut, CaptureOut | CaptureErr, CaptureErr => true
  | _, _ => false
  end.

Inductive value : Type :=
| VNone
| VBool (b : bool)
| VInt (z : Z)
| VFloat (x : float)                       (* a binary64 float *)
| VStr (s : string)                        (* UTF-8 text *)
| VList (xs : list value)
| VDict (kvs : list (value * value))      (* insertion-ordered dict *)
| VModule (name : string)
| VStream (s : stream)                     (* a file object (sys.stdout, ...) *)
| VBuiltin (name : string)                 (* builtin function, class or capability *)
| VMethod (self : value) (name : string)   (* bound method *)
| VExc (cls : string) (args : list value)  (* exception instance *)
| VIdentity.                               (* the lambda [lambda x: x] *)

(** A namespace dict with string keys ([globals], [locals], the envelope). *)
Definition ns := list (string * value).

Fixpoint ns_get {A : Type} (k : string) (d : list (string * A)) : option A :=
  match d with
  | [] => None
  | (k', v) :: d' => if String.eqb k k' then Some v else ns_get k d'
  end.

(** [d[k] = v]: overwrite in place, or append a new key at the end. *)
Fixpoint ns_set {A : Type} (k : string) (v : A) (d : list (string * A))
  : list (string * A) :=
  match d with
  | [] => [(k, v)]
  | (k', v') :: d' =>
      if String.eqb k k' then (k', v) :: d' else (k', v') :: ns_set k v d'
  end.

Definition ns_keys {A : Type} (d : list (string * A)) : list string := map fst d.

Definition mem_string (x : string) (xs : list string) : bool :=
  existsb (String.eqb x) xs.

(** ** Names of the objects the environment binds *)

Definition exception_classes : list string :=
  ["Exception"; "ValueError"; "TypeError"; "KeyError"; "IndexError";
   "AttributeError"; "ZeroDivisionError"].

(** The builtins of the environment that are classes, and those that are
    builtin functions. *)
Definition builtin_classes : list string :=
  ["str"; "int"; "float"; "bool"; "list"; "dict"; "tuple"; "range";
   "enumerate"; "zip"; "reversed"; "type"].

Definition builtin_functions : list string :=
  ["len"; "max"; "min"; "sum"; "abs"; "round"; "pow"; "divmod"; "sorted";
   "all"; "any"; "isinstance"; "issubclass"; "__import__"; "getattr";
   "setattr"; "delattr"].

(** The module-level wrappers of [src/mcp_server.py] (Python functions). *)
Definition capability_names : list string :=
  ["get_document"; "update_salesforce_record"; "send_slack_message";
   "get_slack_messages"; "get_sheet_data"; "update_sheet"; "call_mcp_tool"].

Definition type_name (v : value) : string :=
  match v with
  | VNone => "NoneType"
  | VBool _ => "bool"
  | VInt _ => "int"
  | VFloat _ => "float"
  | VStr _ => "str"
  | VList _ => "list"
  | VDict _ => "dict"
  | VModule _ => "module"
  | VStream s =>
      match s with
      | HostStdout | HostStderr => "_io.TextIOWrapper"
      | CaptureOut | CaptureErr => "_io.StringIO"
      end
  | VBuiltin n =>
      if mem_string n builtin_classes || mem_string n exception_classes then "type"
      else if mem_string n capability_names || String.prefix "<lambda" n then "function"
      else "builtin_function_or_method"
  | VMethod _ _ => "builtin_function_or_method"
  | VExc c _ => c
  | VIdentity => "function"
  end.

(** ** Text: decimal numbers and code points *)

Definition digit_char (n : N) : ascii := ascii_of_N (48 + n).

Fixpoint N_digits (fuel : nat) (n : N) (acc : string) : string :=
  match fuel with
  | O => acc
  | S f =>
      let acc' := String (digit_char (N.modulo n 10)) acc in
      if (n <? 10)%N then acc' else N_digits f (N.div n 10) acc'
  end.

Definition N_to_dec (n : N) : string := N_digits (N.size_nat n) n "".

Definition Z_to_dec (z : Z) : string :=
  match z with
  | Z0 => "0"
  | Zpos p => N_to_dec (Npos p)
  | Zneg p => "-" ++ N_to_dec (Npos p)
  end.

Fixpoint join (sep : string) (xs : list string) : string :=
  match xs with
  | [] => ""
  | [x] => x
  | x :: xs' => x ++ sep ++ join sep xs'
  end.

(** Strings hold UTF-8.  [decode_char] reads one code point; a byte that
    starts no well-formed sequence is read as the code point of its value
    (sources and messages are well-formed UTF-8; three-byte forms of
    surrogates are accepted, so a lone surrogate of a Python string has a
    representation). *)
Definition cont_byte (c : ascii) : option N :=
  let n := N_of_ascii c in
  if (128 <=? n)%N && (n <? 192)%N then Some (n - 128)%N else None.

Definition decode_char (c0 : ascii) (rest : string) : N * string :=
  let b0 := N_of_ascii c0 in
  let fallback := (b0, rest) in
  if (b0 <? 128)%N then fallback
  else if (194 <=? b0)%N && (b0 <? 224)%N then
    match rest with
    | String c1 rest' =>
        match cont_byte c1 with
        | Some x1 => (((b0 - 192) * 64 + x1)%N, rest')
        | None => fallback
        end
    | EmptyString => fallback
    end
  else if (224 <=? b0)%N && (b0 <? 240)%N then
    match rest with
    | String c1 (String c2 rest') =>
        match cont_byte c1, cont_byte c2 with
        | Some x1, Some x2 =>
            let cp := ((b0 - 224) * 4096 + x1 * 64 + x2)%N in
            if (cp <? 2048)%N then fallback else (cp, rest')
        | _, _ => fallback
        end
    | _ => fallback
    end
  else if (240 <=? b0)%N && (b0 <? 245)%N then
    match rest with
    | String c1 (String c2 (String c3 rest')) =>
        match cont_byte c1, cont_byte c2, cont_byte c3 with
        | Some x1, Some x2, Some x3 =>
            let cp := ((b0 - 240) * 262144 + x1 * 4096 + x2 * 64 + x3)%N in
            if (cp <? 65536)%N || (1114111 <? cp)%N then fallback else (cp, rest')
        | _, _, _ => fallback
        end
    | _ => fallback
    end
  else fallback.

Fixpoint code_points_fuel (fuel : nat) (s : string) : list N :=
  match fuel, s with
  | O, _ => []
  | _, EmptyString => []
  | S f, String c0 rest =>
      let (cp, rest') := decode_char c0 rest in cp :: code_points_fuel f rest'
  end.

(** The code points of a string (each step consumes at least one byte). *)
Definition code_points (s : string) : list N := code_points_fuel (String.length s) s.

Definition byte (n : N) : string := String (ascii_of_N n) EmptyString.

Definition utf8_encode (cp : N) : string :=
  if (cp <? 128)%N then byte cp
  else if (cp <? 2048)%N then byte (192 + cp / 64) ++ byte (128 + cp mod 64)
  else if (cp <? 65536)%N then
    byte (224 + cp / 4096) ++ byte (128 + (cp / 64) mod 64) ++ byte (128 + cp mod 64)
  else byte (240 + cp / 262144) ++ byte (128 + (cp / 4096) mod 64)
       ++ byte (128 + (cp / 64) mod 64) ++ byte (128 + cp mod 64).

Definition encode (cps : list N) : string := String.concat "" (map utf8_encode cps).

Definition in_range (lo hi cp : N) : bool := (lo <=? cp)%N && (cp <=? hi)%N.

(** The code points from U+007F on for which [str.isprintable] is false in
    CPython 3.11 (Unicode 14.0: categories Cc, Cf, Cs, Co, Cn, Zl, Zp, and
    Zs other than the space), as maximal ranges. *)
Definition nonprintable_ranges : list (N * N) := [
  (127, 160); (173, 173); (888, 889); (896, 899); (907, 907); (909, 909); (930, 930);
  (1328, 1328); (1367, 1368); (1419, 1420); (1424, 1424); (1480, 1487); (1515, 1518);
  (1525, 1541); (1564, 1564); (1757, 1757); (1806, 1807); (1867, 1868); (1970, 1983);
  (2043, 2044); (2094, 2095); (2111, 2111); (2140, 2141); (2143, 2143); (2155, 2159);
  (2191, 2199); (2274, 2274); (2436, 2436); (2445, 2446); (2449, 2450); (2473, 2473);
  (2481, 2481); (2483, 2485); (2490, 2491); (2501, 2502); (2505, 2506); (2511, 2518);
  (2520, 2523); (2526, 2526); (2532, 2533); (2559, 2560); (2564, 2564); (2571, 2574);
  (2577, 2578); (2601, 2601); (2609, 2609); (2612, 2612); (2615, 2615); (2618, 2619);
  (2621, 2621); (2627, 2630); (2633, 2634); (2638, 2640); (2642, 2648); (2653, 2653);
  (2655, 2661); (2679, 2688); (2692, 2692); (2702, 2702); (2706, 2706); (2729, 2729);
  (2737, 2737); (2740, 2740); (2746, 2747); (2758, 2758); (2762, 2762); (2766, 2767);
  (2769, 2783); (2788, 2789); (2802, 2808); (2816, 2816); (2820, 2820); (2829, 2830);
  (2833, 2834); (2857, 2857); (2865, 2865); (2868, 2868); (2874, 2875); (2885, 2886);
  (2889, 2890); (2894, 2900); (2904, 2907); (2910, 2910); (2916, 2917); (2936, 2945);
  (2948, 2948); (2955, 2957); (2961, 2961); (2966, 2968); (2971, 2971); (2973, 2973);
  (2976, 2978); (2981, 2983); (2987, 2989); (3002, 3005); (3011, 3013); (3017, 3017);
  (3022, 3023); (3025, 3030); (3032, 3045); (3067, 3071); (3085, 3085); (3089, 3089);
  (3113, 3113); (3130, 3131); (3141, 3141); (3145, 3145); (3150, 3156); (3159, 3159);
  (3163, 3164); (3166, 3167); (3172, 3173); (3184, 3190); (3213, 3213); (3217, 3217);
  (3241, 3241); (3252, 3252); (3258, 3259); (3269, 3269); (3273, 3273); (3278, 3284);
  (3287, 3292); (3295, 3295); (3300, 3301); (3312, 3312); (3315, 3327); (3341, 3341);
  (3345, 3345); (3397, 3397); (3401, 3401); (3408, 3411); (3428, 3429); (3456, 3456);
  (3460, 3460); (3479, 3481); (3506, 3506); (3516, 3516); (3518, 3519); (3527, 3529);
  (3531, 3534); (3541, 3541); (3543, 3543); (3552, 3557); (3568, 3569); (3573, 3584);
  (3643, 3646); (3676, 3712); (3715, 3715); (3717, 3717); (3723, 3723); (3748, 3748);
  (3750, 3750); (3774, 3775); (3781, 3781); (3783, 3783); (3790, 3791); (3802, 3803);
  (3808, 3839); (3912, 3912); (3949, 3952); (3992, 3992); (4029, 4029); (4045, 4045);
  (4059, 4095); (4294, 4294); (4296, 4300); (4302, 4303); (4681, 4681); (4686, 4687);
  (4695, 4695); (4697, 4697); (4702, 4703); (4745, 4745); (4750, 4751); (4785, 4785);
  (4790, 4791); (4799, 4799); (4801, 4801); (4806, 4807); (4823, 4823); (4881, 4881);
  (4886, 4887); (4955, 4956); (4989, 4991); (5018, 5023); (5110, 5111); (5118, 5119);
  (5760, 5760); (5789, 5791); (5881, 5887); (5910, 5918); (5943, 5951); (5972, 5983);
  (5997, 5997); (6001, 6001); (6004, 6015); (6110, 6111); (6122, 6127); (6138, 6143);
  (6158, 6158); (6170, 6175); (6265, 6271); (6315, 6319); (6390, 6399); (6431, 6431);
  (6444, 6447); (6460, 6463); (6465, 6467); (6510, 6511); (6517, 6527); (6572, 6575);
  (6602, 6607); (6619, 6621); (6684, 6685); (6751, 6751); (6781, 6782); (6794, 6799);
  (6810, 6815); (6830, 6831); (6863, 6911); (6989, 6991); (7039, 7039); (7156, 7163);
  (7224, 7226); (7242, 7244); (7305, 7311); (7355, 7356); (7368, 7375); (7419, 7423);
  (7958, 7959); (7966, 7967); (8006, 8007); (8014, 8015); (8024, 8024); (8026, 8026);
  (8028, 8028); (8030, 8030); (8062, 8063); (8117, 8117); (8133, 8133); (8148, 8149);
  (8156, 8156); (8176, 8177); (8181, 8181); (8191, 8207); (8232, 8239); (8287, 8303);
  (8306, 8307); (8335, 8335); (8349, 8351); (8385, 8399); (8433, 8447); (8588, 8591);
  (9255, 9279); (9291, 9311); (11124, 11125); (11158, 11158); (11508, 11512); (11558, 11558);
  (11560, 11564); (11566, 11567); (11624, 11630); (11633, 11646); (11671, 11679);
  (11687, 11687); (11695, 11695); (11703, 11703); (11711, 11711); (11719, 11719);
  (11727, 11727); (11735, 11735); (11743, 11743); (11870, 11903); (11930, 11930);
  (12020, 12031); (12246, 12271); (12284, 12288); (12352, 12352); (12439, 12440);
  (12544, 12548); (12592, 12592); (12687, 12687); (12772, 12783); (12831, 12831);
  (42125, 42127); (42183, 42191); (42540, 42559); (42744, 42751); (42955, 42959);
  (42962, 42962); (42964, 42964); (42970, 42993); (43053, 43055); (43066, 43071);
  (43128, 43135); (43206, 43213); (43226, 43231); (43348, 43358); (43389, 43391);
  (43470, 43470); (43482, 43485); (43519, 43519); (43575, 43583); (43598, 43599);
  (43610, 43611); (43715, 43738); (43767, 43776); (43783, 43784); (43791, 43792);
  (43799, 43807); (43815, 43815); (43823, 43823); (43884, 43887); (44014, 44015);
  (44026, 44031); (55204, 55215); (55239, 55242); (55292, 63743); (64110, 64111);
  (64218, 64255); (64263, 64274); (64280, 64284); (64311, 64311); (64317, 64317);
  (64319, 64319); (64322, 64322); (64325, 64325); (64451, 64466); (64912, 64913);
  (64968, 64974); (64976, 65007); (65050, 65055); (65107, 65107); (65127, 65127);
  (65132, 65135); (65141, 65141); (65277, 65280); (65471, 65473); (65480, 65481);
  (65488, 65489); (65496, 65497); (65501, 65503); (65511, 65511); (65519, 65531);
  (65534, 65535); (65548, 65548); (65575, 65575); (65595, 65595); (65598, 65598);
  (65614, 65615); (65630, 65663); (65787, 65791); (65795, 65798); (65844, 65846);
  (65935, 65935); (65949, 65951); (65953, 65999); (66046, 66175); (66205, 66207);
  (66257, 66271); (66300, 66303); (66340, 66348); (66379, 66383); (66427, 66431);
  (66462, 66462); (66500, 66503); (66518, 66559); (66718, 66719); (66730, 66735);
  (66772, 66775); (66812, 66815); (66856, 66863); (66916, 66926); (66939, 66939);
  (66955, 66955); (66963, 66963); (66966, 66966); (66978, 66978); (66994, 66994);
  (67002, 67002); (67005, 67071); (67383, 67391); (67414, 67423); (67432, 67455);
  (67462, 67462); (67505, 67505); (67515, 67583); (67590, 67591); (67593, 67593);
  (67638, 67638); (67641, 67643); (67645, 67646); (67670, 67670); (67743, 67750);
  (67760, 67807); (67827, 67827); (67830, 67834); (67868, 67870); (67898, 67902);
  (67904, 67967); (68024, 68027); (68048, 68049); (68100, 68100); (68103, 68107);
  (68116, 68116); (68120, 68120); (68150, 68151); (68155, 68158); (68169, 68175);
  (68185, 68191); (68256, 68287); (68327, 68330); (68343, 68351); (68406, 68408);
  (68438, 68439); (68467, 68471); (68498, 68504); (68509, 68520); (68528, 68607);
  (68681, 68735); (68787, 68799); (68851, 68857); (68904, 68911); (68922, 69215);
  (69247, 69247); (69290, 69290); (69294, 69295); (69298, 69375); (69416, 69423);
  (69466, 69487); (69514, 69551); (69580, 69599); (69623, 69631); (69710, 69713);
  (69750, 69758); (69821, 69821); (69827, 69839); (69865, 69871); (69882, 69887);
  (69941, 69941); (69960, 69967); (70007, 70015); (70112, 70112); (70133, 70143);
  (70162, 70162); (70207, 70271); (70279, 70279); (70281, 70281); (70286, 70286);
  (70302, 70302); (70314, 70319); (70379, 70383); (70394, 70399); (70404, 70404);
  (70413, 70414); (70417, 70418); (70441, 70441); (70449, 70449); (70452, 70452);
  (70458, 70458); (70469, 70470); (70473, 70474); (70478, 70479); (70481, 70486);
  (70488, 70492); (70500, 70501); (70509, 70511); (70517, 70655); (70748, 70748);
  (70754, 70783); (70856, 70863); (70874, 71039); (71094, 71095); (71134, 71167);
  (71237, 71247); (71258, 71263); (71277, 71295); (71354, 71359); (71370, 71423);
  (71451, 71452); (71468, 71471); (71495, 71679); (71740, 71839); (71923, 71934);
  (71943, 71944); (71946, 71947); (71956, 71956); (71959, 71959); (71990, 71990);
  (71993, 71994); (72007, 72015); (72026, 72095); (72104, 72105); (72152, 72153);
  (72165, 72191); (72264, 72271); (72355, 72367); (72441, 72703); (72713, 72713);
  (72759, 72759); (72774, 72783); (72813, 72815); (72848, 72849); (72872, 72872);
  (72887, 72959); (72967, 72967); (72970, 72970); (73015, 73017); (73019, 73019);
  (73022, 73022); (73032, 73039); (73050, 73055); (73062, 73062); (73065, 73065);
  (73103, 73103); (73106, 73106); (73113, 73119); (73130, 73439); (73465, 73647);
  (73649, 73663); (73714, 73726); (74650, 74751); (74863, 74863); (74869, 74879);
  (75076, 77711); (77811, 77823); (78895, 82943); (83527, 92159); (92729, 92735);
  (92767, 92767); (92778, 92781); (92863, 92863); (92874, 92879); (92910, 92911);
  (92918, 92927); (92998, 93007); (93018, 93018); (93026, 93026); (93048, 93052);
  (93072, 93759); (93851, 93951); (94027, 94030); (94088, 94094); (94112, 94175);
  (94181, 94191); (94194, 94207); (100344, 100351); (101590, 101631); (101641, 110575);
  (110580, 110580); (110588, 110588); (110591, 110591); (110883, 110927); (110931, 110947);
  (110952, 110959); (111356, 113663); (113771, 113775); (113789, 113791); (113801, 113807);
  (113818, 113819); (113824, 118527); (118574, 118575); (118599, 118607); (118724, 118783);
  (119030, 119039); (119079, 119080); (119155, 119162); (119275, 119295); (119366, 119519);
  (119540, 119551); (119639, 119647); (119673, 119807); (119893, 119893); (119965, 119965);
  (119968, 119969); (119971, 119972); (119975, 119976); (119981, 119981); (119994, 119994);
  (119996, 119996); (120004, 120004); (120070, 120070); (120075, 120076); (120085, 120085);
  (120093, 120093); (120122, 120122); (120127, 120127); (120133, 120133); (120135, 120137);
  (120145, 120145); (120486, 120487); (120780, 120781); (121484, 121498); (121504, 121504);
  (121520, 122623); (122655, 122879); (122887, 122887); (122905, 122906); (122914, 122914);
  (122917, 122917); (122923, 123135); (123181, 123183); (123198, 123199); (123210, 123213);
  (123216, 123535); (123567, 123583); (123642, 123646); (123648, 124895); (124903, 124903);
  (124908, 124908); (124911, 124911); (124927, 124927); (125125, 125126); (125143, 125183);
  (125260, 125263); (125274, 125277); (125280, 126064); (126133, 126208); (126270, 126463);
  (126468, 126468); (126496, 126496); (126499, 126499); (126501, 126502); (126504, 126504);
  (126515, 126515); (126520, 126520); (126522, 126522); (126524, 126529); (126531, 126534);
  (126536, 126536); (126538, 126538); (126540, 126540); (126544, 126544); (126547, 126547);
  (126549, 126550); (126552, 126552); (126554, 126554); (126556, 126556); (126558, 126558);
  (126560, 126560); (126563, 126563); (126565, 126566); (126571, 126571); (126579, 126579);
  (126584, 126584); (126589, 126589); (126591, 126591); (126602, 126602); (126620, 126624);
  (126628, 126628); (126634, 126634); (126652, 126703); (126706, 126975); (127020, 127023);
  (127124, 127135); (127151, 127152); (127168, 127168); (127184, 127184); (127222, 127231);
  (127406, 127461); (127491, 127503); (127548, 127551); (127561, 127567); (127570, 127583);
  (127590, 127743); (128728, 128732); (128749, 128751); (128765, 128767); (128884, 128895);
  (128985, 128991); (129004, 129007); (129009, 129023); (129036, 129039); (129096, 129103);
  (129114, 129119); (129160, 129167); (129198, 129199); (129202, 129279); (129620, 129631);
  (129646, 129647); (129653, 129655); (129661, 129663); (129671, 129679); (129709, 129711);
  (129723, 129727); (129734, 129743); (129754, 129759); (129768, 129775); (129783, 129791);
  (129939, 129939); (129995, 130031); (130042, 131071); (173792, 173823); (177977, 177983);
  (178206, 178207); (183970, 183983); (191457, 194559); (195102, 196607); (201547, 917759);
  (918000, 1114111)]%N.

(** [Py_UNICODE_ISPRINTABLE] on a code point. *)
Definition is_printable (cp : N) : bool :=
  if (cp <? 32)%N then false
  else if (cp <? 127)%N then true
  else negb (existsb (fun r => in_range (fst r) (snd r) cp) nonprintable_ranges).

Definition backslash : string := String (ascii_of_nat 92) EmptyString.

Definition hex_digit (n : N) : ascii :=
  if (n <? 10)%N then ascii_of_N (48 + n) else ascii_of_N (87 + n).

Fixpoint hex_fixed (width : nat) (n : N) (acc : string) : string :=
  match width with
  | O => acc
  | S w => hex_fixed w (n / 16) (String (hex_digit (n mod 16)) acc)
  end.

(** One code point inside the quotes of [unicode_repr]. *)
Definition repr_char (quote cp : N) : string :=
  if (cp =? quote)%N || (cp =? 92)%N then backslash ++ utf8_encode cp
  else if (cp =? 9)%N then backslash ++ "t"
  else if (cp =? 10)%N then backslash ++ "n"
  else if (cp =? 13)%N then backslash ++ "r"
  else if (cp <? 32)%N || (cp =? 127)%N then backslash ++ "x" ++ hex_fixed 2 cp ""
  else if (cp <? 127)%N then utf8_encode cp
  else if is_printable cp then utf8_encode cp
  else if (cp <=? 255)%N then backslash ++ "x" ++ hex_fixed 2 cp ""
  else if (cp <=? 65535)%N then backslash ++ "u" ++ hex_fixed 4 cp ""
  else backslash ++ "U" ++ hex_fixed 8 cp "".

(** [repr] of a [str] ([unicode_repr]): double quotes when the text holds a
    single quote and no double quote, single quotes otherwise; only the
    chosen quote and the backslash are escaped, with [\t], [\n], [\r] and
    hexadecimal escapes for the other non-printable code points. *)
Definition repr_str (s : string) : string :=
  let cps := code_points s in
  let quote := if existsb (N.eqb 39) cps && negb (existsb (N.eqb 34) cps)
               then 34%N else 39%N in
  byte quote ++ String.concat "" (map (repr_char quote) cps) ++ byte quote.

(** [str.strip()] with no argument: the code points [str.isspace] accepts. *)
Definition is_space (cp : N) : bool :=
  in_range 9 13 cp || in_range 28 32 cp || (cp =? 133)%N || (cp =? 160)%N
  || (cp =? 5760)%N || in_range 8192 8202 cp || (cp =? 8232)%N || (cp =? 8233)%N
  || (cp =? 8239)%N || (cp =? 8287)%N || (cp =? 12288)%N.

Fixpoint drop_spaces (cps : list N) : list N :=
  match cps with
  | cp :: cps' => if is_space cp then drop_spaces cps' else cps
  | [] => []
  end.

Definition py_strip (s : string) : string :=
  encode (rev (drop_spaces (rev (drop_spaces (code_points s))))).

(** ** [str] and [repr] *)

(** [repr] of a tuple of already rendered items. *)
Definition tuple_repr (items : list string) : string :=
  match items with
  | [x] => "(" ++ x ++ ",)"
  | _ => "(" ++ join ", " items ++ ")"
  end.

(** The [repr] of the builtins whose text is fixed. *)
Definition builtin_repr (n : string) : option string :=
  if mem_string n builtin_classes || mem_string n exception_classes
  then Some ("<class '" ++ n ++ "'>")
  else if mem_string n builtin_functions then Some ("<built-in function " ++ n ++ ">")
  else if String.eqb n "sys.exit" then Some "<built-in function exit>"
  else if String.eqb n "time.time" then Some "<built-in function time>"
  else None.

(** [repr(v)].  The text of a module, a Python function, a file object or a
    bound method shows a file path or a memory address; it comes from the
    running process, [object_repr], as does the text of a float (whose
    shortest round-trip formatting is not written out here). *)
Fixpoint py_repr (object_repr : value -> string) (v : value) : string :=
  match v with
  | VNone => "None"
  | VBool b => if b then "True" else "False"
  | VInt z => Z_to_dec z
  | VStr s => repr_str s
  | VList xs => "[" ++ join ", " (map (py_repr object_repr) xs) ++ "]"
  | VDict kvs =>
      "{" ++ join ", " (map (fun kv => py_repr object_repr (fst kv) ++ ": "
                                       ++ py_repr object_repr (snd kv)) kvs) ++ "}"
  | VBuiltin n => match builtin_repr n with Some r => r | None => object_repr v end
  | VExc c [a] => c ++ "(" ++ py_repr object_repr a ++ ")"
  | VExc c args => c ++ tuple_repr (map (py_repr object_repr) args)
  | VFloat _ | VModule _ | VStream _ | VMethod _ _ | VIdentity => object_repr v
  end.

(** [str(v)]: a string is itself; an exception shows nothing without
    arguments, [str] of its single argument ([repr] for [KeyError]), and the
    [repr] of the argument tuple otherwise. *)
Fixpoint py_str (object_repr : value -> string) (v : value) : string :=
  match v with
  | VStr s => s
  | VExc c [] => ""
  | VExc c [a] =>
      if String.eqb c "KeyError" then py_repr object_repr a else py_str object_repr a
  | VExc c args => tuple_repr (map (py_repr object_repr) args)
  | _ => py_repr object_repr v
  end.

(** [str] of a list of strings and of a tuple of strings. *)
Definition str_list (xs : list string) : string := "[" ++ join ", " (map repr_str xs) ++ "]".

Definition str_tuple (xs : list string) : string := tuple_repr (map repr_str xs).

(** [str(e)] of a [SyntaxError] with a file name. *)
Definition syntax_error_str (filename msg : string) (lineno : option Z) : string :=
  match lineno with
  | Some n => msg ++ " (" ++ filename ++ ", line " ++ Z_to_dec n ++ ")"
  | None => msg ++ " (" ++ filename ++ ")"
  end.

(** [sub in s]. *)
Fixpoint py_contains (sub s : string) : bool :=
  String.prefix sub s ||
  match s with
  | EmptyString => false
  | String _ rest => py_contains sub rest
  end.

(** [s.endswith(suffix)]. *)
Definition ends_with (suffix s : string) : bool :=
  let n := String.length s in
  let k := String.length suffix in
  Nat.leb k n && String.eqb (substring (n - k) k s) suffix.

Definition dq : string := String (ascii_of_nat 34) EmptyString.

Definition newline : string := String (ascii_of_nat 10) EmptyString.

(** ** Syntax trees (the fragment of Python's [ast] module used here) *)

(** Literal constants ([ast.Constant]). *)
Inductive constant : Type :=
| KNone
| KBool (b : bool)
| KInt (z : Z)
| KStr (s : string).

Definition value_of_constant (c : constant) : value :=
  match c with
  | KNone => VNone
  | KBool b => VBool b
  | KInt z => VInt z
  | KStr s => VStr s
  end.

(** Nodes carry the [lineno] the checks report. *)
Inductive expr : Type :=
| Constant (c : constant)
| Name (id : string) (lineno : Z)
| Attribute (obj : expr) (attr : string) (lineno : Z)
| Call (func : expr) (args : list expr)
| Dict (items : list (expr * expr)).        (* [ast.Dict] keys and values, paired *)

(** [ast.alias]: the dotted name and the optional [as] name. *)
Record alias : Type := mk_alias { alias_name : string; asname : option string }.

Inductive stmt : Type :=
| Import (names : list alias) (lineno : Z)
| ImportFrom (modname : option string) (names : list alias) (level : nat) (lineno : Z)
| Assign (target : expr) (val : expr)
| Expr (val : expr)
| Raise (exc : option expr)
| Global (names : list string) (lineno : Z)
| Pass.

(** [ast.Module]: the statement list of the source. *)
Definition module := list stmt.

(** ** [ast.walk] *)

(** The nodes [ast.walk] yields ([Load]/[Store] context nodes are left out:
    no check looks at them). *)
Inductive node : Type :=
| NModule (body : module)
| NStmt (s : stmt)
| NExpr (e : expr)
| NAlias (a : alias).

(** [ast.iter_child_nodes], fields in the order of [_fields]. *)
Definition iter_child_nodes (n : node) : list node :=
  match n with
  | NModule body => map NStmt body
  | NStmt s =>
      match s with
      | Import names _ => map NAlias names
      | ImportFrom _ names _ _ => map NAlias names
      | Assign t v => [NExpr t; NExpr v]
      | Expr v => [NExpr v]
      | Raise (Some e) => [NExpr e]
      | Raise None => []
      | Global _ _ => []
      | Pass => []
      end
  | NExpr e =>
      match e with
      | Constant _ => []
      | Name _ _ => []
      | Attribute o _ _ => [NExpr o]
      | Call f args => NExpr f :: map NExpr args
      | Dict items => (map (fun kv => NExpr (fst kv)) items ++ map (fun kv => NExpr (snd kv)) items)%list
      end
  | NAlias _ => []
  end.

Fixpoint expr_size (e : expr) : nat :=
  match e with
  | Constant _ | Name _ _ => 1
  | Attribute o _ _ => S (expr_size o)
  | Call f args => S (expr_size f + list_sum (map expr_size args))
  | Dict items =>
      S (list_sum (map (fun kv => expr_size (fst kv) + expr_size (snd kv)) items))
  end.

Definition stmt_size (s : stmt) : nat :=
  match s with
  | Import names _ => S (length names)
  | ImportFrom _ names _ _ => S (length names)
  | Assign t v => S (expr_size t + expr_size v)
  | Expr v => S (expr_size v)
  | Raise (Some e) => S (expr_size e)
  | Raise None | Global _ _ | Pass => 1
  end.

(** Number of nodes [ast.walk] visits from a module. *)
Definition module_size (m : module) : nat := S (list_sum (map stmt_size m)).

(** The breadth-first loop of [ast.walk]:
    [todo.popleft(); todo.extend(iter_child_nodes(node)); yield node].
    Each round pops one node, so [module_size] rounds empty the queue. *)
Fixpoint walk_queue (fuel : nat) (todo : list node) : list node :=
  match fuel, todo with
  | O, _ => []
  | _, [] => []
  | S f, n :: rest => n :: walk_queue f (rest ++ iter_child_nodes n)
  end.

Definition ast_walk (m : module) : list node :=
  walk_queue (module_size m) [NModule m].

(** ** Outcomes of [ast.parse] and of Python calls *)

(** [ast.parse] gives a module, raises [SyntaxError] (or a subclass such as
    [IndentationError]) with its class name, [msg], [lineno] and [text], or
    raises another exception with a message (such as the [ValueError] for a
    source holding a null byte). *)
Inductive parse_result : Type :=
| ParseOk (m : module)
| ParseSyntaxError (cls msg : string) (lineno : option Z) (text : option string)
| ParseRaises (cls msg : string).

(** A Python call returns or raises. *)
Inductive py_ret (A : Type) : Type :=
| Returned (a : A)
| Raises (e : value).
Arguments Returned {A} a.
Arguments Raises {A} e.

Definition exc (cls msg : string) : value := VExc cls [VStr msg].

(** ** [validate_code] *)

Definition dangerous_modules : list string :=
  ["os"; "sys"; "subprocess"; "shutil"; "socket"; "urllib.request"].

Definition dangerous_functions : list string := ["eval"; "exec"; "compile"].

(** The checks of the loop body for one node. *)
Definition node_violations (n : node) : list string :=
  match n with
  | NStmt (Import names _) | NStmt (ImportFrom _ names _ _) =>
      flat_map (fun a => if mem_string (alias_name a) dangerous_modules
                         then ["Dangerous import: " ++ alias_name a] else [])
               names
  | NExpr (Call (Name id _) _) =>
      if mem_string id dangerous_functions
      then ["Dangerous function call: " ++ id] else []
  | _ => []
  end.

(** The dict [{"valid": ..., "errors": [...]}]. *)
Record verdict : Type := mk_verdict { valid : bool; errors : list string }.

(** The body of [validate_code] after [ast.parse]: [except SyntaxError]
    catches the parser's syntax errors ([ast.parse] names the file
    ["<unknown>"]); other exceptions propagate. *)
Definition validate_tree (p : parse_result) : py_ret verdict :=
  match p with
  | ParseSyntaxError _ msg lineno _ =>
      Returned (mk_verdict false ["Syntax error: " ++ syntax_error_str "<unknown>" msg lineno])
  | ParseRaises cls msg => Raises (exc cls msg)
  | ParseOk tree =>
      let dangerous_nodes := flat_map node_violations (ast_walk tree) in
      match dangerous_nodes with
      | [] => Returned (mk_verdict true [])
      | _ => Returned (mk_verdict false dangerous_nodes)
      end
  end.

(** ** Python equality and dicts of arbitrary keys *)

(** [==] as the interpreter uses it: one operand is a string, or both are
    keys of a dict (see [key_tracked]).  Objects of different types compare
    unequal, [True == 1]; streams, bound methods of streams and the
    lambda compare by identity. *)
Definition py_eq (a b : value) : bool :=
  match a, b with
  | VNone, VNone => true
  | VBool x, VBool y => Bool.eqb x y
  | VInt x, VInt y => Z.eqb x y
  | VBool x, VInt y | VInt y, VBool x => Z.eqb (if x then 1 else 0) y
  | VFloat x, VFloat y => PrimFloat.eqb x y
  | VStr x, VStr y => String.eqb x y
  | VModule x, VModule y => String.eqb x y
  | VBuiltin x, VBuiltin y => String.eqb x y
  | VStream x, VStream y => stream_eqb x y
  | VMethod (VStream x) n, VMethod (VStream y) n' => stream_eqb x y && String.eqb n n'
  | VIdentity, VIdentity => true
  | _, _ => false
  end.

Definition hashable (v : value) : bool :=
  match v with
  | VList _ | VDict _ => false
  | _ => true
  end.

(** The hashable keys whose [==] the development follows: not exception
    instances or methods of dicts (compared by identity, which the values
    here do not record), and not floats (equal to the integers of the same
    value).  A dict operation on another key is not modelled. *)
Definition key_tracked (k : value) : bool :=
  match k with
  | VExc _ _ | VFloat _ => false
  | VMethod (VStream _) _ => true
  | VMethod _ _ => false
  | _ => true
  end.

Fixpoint dict_get (k : value) (d : list (value * value)) : option value :=
  match d with
  | [] => None
  | (k', v) :: d' => if py_eq k k' then Some v else dict_get k d'
  end.

Fixpoint dict_set (k v : value) (d : list (value * value)) : list (value * value) :=
  match d with
  | [] => [(k, v)]
  | (k', v') :: d' => if py_eq k k' then (k', v) :: d' else (k', v') :: dict_set k v d'
  end.

(** A dict display with string keys. *)
Definition sdict (kvs : list (string * value)) : value :=
  VDict (map (fun kv => (VStr (fst kv), snd kv)) kvs).

(** ** Results of the interpreter *)

(** A computation ends with a value, with a raised Python exception, or in
    a construct outside the modelled fragment, whose behaviour is left
    open. *)
Inductive res (A : Type) : Type :=
| Ok (a : A)
| Exn (e : value)
| Unmodelled (what : string).
Arguments Ok {A} a.
Arguments Exn {A} e.
Arguments Unmodelled {A} what.

(** [except Exception] catches every exception but the three direct
    subclasses of [BaseException]. *)
Definition is_Exception (e : value) : bool :=
  match e with
  | VExc cls _ => negb (mem_string cls ["SystemExit"; "KeyboardInterrupt"; "GeneratorExit"])
  | _ => false
  end.

(** ** What a running program reads from the process *)

(** The current [sys.stdout] and [sys.stderr], the clock ([time.time()]),
    and the text [repr] gives for the objects whose [repr] shows an address
    or a file path (and for floats). *)
Record ctx : Type :=
  mk_ctx { cur_stdout : stream; cur_stderr : stream; now : float;
           repr_of : value -> string }.

(** ** The mock MCP server ([src/mcp_server.py]) *)

Definition kw_get (kw : list (string * value)) (k : string) (default : value) : value :=
  match ns_get k kw with Some v => v | None => default end.

(** Dicts of the mock stores. *)
Definition abc123_document : value :=
  sdict [("id", VStr "abc123"); ("title", VStr "Q4目标会议纪要");
         ("content", VStr "讨论了Q4目标...
完整纪要文本，包含大量详细内容和数据...")].

(** [GoogleDriveTool.execute] after [operation] is bound; [f"{operation}"]
    is [str(operation)]. *)
Definition google_drive_execute (r : value -> string) (operation : value)
  (kw : list (string * value)) : value :=
  if py_eq operation (VStr "get_document") then
    let document_id := kw_get kw "document_id" VNone in
    if py_eq document_id (VStr "abc123") then abc123_document
    else sdict [("error", VStr "Document not found")]
  else if py_eq operation (VStr "upload_file") then
    sdict [("status", VStr "uploaded"); ("file_id", VStr "xyz789")]
  else sdict [("error", VStr ("Operation " ++ py_str r operation ++ " not supported"))].

Definition salesforce_execute (r : value -> string) (operation : value)
  (kw : list (string * value)) : value :=
  if py_eq operation (VStr "update_record") then
    let record_id := kw_get kw "record_id" VNone in
    let data := kw_get kw "data" VNone in
    sdict [("status", VStr "success"); ("record_id", record_id);
           ("updated_fields",
              match data with VDict kvs => VInt (Z.of_nat (length kvs)) | _ => VInt 1 end)]
  else if py_eq operation (VStr "query_records") then
    VList [sdict [("id", VStr "rec1"); ("name", VStr "客户A"); ("status", VStr "active")];
           sdict [("id", VStr "rec2"); ("name", VStr "客户B"); ("status", VStr "inactive")]]
  else sdict [("error", VStr ("Operation " ++ py_str r operation ++ " not supported"))].

(** [time.time()] reads the clock [now] (one reading per call of the
    interpreter). *)
Definition slack_execute (now : float) (r : value -> string) (operation : value)
  (kw : list (string * value)) : value :=
  if py_eq operation (VStr "send_message") then
    let channel := kw_get kw "channel" VNone in
    sdict [("status", VStr "sent"); ("channel", channel); ("ts", VFloat now)]
  else if py_eq operation (VStr "get_messages") then
    VList [sdict [("user", VStr "U123"); ("text", VStr "部署开始");
                  ("ts", VFloat (PrimFloat.sub now 300%float))];
           sdict [("user", VStr "U123"); ("text", VStr "部署完成");
                  ("ts", VFloat (PrimFloat.sub now 60%float))]]
  else sdict [("error", VStr ("Operation " ++ py_str r operation ++ " not supported"))].

Definition google_sheets_execute (r : value -> string) (operation : value)
  (kw : list (string * value)) : value :=
  if py_eq operation (VStr "get_sheet_data") then
    VList [sdict [("name", VStr "张三"); ("email", VStr "zhangsan@example.com");
                  ("phone", VStr "13800138000"); ("department", VStr "销售")];
           sdict [("name", VStr "李四"); ("email", VStr "lisi@example.com");
                  ("phone", VStr "13800138001"); ("department", VStr "技术")];
           sdict [("name", VStr "王五"); ("email", VStr "wangwu@example.com");
                  ("phone", VStr "13800138002"); ("department", VStr "市场")]]
  else if py_eq operation (VStr "update_sheet") then
    sdict [("status", VStr "updated"); ("rows_affected", kw_get kw "rows_count" (VInt 0))]
  else sdict [("error", VStr ("Operation " ++ py_str r operation ++ " not supported"))].

(** [MCPServer.call_tool(tool_name, **kwargs)]: the [tools] lookup, then
    [execute] with the keyword arguments inside [try]; a missing [operation]
    is the [TypeError] of the call, caught and returned as [{"error": ...}]
    (the bodies themselves raise nothing). *)
Definition call_tool (c : ctx) (tool_name : value) (kw : list (string * value)) : res value :=
  if negb (hashable tool_name) then
    Exn (exc "TypeError" ("unhashable type: '" ++ type_name tool_name ++ "'"))
  else
    let run (cls : string) (body : value -> list (string * value) -> value) : res value :=
      match ns_get "operation" kw with
      | None =>
          Ok (sdict [("error", VStr (cls ++ ".execute() missing 1 required positional argument: 'operation'"))])
      | Some op =>
          let rest := filter (fun kv => negb (String.eqb (fst kv) "operation")) kw in
          Ok (sdict [("success", VBool true); ("result", body op rest)])
      end in
    if py_eq tool_name (VStr "google_drive") then run "GoogleDriveTool" (google_drive_execute (repr_of c))
    else if py_eq tool_name (VStr "salesforce") then run "SalesforceTool" (salesforce_execute (repr_of c))
    else if py_eq tool_name (VStr "slack") then run "SlackTool" (slack_execute (now c) (repr_of c))
    else if py_eq tool_name (VStr "google_sheets") then run "GoogleSheetsTool" (google_sheets_execute (repr_of c))
    else Ok (sdict [("error", VStr ("Tool " ++ py_str (repr_of c) tool_name ++ " not found"))]).

(** The module-level wrappers and their positional parameters. *)
Definition capability_params (name : string) : option (list string) :=
  if String.eqb name "get_document" then Some ["document_id"]
  else if String.eqb name "update_salesforce_record" then Some ["record_id"; "data"]
  else if String.eqb name "send_slack_message" then Some ["channel"; "message"]
  else if String.eqb name "get_slack_messages" then Some ["channel"]
  else if String.eqb name "get_sheet_data" then Some ["sheet_id"]
  else if String.eqb name "update_sheet" then Some ["sheet_id"; "data"]
  else if String.eqb name "call_mcp_tool" then Some ["tool_name"]
  else None.

Definition capability_body (c : ctx) (name : string) (args : list value) : res value :=
  match name, args with
  | "get_document", [d] =>
      call_tool c (VStr "google_drive")
        [("operation", VStr "get_document"); ("document_id", d)]
  | "update_salesforce_record", [r; d] =>
      call_tool c (VStr "salesforce")
        [("operation", VStr "update_record"); ("record_id", r); ("data", d)]
  | "send_slack_message", [ch; m] =>
      call_tool c (VStr "slack")
        [("operation", VStr "send_message"); ("channel", ch); ("message", m)]
  | "get_slack_messages", [ch] =>
      call_tool c (VStr "slack") [("operation", VStr "get_messages"); ("channel", ch)]
  | "get_sheet_data", [s] =>
      call_tool c (VStr "google_sheets") [("operation", VStr "get_sheet_data"); ("sheet_id", s)]
  | "update_sheet", [s; d] =>
      call_tool c (VStr "google_sheets")
        [("operation", VStr "update_sheet"); ("sheet_id", s); ("data", d)]
  | "call_mcp_tool", [t] => call_tool c t []
  | _, _ => Unmodelled "capability call"
  end.

Definition plural (n : nat) (one many : string) : string :=
  if Nat.eqb n 1 then one else many.

(** The list of missing parameters in CPython's message:
    ['a'], ['a' and 'b'], ['a', 'b', and 'c']. *)
Definition quoted_names (xs : list string) : string :=
  let q := fun x => "'" ++ x ++ "'" in
  match rev xs with
  | [] => ""
  | [x] => q x
  | [y; x] => q x ++ " and " ++ q y
  | last :: init => join ", " (map q (rev init)) ++ ", and " ++ q last
  end.

(** A call of a wrapper with positional arguments: CPython's arity check,
    then the body. *)
Definition call_capability (c : ctx) (name : string) (params : list string)
  (args : list value) : res value :=
  let n := length params in
  let k := length args in
  if Nat.ltb n k then
    Exn (exc "TypeError" (name ++ "() takes " ++ Z_to_dec (Z.of_nat n)
           ++ plural n " positional argument" " positional arguments" ++ " but "
           ++ Z_to_dec (Z.of_nat k) ++ plural k " was given" " were given"))
  else if Nat.ltb k n then
    let missing := skipn k params in
    Exn (exc "TypeError" (name ++ "() missing " ++ Z_to_dec (Z.of_nat (length missing))
           ++ plural (length missing) " required positional argument: "
                " required positional arguments: " ++ quoted_names missing))
  else capability_body c name args.

(** ** The execution environment ([CodeExecutionEnvironment.__init__]) *)

(** The dict bound to ['__builtins__']. *)
Definition safe_builtins_dict : value :=
  sdict (map (fun n => (n, VBuiltin n))
           ["len"; "str"; "int"; "float"; "bool"; "list"; "dict"; "tuple"; "range";
            "enumerate"; "zip"; "max"; "min"; "sum"; "abs"; "round"; "pow"; "divmod";
            "sorted"; "reversed"; "all"; "any"; "isinstance"; "issubclass"; "type"]
         ++ map (fun n => (n, VBuiltin n)) exception_classes
         ++ [("json", VModule "json")])%list.

Definition safe_modules : list string :=
  ["math"; "random"; "datetime"; "collections"; "itertools";
   "functools"; "operator"; "json"; "re"; "urllib.parse"; "time"].

(** [__import__(module_name)]: the top-level package of a dotted name. *)
Definition top_package (m : string) : string :=
  if String.eqb m "urllib.parse" then "urllib" else m.

Record CodeExecutionEnvironment : Type := mk_env { safe_globals : ns }.

Definition CodeExecutionEnvironment_init : CodeExecutionEnvironment :=
  mk_env
    ([("__builtins__", safe_builtins_dict);
      ("_print_", VIdentity);
      ("_getitem_", VBuiltin "<lambda _getitem_>");
      ("_getiter_", VBuiltin "<lambda _getiter_>");
      ("_iter_unpack_sequence_", VBuiltin "<lambda _iter_unpack_sequence_>");
      ("__import__", VBuiltin "__import__");
      ("_unpack_sequence_", VBuiltin "<lambda _unpack_sequence_>");
      ("_abs_", VBuiltin "abs"); ("_min_", VBuiltin "min");
      ("_max_", VBuiltin "max"); ("_sum_", VBuiltin "sum");
      ("_getattr_", VBuiltin "getattr"); ("_setattr_", VBuiltin "setattr");
      ("_delattr_", VBuiltin "delattr");
      ("_getpath_", VBuiltin "<lambda _getpath_>");
      ("get_document", VBuiltin "get_document");
      ("update_salesforce_record", VBuiltin "update_salesforce_record");
      ("send_slack_message", VBuiltin "send_slack_message");
      ("get_slack_messages", VBuiltin "get_slack_messages");
      ("get_sheet_data", VBuiltin "get_sheet_data");
      ("update_sheet", VBuiltin "update_sheet");
      ("call_mcp_tool", VBuiltin "call_mcp_tool")]
     ++ map (fun m => (m, VModule (top_package m))) safe_modules)%list.

(** ** The interpreter of the compiled form *)

(** The namespaces of [exec(code, globals, locals)] and the names the code
    declares [global]. *)
Record frame : Type :=
  mk_frame { f_globals : ns; f_locals : ns; f_global_names : list string }.

(** Text written to each stream, in order. *)
Definition log := list (stream * string).

(** Expression evaluation: reads the context and the frame, writes text. *)
Definition Eval (A : Type) : Type := ctx -> frame -> res A * log.

Definition ret {A} (a : A) : Eval A := fun _ _ => (Ok a, []).

Definition raise {A} (e : value) : Eval A := fun _ _ => (Exn e, []).

Definition lift {A} (r : res A) : Eval A := fun _ _ => (r, []).

Definition bind {A B} (m : Eval A) (k : A -> Eval B) : Eval B :=
  fun c f =>
    match m c f with
    | (Ok a, l1) => let (r, l2) := k a c f in (r, l1 ++ l2)%list
    | (Exn e, l1) => (Exn e, l1)
    | (Unmodelled w, l1) => (Unmodelled w, l1)
    end.

Notation "x <- m ;; k" := (bind m (fun x => k))
  (at level 61, m at next level, right associativity).

(** [frame.f_builtins]: the dict under ['__builtins__']. *)
Definition builtins_lookup (g : ns) (id : string) : option value :=
  match ns_get "__builtins__" g with
  | Some (VDict d) => dict_get (VStr id) d
  | _ => None
  end.

(** [LOAD_NAME] (locals, globals, builtins), or [LOAD_GLOBAL] for a name
    declared [global]. *)
Definition lookup_name (f : frame) (id : string) : option value :=
  if mem_string id (f_global_names f) then
    match ns_get id (f_globals f) with
    | Some v => Some v
    | None => builtins_lookup (f_globals f) id
    end
  else
    match ns_get id (f_locals f) with
    | Some v => Some v
    | None =>
        match ns_get id (f_globals f) with
        | Some v => Some v
        | None => builtins_lookup (f_globals f) id
        end
    end.

Definition load_name (id : string) : Eval value :=
  fun _ f =>
    match lookup_name f id with
    | Some v => (Ok v, [])
    | None => (Exn (exc "NameError" ("name '" ++ id ++ "' is not defined")), [])
    end.

(** The attributes of the exposed modules the fragment follows: [re]
    imports [enum], [enum] imports [sys]; every other attribute of a module
    (such as [sys.modules]) is outside the fragment. *)
Definition module_attr (c : ctx) (m a : string) : option value :=
  match a, m with
  | "enum", "re" => Some (VModule "enum")
  | "sys", "enum" => Some (VModule "sys")
  | "stdout", "sys" => Some (VStream (cur_stdout c))
  | "stderr", "sys" => Some (VStream (cur_stderr c))
  | "exit", "sys" => Some (VBuiltin "sys.exit")
  | "time", "time" => Some (VBuiltin "time.time")
  | _, _ => None
  end.

(** [getattr(o, a)]. *)
Definition py_getattr (c : ctx) (o : value) (a : string) : res value :=
  let no_attr := Exn (exc "AttributeError"
                        ("'" ++ type_name o ++ "' object has no attribute '" ++ a ++ "'")) in
  match o with
  | VModule m =>
      match module_attr c m a with
      | Some v => Ok v
      | None => Unmodelled ("attribute " ++ a ++ " of module " ++ m)
      end
  | VStream _ => if String.eqb a "write" then Ok (VMethod o "write") else Unmodelled a
  | VDict _ => if String.eqb a "get" then Ok (VMethod o "get") else Unmodelled a
  | VNone => if String.prefix "__" a then Unmodelled a else no_attr
  | VBuiltin n =>
      if String.eqb n "getattr"
      then (if String.prefix "__" a then Unmodelled a else no_attr)
      else Unmodelled a
  | _ => Unmodelled a
  end.

(** Calling a value with positional arguments. *)
Definition call_value (fn : value) (args : list value) : Eval value :=
  fun c _ =>
    let not_callable :=
      (Exn (exc "TypeError" ("'" ++ type_name fn ++ "' object is not callable")), []) in
    match fn with
    | VBuiltin n =>
        match capability_params n with
        | Some params => (call_capability c n params args, [])
        | None =>
            if mem_string n exception_classes then (Ok (VExc n args), [])
            else if String.eqb n "getattr" then
              match args with
              | [o; VStr a] => (py_getattr c o a, [])
              | [] | [_] =>
                  (Exn (exc "TypeError" ("getattr expected at least 2 arguments, got "
                                          ++ Z_to_dec (Z.of_nat (length args)))), [])
              | _ => (Unmodelled "getattr", [])
              end
            else if String.eqb n "sys.exit" then
              match args with
              | [] => (Exn (VExc "SystemExit" []), [])
              | [v] => (Exn (VExc "SystemExit" [v]), [])
              | _ => (Unmodelled "sys.exit", [])
              end
            else if String.eqb n "time.time" then
              match args with
              | [] => (Ok (VFloat (now c)), [])
              | _ => (Unmodelled "time.time", [])
              end
            else (Unmodelled ("builtin " ++ n), [])
        end
    | VIdentity =>
        match args with
        | [x] => (Ok x, [])
        | _ => (Unmodelled "<lambda>", [])
        end
    | VMethod (VStream s) nm =>
        if negb (String.eqb nm "write") then (Unmodelled "call", []) else
        match args, s with
        | [VStr t], _ => (Ok (VInt (Z.of_nat (length (code_points t)))), [(s, t)])
        | [v], CaptureOut | [v], CaptureErr =>
            (Exn (exc "TypeError" ("string argument expected, got '" ++ type_name v ++ "'")), [])
        | _, _ => (Unmodelled "write", [])
        end
    | VMethod (VDict d) nm =>
        if negb (String.eqb nm "get") then (Unmodelled "call", []) else
        match args with
        | [k] | [k; _] =>
            if negb (hashable k) then
              (Exn (exc "TypeError" ("unhashable type: '" ++ type_name k ++ "'")), [])
            else if negb (key_tracked k) then (Unmodelled "dict key", [])
            else
              match dict_get k d, args with
              | Some v, _ => (Ok v, [])
              | None, [_; dflt] => (Ok dflt, [])
              | None, _ => (Ok VNone, [])
              end
        | _ => (Unmodelled "get", [])
        end
    | VMethod _ _ => (Unmodelled "call", [])
    | _ => not_callable
    end.

Definition getattr_plain (o : value) (a : string) : Eval value :=
  fun c _ => (py_getattr c o a, []).

(** [BUILD_MAP] over the evaluated items (later duplicates overwrite). *)
Fixpoint build_dict (kvs : list (value * value)) (acc : list (value * value))
  : res value :=
  match kvs with
  | [] => Ok (VDict acc)
  | (k, v) :: kvs' =>
      if negb (hashable k)
      then Exn (exc "TypeError" ("unhashable type: '" ++ type_name k ++ "'"))
      else if negb (key_tracked k) then Unmodelled "dict key"
      else build_dict kvs' (dict_set k v acc)
  end.

(** Evaluation of the compiled expressions.  RestrictedPython rewrites
    [o.a] into [_getattr_(o, 'a')], the name [print] into
    [_print._call_print] and the name [printed] into [_print()]. *)
Fixpoint eval_expr (e : expr) : Eval value :=
  let fix eval_list (es : list expr) : Eval (list value) :=
    match es with
    | [] => ret []
    | e1 :: es' => v <- eval_expr e1 ;; vs <- eval_list es' ;; ret (v :: vs)
    end in
  let fix eval_items (its : list (expr * expr)) : Eval (list (value * value)) :=
    match its with
    | [] => ret []
    | (k, v) :: its' =>
        kv <- eval_expr k ;; vv <- eval_expr v ;; rest <- eval_items its' ;;
        ret ((kv, vv) :: rest)
    end in
  match e with
  | Constant k => ret (value_of_constant k)
  | Name id _ =>
      if String.eqb id "print" then p <- load_name "_print" ;; getattr_plain p "_call_print"
      else if String.eqb id "printed" then p <- load_name "_print" ;; call_value p []
      else load_name id
  | Attribute o a _ =>
      ga <- load_name "_getattr_" ;; ov <- eval_expr o ;; call_value ga [ov; VStr a]
  | Call fn args => fv <- eval_expr fn ;; vs <- eval_list args ;; call_value fv vs
  | Dict items => kvs <- eval_items items ;; lift (build_dict kvs [])
  end.

(** [STORE_NAME] / [STORE_GLOBAL]. *)
Definition store_name (x : string) (v : value) (f : frame) : frame :=
  if mem_string x (f_global_names f)
  then mk_frame (ns_set x v (f_globals f)) (f_locals f) (f_global_names f)
  else mk_frame (f_globals f) (ns_set x v (f_locals f)) (f_global_names f).

Definition forget {A} (r : res A) : res unit :=
  match r with
  | Ok _ => Ok tt
  | Exn e => Exn e
  | Unmodelled w => Unmodelled w
  end.

(** The exception a [raise e] statement raises. *)
Definition raised_exception (v : value) : value :=
  match v with
  | VExc _ _ => v
  | VBuiltin cls =>
      if mem_string cls exception_classes then VExc cls []
      else exc "TypeError" "exceptions must derive from BaseException"
  | _ => exc "TypeError" "exceptions must derive from BaseException"
  end.

Definition exec_stmt (s : stmt) (c : ctx) (f : frame) : res unit * frame * log :=
  match s with
  | Import _ _ | ImportFrom _ _ _ _ =>
      (* IMPORT_NAME takes [__import__] from the builtins dict *)
      match builtins_lookup (f_globals f) "__import__" with
      | None => (Exn (exc "ImportError" "__import__ not found"), f, [])
      | Some _ => (Unmodelled "import", f, [])
      end
  | Assign (Name x _) v =>
      match eval_expr v c f with
      | (Ok vv, l) => (Ok tt, store_name x vv f, l)
      | (r, l) => (forget r, f, l)
      end
  | Assign (Attribute o a _) v =>
      (* [_write_(o).a = v] *)
      let (r, l) :=
        (vv <- eval_expr v ;; w <- load_name "_write_" ;; ov <- eval_expr o ;;
         wo <- call_value w [ov] ;; lift (A := unit) (Unmodelled "attribute store")) c f in
      (forget r, f, l)
  | Assign _ _ => (Unmodelled "assignment target", f, [])
  | Expr v => let (r, l) := eval_expr v c f in (forget r, f, l)
  | Raise None => (Exn (exc "RuntimeError" "No active exception to reraise"), f, [])
  | Raise (Some e) =>
      match eval_expr e c f with
      | (Ok v, l) => (Exn (raised_exception v), f, l)
      | (r, l) => (forget r, f, l)
      end
  | Global _ _ | Pass => (Ok tt, f, [])
  end.

Fixpoint exec_body (ss : list stmt) (c : ctx) (f : frame) : res unit * frame * log :=
  match ss with
  | [] => (Ok tt, f, [])
  | s :: ss' =>
      match exec_stmt s c f with
      | (Ok _, f1, l1) =>
          let '(r, f2, l2) := exec_body ss' c f1 in (r, f2, (l1 ++ l2)%list)
      | (r, f1, l1) => (r, f1, l1)
      end
  end.

(** Names the module declares [global] (the symbol table pass). *)
Definition global_names (m : module) : list string :=
  flat_map (fun s => match s with Global xs _ => xs | _ => [] end) m.

(** The names an expression loads and an assignment target loads. *)
Fixpoint expr_loads (e : expr) : list string :=
  match e with
  | Constant _ => []
  | Name id _ => [id]
  | Attribute o _ _ => expr_loads o
  | Call fn args => (expr_loads fn ++ flat_map expr_loads args)%list
  | Dict items => flat_map (fun kv => (expr_loads (fst kv) ++ expr_loads (snd kv))%list) items
  end.

Definition target_loads (t : expr) : list string :=
  match t with
  | Name _ _ => []
  | Attribute o _ _ => expr_loads o
  | _ => expr_loads t
  end.

Definition stmt_loads (s : stmt) : list string :=
  match s with
  | Assign t v => (target_loads t ++ expr_loads v)%list
  | Expr v | Raise (Some v) => expr_loads v
  | _ => []
  end.

(** [print_info.print_used or print_info.printed_used]. *)
Definition uses_print (m : module) : bool :=
  existsb (fun x => String.eqb x "print" || String.eqb x "printed") (flat_map stmt_loads m).

(** The statement RestrictedPython puts at the top of a module that uses
    [print]: [_print = _print_(_getattr_)] (line 0). *)
Definition prologue_stmt : stmt :=
  Assign (Name "_print" 0) (Call (Name "_print_" 0) [Name "_getattr_" 0]).

Definition print_prologue (m : module) : list stmt :=
  if uses_print m then [prologue_stmt] else [].

(** [exec(byte_code, globals, local_vars)] with [local_vars = {}]; the
    builtins come from [globals['__builtins__']] (a dict here; another
    value is not modelled). *)
Definition exec_module (m : module) (c : ctx) (g : ns) : res unit * frame * log :=
  match ns_get "__builtins__" g with
  | Some (VDict _) => exec_body (print_prologue m ++ m)%list c (mk_frame g [] (global_names m))
  | _ => (Unmodelled "builtins", mk_frame g [] (global_names m), [])
  end.

(** ** RestrictedPython's checks ([RestrictingNodeTransformer]) *)

(** [self.error(node, info)]. *)
Definition line_error (lineno : Z) (info : string) : string :=
  "Line " ++ Z_to_dec lineno ++ ": " ++ info.

(** [check_name]: one error at most, the first test that applies. *)
Definition check_name (lineno : Z) (name : string) : list string :=
  if String.prefix "_" name && negb (String.eqb name "_") then
    [line_error lineno (dq ++ name ++ dq ++ " is an invalid variable name because it starts with "
                        ++ dq ++ "_" ++ dq)]
  else if ends_with "__roles__" name then
    [line_error lineno (dq ++ name ++ dq ++ " is an invalid variable name because it ends with "
                        ++ dq ++ "__roles__" ++ dq ++ ".")]
  else if mem_string name ["print"; "printed"] then
    [line_error lineno (dq ++ name ++ dq ++ " is a reserved name.")]
  else [].

(** The two independent tests of [visit_Attribute]. *)
Definition check_attr (lineno : Z) (a : string) : list string :=
  ((if String.prefix "_" a && negb (String.eqb a "_")
    then [line_error lineno (dq ++ a ++ dq ++ " is an invalid attribute name because it starts with "
                             ++ dq ++ "_" ++ dq ++ ".")]
    else [])
   ++ (if ends_with "__roles__" a
       then [line_error lineno (dq ++ a ++ dq ++ " is an invalid attribute name because it ends with "
                                ++ dq ++ "__roles__" ++ dq ++ ".")]
       else []))%list.

(** Errors of an expression in [Load] context, in visiting order: the
    names [print] and [printed] are replaced, not checked; an attribute's
    own tests come before its object's. *)
Fixpoint expr_errors (e : expr) : list string :=
  match e with
  | Constant _ => []
  | Name id ln => if mem_string id ["print"; "printed"] then [] else check_name ln id
  | Attribute o a ln => (check_attr ln a ++ expr_errors o)%list
  | Call fn args => (expr_errors fn ++ flat_map expr_errors args)%list
  | Dict items =>
      (flat_map (fun kv => expr_errors (fst kv)) items
       ++ flat_map (fun kv => expr_errors (snd kv)) items)%list
  end.

(** Errors of an assignment target ([Store] context). *)
Definition target_errors (t : expr) : list string :=
  match t with
  | Name id ln => check_name ln id
  | Attribute o a ln => (check_attr ln a ++ expr_errors o)%list
  | _ => expr_errors t
  end.

(** [check_import_names] for one alias of a statement on line [lineno]. *)
Definition alias_errors (lineno : Z) (a : alias) : list string :=
  ((if py_contains "*" (alias_name a)
    then [line_error lineno (dq ++ "*" ++ dq ++ " imports are not allowed.")] else [])
   ++ check_name lineno (alias_name a)
   ++ match asname a with Some x => check_name lineno x | None => [] end)%list.

Definition stmt_errors (s : stmt) : list string :=
  match s with
  | Import names ln | ImportFrom _ names _ ln => flat_map (alias_errors ln) names
  | Assign t v => (target_errors t ++ expr_errors v)%list
  | Expr v | Raise (Some v) => expr_errors v
  | Raise None | Global _ _ | Pass => []
  end.

Definition restricted_errors (m : module) : list string := flat_map stmt_errors m.

(** ** The symbol table pass of [compile] on the rewritten module *)

(** Names a rewritten expression uses ([o.a] is [_getattr_(o, 'a')],
    [print] is [_print._call_print], [printed] is [_print()]). *)
Fixpoint expr_uses (e : expr) : list string :=
  match e with
  | Constant _ => []
  | Name id _ => if mem_string id ["print"; "printed"] then ["_print"] else [id]
  | Attribute o _ _ => "_getattr_" :: expr_uses o
  | Call fn args => (expr_uses fn ++ flat_map expr_uses args)%list
  | Dict items => flat_map (fun kv => (expr_uses (fst kv) ++ expr_uses (snd kv))%list) items
  end.

(** An attribute target [o.a] is rewritten to [_write_(o).a]. *)
Definition target_uses (t : expr) : list string :=
  match t with
  | Name _ _ => []
  | Attribute o _ _ => "_write_" :: expr_uses o
  | _ => expr_uses t
  end.

Definition stmt_uses (s : stmt) : list string :=
  match s with
  | Assign t v => (target_uses t ++ expr_uses v)%list
  | Expr v | Raise (Some v) => expr_uses v
  | _ => []
  end.

(** Names a statement binds as [DEF_LOCAL] (an import binds [DEF_IMPORT],
    which the [global] check ignores). *)
Definition stmt_defs (s : stmt) : list string :=
  match s with
  | Assign (Name x _) _ => [x]
  | _ => []
  end.

(** The test of a [global] statement, name by name: a use before it, else
    an assignment before it. *)
Fixpoint global_error (used assigned names : list string) : option string :=
  match names with
  | [] => None
  | x :: xs =>
      if mem_string x used then Some ("name '" ++ x ++ "' is used prior to global declaration")
      else if mem_string x assigned
      then Some ("name '" ++ x ++ "' is assigned to before global declaration")
      else global_error used assigned xs
  end.

(** The first [global] error of a statement list, as [str] of the
    [SyntaxError] [compile(c_ast, '<string>', 'exec')] raises. *)
Fixpoint symtable_check (used assigned : list string) (ss : list stmt) : option string :=
  match ss with
  | [] => None
  | Global names ln :: ss' =>
      match global_error used assigned names with
      | Some msg => Some (syntax_error_str "<string>" msg (Some ln))
      | None => symtable_check used assigned ss'
      end
  | s :: ss' => symtable_check (used ++ stmt_uses s) (assigned ++ stmt_defs s) ss'
  end.

Definition has_future_import (m : module) : bool :=
  existsb (fun s => match s with
                    | ImportFrom (Some "__future__") _ _ _ => true
                    | _ => false
                    end) m.

(** The tuple [(byte_code, error_log, warnings, used_names)]; the code
    object is the checked tree. *)
Record CompileResult : Type :=
  mk_compile_result { byte_code : option module; error_log : list string }.

(** [syntax_error_template.format(...)] for a [SyntaxError] of [ast.parse]:
    [lineno] and [statement] are [None] when absent, the statement is
    [v.text.strip()], shown with [!r]. *)
Definition syntax_error_entry (cls msg : string) (lineno : option Z) (text : option string)
  : string :=
  let ln := match lineno with Some n => Z_to_dec n | None => "None" end in
  let statement :=
    match text with
    | Some t => if String.eqb t "" then "None" else repr_str (py_strip t)
    | None => "None"
    end in
  "Line " ++ ln ++ ": " ++ cls ++ ": " ++ msg ++ " at statement: " ++ statement.

(** The exceptions [ast.parse] raises that [_compile_restricted_mode]
    catches with [except (TypeError, ValueError)]. *)
Definition caught_parse_errors : list string :=
  ["TypeError"; "ValueError"; "UnicodeError"; "UnicodeDecodeError";
   "UnicodeEncodeError"; "UnicodeTranslateError"].

(** The visit of the parsed module and [compile]: the transformer's errors
    are collected first; only without errors is [compile] called, and its
    [SyntaxError] propagates (represented by its [str]).  A module with a
    [__future__] import is not modelled. *)
Definition compile_tree (m : module) : res CompileResult :=
  match restricted_errors m with
  | _ :: _ => Ok (mk_compile_result None (restricted_errors m))
  | [] =>
      if has_future_import m then Unmodelled "__future__ import"
      else
        match symtable_check [] [] (print_prologue m ++ m)%list with
        | Some msg => Exn (exc "SyntaxError" msg)
        | None => Ok (mk_compile_result (Some m) [])
        end
  end.

(** ** Process state *)

(** [sys.stdout], [sys.stderr], the text each stream holds, the clock, and
    the [repr] text of the objects whose [repr] the process decides. *)
Record world : Type :=
  mk_world { sys_stdout : stream; sys_stderr : stream;
             buffers : stream -> string; clock : float;
             object_repr : value -> string }.

Definition write_buffers (b : stream -> string) (s : stream) (t : string)
  : stream -> string :=
  fun s' => if stream_eqb s' s then b s' ++ t else b s'.

Definition apply_log (b : stream -> string) (l : log) : stream -> string :=
  fold_left (fun b st => write_buffers b (fst st) (snd st)) l b.

(** The result dict of [execute_code] / [execute_agent_code]. *)
Definition envelope := ns.

Definition result_init : envelope :=
  [("success", VBool true); ("output", VStr ""); ("result", VNone); ("error", VNone)].

(** A call of [execute_code] and the functions around it either ends (it
    returns or raises) with the environment and the process state after it,
    or runs into a construct outside the modelled fragment, which fixes
    neither its result nor any later state. *)
Inductive outcome : Type :=
| Done (r : py_ret envelope) (env : CodeExecutionEnvironment) (w : world)
| NotModelled (what : string).

Definition envelope_of (o : outcome) : option (py_ret envelope) :=
  match o with
  | Done r _ _ => Some r
  | NotModelled _ => None
  end.

(** The context a program runs in during [execute_code]. *)
Definition run_ctx (w : world) : ctx := mk_ctx CaptureOut CaptureErr (clock w) (object_repr w).

(** ** The skill store ([src/agent.py]) *)

(** [s.replace(old, new)]: every non-overlapping occurrence, scanning left
    to right; with an empty [old], [new] goes around every code point. *)
Fixpoint replace_empty (cps : list N) (new : string) : string :=
  match cps with
  | [] => new
  | cp :: rest => new ++ utf8_encode cp ++ replace_empty rest new
  end.

Fixpoint replace_nonempty (fuel : nat) (old new s : string) : string :=
  match fuel with
  | O => s
  | S f =>
      match s with
      | EmptyString => EmptyString
      | String ch rest =>
          if String.prefix old s
          then new ++ replace_nonempty f old new
                        (substring (String.length old) (String.length s - String.length old) s)
          else String ch (replace_nonempty f old new rest)
      end
  end.

Definition py_replace (s old new : string) : string :=
  if String.eqb old "" then replace_empty (code_points s) new
  else replace_nonempty (String.length s) old new s.

(** [f"{{{{{key}}}}}"]. *)
Definition marker (key : string) : string := "{{" ++ key ++ "}}".

(** The loop of [execute_skill]: one [replace] per keyword argument, in
    order, each on the text the previous ones produced. *)
Definition substitute (r : value -> string) (code : string) (kwargs : list (string * value))
  : string :=
  fold_left (fun code kv => py_replace code (marker (fst kv)) (py_str r (snd kv))) kwargs code.

Record Agent : Type := mk_agent { skills : list (string * string) }.

Definition Agent_init : Agent := mk_agent [].

(** [print(text)] on the current [sys.stdout]. *)
Definition print_line (w : world) (text : string) : world :=
  mk_world (sys_stdout w) (sys_stderr w)
    (write_buffers (buffers w) (sys_stdout w) (text ++ newline)) (clock w) (object_repr w).

(** [Agent.save_skill]: store, then [print] the confirmation. *)
Definition save_skill (self : Agent) (skill_name code : string) (w : world) : Agent * world :=
  (mk_agent (ns_set skill_name code (skills self)),
   print_line w ("Skill '" ++ skill_name ++ "' saved successfully")).

Section Frontend.

(** CPython's [ast.parse]. *)
Variable ast_parse : string -> parse_result.

Definition validate_code (code : string) : py_ret verdict := validate_tree (ast_parse code).

(** [compile_restricted_exec(code)]: [_compile_restricted_mode] with
    [filename='<string>']; [except (TypeError, ValueError)] records [str(e)],
    [except SyntaxError] records the line of [syntax_error_template];
    another exception of [ast.parse] propagates. *)
Definition compile_restricted_exec (code : string) : res CompileResult :=
  match ast_parse code with
  | ParseOk m => compile_tree m
  | ParseSyntaxError cls msg lineno text =>
      Ok (mk_compile_result None [syntax_error_entry cls msg lineno text])
  | ParseRaises cls msg =>
      if mem_string cls caught_parse_errors then Ok (mk_compile_result None [msg])
      else Exn (exc cls msg)
  end.

(** [CodeExecutionEnvironment.execute_code(self, code)]: the new
    environment (its [safe_globals] dict is shared with the executed code),
    and the process state after the [finally] clause. *)
Definition execute_code (self : CodeExecutionEnvironment) (code : string) (w : world)
  : outcome :=
  let result := result_init in
  let old_stdout := sys_stdout w in
  let old_stderr := sys_stderr w in
  (* stdout_capture = io.StringIO(); stderr_capture = io.StringIO() *)
  let fresh := fun s => if stream_eqb s CaptureOut || stream_eqb s CaptureErr
                        then "" else buffers w s in
  (* sys.stdout = stdout_capture; sys.stderr = stderr_capture *)
  let w1 := mk_world CaptureOut CaptureErr fresh (clock w) (object_repr w) in
  (* finally: sys.stdout = old_stdout; sys.stderr = old_stderr *)
  let restore (w' : world) :=
    mk_world old_stdout old_stderr (buffers w') (clock w') (object_repr w') in
  (* except Exception as e *)
  let fault (e : value) (self' : CodeExecutionEnvironment) (w' : world) : outcome :=
    if is_Exception e then
      Done (Returned (ns_set "output" (VStr (buffers w' CaptureOut))
                        (ns_set "error" (VStr (py_str (object_repr w') e))
                           (ns_set "success" (VBool false) result))))
           self' (restore w')
    else Done (Raises e) self' (restore w') in
  match compile_restricted_exec code with
  | Unmodelled what => NotModelled what
  | Exn e => fault e self w1
  | Ok cr =>
      match error_log cr with
      | _ :: _ =>
          Done (Returned (ns_set "error" (VStr ("Compilation errors: " ++ str_tuple (error_log cr)))
                            (ns_set "success" (VBool false) result)))
               self (restore w1)
      | [] =>
          match byte_code cr with
          | None =>
              Done (Returned (ns_set "error" (VStr "Compilation failed: returned None")
                                (ns_set "success" (VBool false) result)))
                   self (restore w1)
          | Some m =>
              let '(r, fr, l) := exec_module m (run_ctx w1) (safe_globals self) in
              let self' := mk_env (f_globals fr) in
              let w2 := mk_world CaptureOut CaptureErr (apply_log (buffers w1) l)
                                 (clock w1) (object_repr w1) in
              match r with
              | Ok _ =>
                  Done (Returned (ns_set "result"
                                    (match ns_get "result" (f_locals fr) with
                                     | Some v => v | None => VNone end)
                                    (ns_set "output" (VStr (buffers w2 CaptureOut)) result)))
                       self' (restore w2)
              | Exn e => fault e self' w2
              | Unmodelled what => NotModelled what
              end
          end
      end
  end.

(** [execute_agent_code(code)] on the module-level [execution_env]. *)
Definition execute_agent_code (execution_env : CodeExecutionEnvironment) (code : string)
  (w : world) : outcome :=
  match validate_code code with
  | Raises e => Done (Raises e) execution_env w
  | Returned validation_result =>
      if negb (valid validation_result) then
        Done (Returned [("success", VBool false);
                        ("error", VStr ("Code validation failed: "
                                        ++ str_list (errors validation_result)))])
             execution_env w
      else execute_code execution_env code w
  end.

(** The call [agent.execute_skill(skill_name, **kwargs)]: Python binds the
    arguments first (a keyword [skill_name] collides with the positional
    parameter), then runs the body. *)
Definition execute_skill (self : Agent) (skill_name : string)
  (kwargs : list (string * value)) (execution_env : CodeExecutionEnvironment) (w : world)
  : outcome :=
  if mem_string "skill_name" (ns_keys kwargs) then
    Done (Raises (exc "TypeError"
                    "Agent.execute_skill() got multiple values for argument 'skill_name'"))
         execution_env w
  else
    match ns_get skill_name (skills self) with
    | None =>
        Done (Returned [("success", VBool false);
                        ("error", VStr ("Skill '" ++ skill_name ++ "' not found"))])
             execution_env w
    | Some code => execute_agent_code execution_env (substitute (object_repr w) code kwargs) w
    end.

End Frontend.

(** ** Task code generation ([Agent.generate_code_for_task], [Agent.execute_task]) *)

(** Lines, each followed by a newline. *)
Fixpoint unlines (xs : list string) : string :=
  match xs with
  | [] => EmptyString
  | x :: xs' => x ++ newline ++ unlines xs'
  end.

(** The three fixed templates of [generate_code_for_task], line by line. *)
Definition download_template : string :=
  newline ++ unlines
    ["# 从Google Drive下载会议纪要";
     "document = get_document(" ++ dq ++ "abc123" ++ dq ++ ")";
     EmptyString;
     "# 提取文档内容";
     "content = document[" ++ dq ++ "result" ++ dq ++ "][" ++ dq ++ "content" ++ dq ++ "]";
     EmptyString;
     "# 更新Salesforce记录";
     "update_result = update_salesforce_record(" ++ dq ++ "rec123" ++ dq ++ ", {" ++ dq ++ "meeting_notes" ++ dq ++ ": content})";
     EmptyString;
     "# 返回结果";
     "result = {";
     "    " ++ dq ++ "document_title" ++ dq ++ ": document[" ++ dq ++ "result" ++ dq ++ "][" ++ dq ++ "title" ++ dq ++ "], ";
     "    " ++ dq ++ "update_status" ++ dq ++ ": update_result[" ++ dq ++ "result" ++ dq ++ "][" ++ dq ++ "status" ++ dq ++ "],";
     "    " ++ dq ++ "message" ++ dq ++ ": " ++ dq ++ "Successfully updated Salesforce with meeting notes" ++ dq;
     "}"].

Definition spreadsheet_template : string :=
  newline ++ unlines
    ["# 获取大量电子表格数据";
     "sheet_data = get_sheet_data(" ++ dq ++ "sheet123" ++ dq ++ ")";
     EmptyString;
     "# 在代码执行环境中过滤和聚合数据";
     "total_employees = len(sheet_data[" ++ dq ++ "result" ++ dq ++ "])";
     "departments = {}";
     "emails = []";
     "for row in sheet_data[" ++ dq ++ "result" ++ dq ++ "]:";
     "    dept = row[" ++ dq ++ "department" ++ dq ++ "]";
     "    departments[dept] = departments.get(dept, 0) + 1";
     "    emails.append(row[" ++ dq ++ "email" ++ dq ++ "])";
     EmptyString;
     "# 只返回摘要信息，不返回完整数据集";
     "result = {";
     "    " ++ dq ++ "total_employees" ++ dq ++ ": total_employees,";
     "    " ++ dq ++ "departments" ++ dq ++ ": departments,";
     "    " ++ dq ++ "sample_emails" ++ dq ++ ": emails[:3]  # 只返回前3个邮箱作为样本";
     "}"].

Definition poll_template : string :=
  newline ++ unlines
    ["# 轮询Slack直到找到部署完成消息";
     "start_time = time.time()";
     "timeout = 300  # 5分钟超时";
     EmptyString;
     "while time.time() - start_time < timeout:";
     "    messages = get_slack_messages(" ++ dq ++ "deploy-channel" ++ dq ++ ")";
     "    ";
     "    # 检查是否有部署完成的消息";
     "    for msg in messages[" ++ dq ++ "result" ++ dq ++ "]:";
     "        if " ++ dq ++ "部署完成" ++ dq ++ " in msg[" ++ dq ++ "text" ++ dq ++ "] or " ++ dq ++ "deployment complete" ++ dq ++ " in msg[" ++ dq ++ "text" ++ dq ++ "]:";
     "            result = {";
     "                " ++ dq ++ "status" ++ dq ++ ": " ++ dq ++ "success" ++ dq ++ ",";
     "                " ++ dq ++ "message" ++ dq ++ ": msg[" ++ dq ++ "text" ++ dq ++ "],";
     "                " ++ dq ++ "timestamp" ++ dq ++ ": msg[" ++ dq ++ "ts" ++ dq ++ "]";
     "            }";
     "            break";
     "    else:";
     "        # 如果没有找到完成消息，等待5秒后重试";
     "        import time; time.sleep(5)  # 注意：在实际实现中，可能需要避免使用sleep";
     "        continue";
     "    break";
     "else:";
     "    # 如果超时仍未找到";
     "    result = {";
     "        " ++ dq ++ "status" ++ dq ++ ": " ++ dq ++ "timeout" ++ dq ++ ",";
     "        " ++ dq ++ "message" ++ dq ++ ": " ++ dq ++ "Deployment completion message not found within timeout" ++ dq;
     "    }"].

(** The f-string of the last branch: the task description is spliced in
    twice, unescaped, after the comment marker and inside a string literal;
    so the generated program is whatever source the description makes it. *)
Definition default_template (task_description : string) : string :=
  newline ++ "# 执行任务: " ++ task_description ++ newline ++ unlines
    [EmptyString;
     "# 这里可以添加根据任务描述自动生成的代码";
     "result = {";
     "    " ++ dq ++ "task" ++ dq ++ ": " ++ dq ++ task_description ++ dq ++ ",";
     "    " ++ dq ++ "status" ++ dq ++ ": " ++ dq ++ "completed" ++ dq ++ ",";
     "    " ++ dq ++ "message" ++ dq ++ ": " ++ dq ++ "Task completed using code execution paradigm" ++ dq;
     "}"].

Section Tasks.

Variable ast_parse : string -> parse_result.

(** CPython's [str.lower]. *)
Variable str_lower : string -> string.

Definition generate_code_for_task (task_description : string) : string :=
  if py_contains "download document" (str_lower task_description) &&
     py_contains "update salesforce" (str_lower task_description)
  then download_template
  else if py_contains "process large spreadsheet" (str_lower task_description)
  then spreadsheet_template
  else if py_contains "poll slack" (str_lower task_description)
  then poll_template
  else default_template task_description.

(** [Agent.execute_task]: two [print] calls, then [execute_agent_code]. *)
Definition execute_task (self : Agent) (task_description : string)
  (execution_env : CodeExecutionEnvironment) (w : world) : outcome :=
  let w1 := print_line w ("Agent received task: " ++ task_description) in
  let code := generate_code_for_task task_description in
  let w2 := print_line w1 ("Generated code:" ++ newline ++ code) in
  execute_agent_code ast_parse execution_env code w2.

End Tasks.

(** ** CPython's parse of the sample sources *)

(** [re.enum.sys.stdout.write(text)] on line [ln]. *)
Definition write_stmt (ln : Z) (text : string) : stmt :=
  Expr (Call (Attribute (Attribute (Attribute (Attribute (Name "re" ln) "enum" ln) "sys" ln)
                                   "stdout" ln) "write" ln)
             [Constant (KStr text)]).

(** A line written to [sys.stdout], then [raise ValueError()]. *)
Definition fault_source : string :=
  "re.enum.sys.stdout.write('a\n')" ++ newline ++ "raise ValueError()".

Definition fault_module : module :=
  [write_stmt 1 ("a" ++ newline); Raise (Some (Call (Name "ValueError" 2) []))].

(** An unknown document stored in [result], then a fault. *)
Definition get_document_fault_source : string :=
  "result = get_document('zzz')" ++ newline ++ "raise ValueError()".

(** The assignment of [get_document(d)] to [result] on line [ln]. *)
Definition get_document_stmt (ln : Z) (d : string) : stmt :=
  Assign (Name "result" ln) (Call (Name "get_document" ln) [Constant (KStr d)]).

Definition sample_sources : list (string * module) :=
  [("import os", [Import [mk_alias "os" None] 1]);
   ("import os.path", [Import [mk_alias "os.path" None] 1]);
   ("from os import system", [ImportFrom (Some "os") [mk_alias "system" None] 0 1]);
   ("from math import *", [ImportFrom (Some "math") [mk_alias "*" None] 0 1]);
   ("re.enum.sys.stdout.write('hi')", [write_stmt 1 "hi"]);
   (fault_source, fault_module);
   (get_document_fault_source,
      [get_document_stmt 1 "zzz"; Raise (Some (Call (Name "ValueError" 2) []))]);
   ("global x" ++ newline ++ "x = 1", [Global ["x"] 1; Assign (Name "x" 2) (Constant (KInt 1))]);
   ("x = 1" ++ newline ++ "global x", [Assign (Name "x" 1) (Constant (KInt 1)); Global ["x"] 2]);
   ("result = x", [Assign (Name "result" 1) (Name "x" 1)]);
   ("result = '{{a}}'", [Assign (Name "result" 1) (Constant (KStr "{{a}}"))]);
   ("result = '{{b}}'", [Assign (Name "result" 1) (Constant (KStr "{{b}}"))]);
   ("result = '{{skill_name}}'", [Assign (Name "result" 1) (Constant (KStr "{{skill_name}}"))]);
   ("result = 'x'", [Assign (Name "result" 1) (Constant (KStr "x"))]);
   ("result = get_document('zzz')", [get_document_stmt 1 "zzz"]);
   ("print('hi')", [Expr (Call (Name "print" 1) [Constant (KStr "hi")])]);
   ("x = 1", [Assign (Name "x" 1) (Constant (KInt 1))]);
   ("x = {'a': eval('1')}",
      [Assign (Name "x" 1) (Dict [(Constant (KStr "a"), Call (Name "eval" 1) [Constant (KStr "1")])])]);
   ("global result" ++ newline ++ "result = 1",
      [Global ["result"] 1; Assign (Name "result" 2) (Constant (KInt 1))]);
   ("_x = 1", [Assign (Name "_x" 1) (Constant (KInt 1))]);
   ("import math", [Import [mk_alias "math" None] 1]);
   (default_template "x",
      [Assign (Name "result" 5)
         (Dict [(Constant (KStr "task"), Constant (KStr "x"));
                (Constant (KStr "status"), Constant (KStr "completed"));
                (Constant (KStr "message"),
                 Constant (KStr "Task completed using code execution paradigm"))])])].

(** [ast.parse] on the sources used in the examples and witnesses below,
    as CPython 3.11 parses them, [if x] included.  Every other source is
    mapped to a [SyntaxError] as a placeholder: no statement below is
    evaluated on one. *)
Definition sample_ast_parse (src : string) : parse_result :=
  if String.eqb src "if x" then
    ParseSyntaxError "SyntaxError" "expected ':'" (Some 1%Z) (Some ("if x" ++ newline))
  else
    match ns_get src sample_sources with
    | Some m => ParseOk m
    | None => ParseSyntaxError "SyntaxError" "invalid syntax" (Some 1%Z) (Some src)
    end.

(** A process with the host's channels in place, before any call (with
    some text for the [repr] the process decides). *)
Definition host_world : world :=
  mk_world HostStdout HostStderr (fun _ => "") 0%float (fun _ => "<object>").

(** ** Auxiliary definitions *)

(** The text a log writes to one stream. *)
Fixpoint written_to (s : stream) (l : log) : string :=
  match l with
  | [] => ""
  | (s', t) :: l' => (if stream_eqb s' s then t else "") ++ written_to s l'
  end.

(** Names a statement binds in the namespace it runs in. *)
Fixpoint first_component (s : string) : string :=
  match s with
  | EmptyString => EmptyString
  | String ch rest => if Ascii.eqb ch "."%char then EmptyString else String ch (first_component rest)
  end.

Definition stmt_assigned (s : stmt) : list string :=
  match s with
  | Assign (Name x _) _ => [x]
  | Import names _ =>
      map (fun a => match asname a with Some x => x | None => first_component (alias_name a) end) names
  | ImportFrom _ names _ _ =>
      map (fun a => match asname a with Some x => x | None => alias_name a end) names
  | _ => []
  end.

Definition assigned_names (ss : list stmt) : list string := flat_map stmt_assigned ss.

Definition envelope_keys : list string := ["success"; "output"; "result"; "error"].

Definition init_globals : ns := safe_globals CodeExecutionEnvironment_init.

(** The envelope of a caught fault with output [out] and message [msg]. *)
Definition fault_envelope (out msg : string) : envelope :=
  [("success", VBool false); ("output", VStr out); ("result", VNone); ("error", VStr msg)].

(** The envelope of a completed run. *)
Definition completed_envelope (out : string) (res : value) : envelope :=
  [("success", VBool true); ("output", VStr out); ("result", res); ("error", VNone)].

(** The number of nodes under a node, itself included. *)
Definition node_size (n : node) : nat :=
  match n with
  | NModule m => module_size m
  | NStmt s => stmt_size s
  | NExpr e => expr_size e
  | NAlias _ => 1
  end.

(** [d] is [n] or a node under it (children as [ast.iter_child_nodes] lists them). *)
Inductive reach : node -> node -> Prop :=
| reach_refl n : reach n n
| reach_step n c d : In c (iter_child_nodes n) -> reach c d -> reach n d.

Definition is_import (s : stmt) : bool :=
  match s with
  | Import _ _ | ImportFrom _ _ _ _ => true
  | _ => false
  end.

(** The operations each tool's [execute] handles. *)
Definition supported_operations (tool : string) : list string :=
  if String.eqb tool "google_drive" then ["get_document"; "upload_file"]
  else if String.eqb tool "salesforce" then ["update_record"; "query_records"]
  else if String.eqb tool "slack" then ["send_message"; "get_messages"]
  else if String.eqb tool "google_sheets" then ["get_sheet_data"; "update_sheet"]
  else [].

Definition tool_names : list string := ["google_drive"; "salesforce"; "slack"; "google_sheets"].

Section ExprInd.

Variable P : expr -> Prop.
Hypothesis HConstant : forall k, P (Constant k).
Hypothesis HName : forall id ln, P (Name id ln).
Hypothesis HAttribute : forall o a ln, P o -> P (Attribute o a ln).
Hypothesis HCall : forall fn args, P fn -> Forall P args -> P (Call fn args).
Hypothesis HDict : forall items,
  Forall (fun kv => P (fst kv) /\ P (snd kv)) items -> P (Dict items).

(** Induction on expressions, with the hypotheses on the list elements. *)
Fixpoint expr_ind' (e : expr) : P e :=
  match e with
  | Constant k => HConstant k
  | Name id ln => HName id ln
  | Attribute o a ln => HAttribute o a ln (expr_ind' o)
  | Call fn args =>
      HCall fn args (expr_ind' fn)
        ((fix go (l : list expr) : Forall P l :=
            match l with
            | [] => @Forall_nil _ P
            | x :: l' => @Forall_cons _ P x l' (expr_ind' x) (go l')
            end) args)
  | Dict items =>
      HDict items
        ((fix go (l : list (expr * expr))
            : Forall (fun kv => P (fst kv) /\ P (snd kv)) l :=
            match l with
            | [] => @Forall_nil _ _
            | (k, v) :: l' => @Forall_cons _ _ (k, v) l' (conj (expr_ind' k) (expr_ind' v)) (go l')
            end) items)
  end.

End ExprInd.

(** ** Programs without attribute access *)

(** Values through which a program reaches no stream: no file object, no
    bound method, and not the [getattr] builtin. *)
Fixpoint harmless (v : value) : bool :=
  match v with
  | VStream _ | VMethod _ _ => false
  | VBuiltin n => negb (String.eqb n "getattr")
  | VList xs => forallb harmless xs
  | VDict kvs => forallb (fun kv => harmless (fst kv) && harmless (snd kv)) kvs
  | VExc _ args => forallb harmless args
  | _ => true
  end.

(** Expressions with no [o.a] node. *)
Fixpoint attr_free (e : expr) : bool :=
  match e with
  | Constant _ | Name _ _ => true
  | Attribute _ _ _ => false
  | Call fn args => attr_free fn && forallb attr_free args
  | Dict items => forallb (fun kv => attr_free (fst kv) && attr_free (snd kv)) items
  end.

Definition attr_free_stmt (s : stmt) : bool :=
  match s with
  | Assign t v => attr_free t && attr_free v
  | Expr v | Raise (Some v) => attr_free v
  | _ => true
  end.

(** The names RestrictedPython lets a program use: no leading underscore,
    or the name [_] itself. *)
Definition user_name (id : string) : bool :=
  negb (String.prefix "_" id) || String.eqb id "_".

(** A globals dict whose user names, whose builtins and whose print hook
    [_print_] are all harmless (the environment as [__init__] builds it is
    one). *)
Definition globals_ok (g : ns) : bool :=
  forallb (fun kv => negb (user_name (fst kv)) || harmless (snd kv)) g &&
  match ns_get "__builtins__" g with
  | Some (VDict d) => forallb (fun kv => harmless (snd kv)) d
  | _ => true
  end &&
  match ns_get "_print_" g with Some v => harmless v | None => true end.

(** Every user name resolves to a harmless value. *)
Definition frame_ok (f : frame) : Prop :=
  forall id v, user_name id = true -> lookup_name f id = Some v -> harmless v = true.

(** An evaluation that writes nothing and whose value, if any, satisfies [ok]. *)
Definition quiet {A} (ok : A -> bool) (r : res A * log) : Prop :=
  snd r = [] /\ forall a, fst r = Ok a -> ok a = true.

(** The list loops of [eval_expr], as top-level functions. *)
Fixpoint eval_exprs (es : list expr) : Eval (list value) :=
  match es with
  | [] => ret []
  | e1 :: es' => v <- eval_expr e1 ;; vs <- eval_exprs es' ;; ret (v :: vs)
  end.

Fixpoint eval_pairs (its : list (expr * expr)) : Eval (list (value * value)) :=
  match its with
  | [] => ret []
  | (k, v) :: its' =>
      kv <- eval_expr k ;; vv <- eval_expr v ;; rest <- eval_pairs its' ;;
      ret ((kv, vv) :: rest)
  end.

(** ** Facts about the dicts and the text *)

Example validate_import_os :
  validate_code sample_ast_parse "import os" =
  Returned (mk_verdict false ["Dangerous import: os"]).
Proof. reflexivity. Qed.

Lemma ns_get_set_eq {A} (k : string) (v : A) (d : list (string * A)) :
  ns_get k (ns_set k v d) = Some v.
Proof.
  induction d as [|[k' v'] d IH]; simpl.
  - now rewrite String.eqb_refl.
  - destruct (String.eqb k k') eqn:E; simpl.
    + now rewrite E.
    + now rewrite E.
Qed.

Lemma ns_get_set_neq {A} (k x : string) (v : A) (d : list (string * A)) :
  k <> x -> ns_get k (ns_set x v d) = ns_get k d.
Proof.
  intros Hne. induction d as [|[k' v'] d IH]; simpl.
  - destruct (String.eqb k x) eqn:E; [apply String.eqb_eq in E; congruence | reflexivity].
  - destruct (String.eqb x k') eqn:E; simpl.
    + apply String.eqb_eq in E; subst k'.
      destruct (String.eqb k x) eqn:E2; [apply String.eqb_eq in E2; congruence | reflexivity].
    + destruct (String.eqb k k'); [reflexivity | exact IH].
Qed.

Lemma str_app_assoc (a b c : string) : (a ++ b) ++ c = a ++ (b ++ c).
Proof. induction a as [|ch a IH]; simpl; [reflexivity | now rewrite IH]. Qed.

Lemma str_app_nil_r (a : string) : a ++ "" = a.
Proof. induction a as [|ch a IH]; simpl; [reflexivity | now rewrite IH]. Qed.

Lemma stream_eqb_sym (a b : stream) : stream_eqb a b = stream_eqb b a.
Proof. destruct a, b; reflexivity. Qed.

Lemma apply_log_at (l : log) (b : stream -> string) (s : stream) :
  apply_log b l s = b s ++ written_to s l.
Proof.
  revert b. induction l as [|[s' t] l IH]; intros b; simpl.
  - now rewrite str_app_nil_r.
  - unfold apply_log in IH |- *. simpl. rewrite IH. unfold write_buffers.
    rewrite (stream_eqb_sym s s').
    destruct (stream_eqb s' s); simpl; rewrite ?str_app_assoc; reflexivity.
Qed.

Lemma mem_string_false (x : string) (xs : list string) :
  ~ In x xs -> mem_string x xs = false.
Proof.
  intros Hn. unfold mem_string. apply Bool.not_true_iff_false. intros H.
  apply existsb_exists in H as [y [Hy Heq]]. apply String.eqb_eq in Heq. subst y.
  exact (Hn Hy).
Qed.

Lemma mem_string_In (x : string) (xs : list string) : In x xs -> mem_string x xs = true.
Proof.
  intros H. unfold mem_string. apply existsb_exists. exists x.
  split; [exact H | apply String.eqb_refl].
Qed.

(** ** Statements and frames *)

Lemma exec_body_cons (s : stmt) (ss : list stmt) (c : ctx) (f : frame) :
  exec_body (s :: ss) c f =
  match exec_stmt s c f with
  | (Ok _, f1, l1) => let '(r, f2, l2) := exec_body ss c f1 in (r, f2, (l1 ++ l2)%list)
  | (r, f1, l1) => (r, f1, l1)
  end.
Proof. reflexivity. Qed.


Lemma exec_stmt_locals (s : stmt) (c : ctx) (f : frame) (k : string) :
  ~ In k (stmt_assigned s) ->
  ns_get k (f_locals (snd (fst (exec_stmt s c f)))) = ns_get k (f_locals f).
Proof.
  intros Hk. destruct s as [names ln|mn names lv ln|t v|v|[e|]|xs ln|]; simpl.
  - destruct (builtins_lookup _ _); reflexivity.
  - destruct (builtins_lookup _ _); reflexivity.
  - destruct t as [cst|x ln|o a ln|fn args|items]; simpl; try reflexivity.
    + destruct (eval_expr v c f) as [[vv|e|w] l]; simpl; try reflexivity.
      unfold store_name. destruct (mem_string x (f_global_names f)); simpl; [reflexivity|].
      apply ns_get_set_neq. simpl in Hk. intros ->. apply Hk. now left.
    + destruct (bind _ _ c f) as [r l]; reflexivity.
  - destruct (eval_expr v c f); reflexivity.
  - destruct (eval_expr e c f) as [[vv|ee|w] l]; reflexivity.
  - reflexivity.
  - reflexivity.
  - reflexivity.
Qed.

Lemma exec_body_locals (ss : list stmt) (c : ctx) (f : frame) (k : string) :
  ~ In k (assigned_names ss) ->
  ns_get k (f_locals (snd (fst (exec_body ss c f)))) = ns_get k (f_locals f).
Proof.
  revert f. induction ss as [|s ss IH]; intros f Hk; simpl; [reflexivity|].
  unfold assigned_names in Hk; simpl in Hk.
  assert (Hs : ~ In k (stmt_assigned s)) by (intros H; apply Hk, in_or_app; now left).
  assert (Hss : ~ In k (assigned_names ss)) by (intros H; apply Hk, in_or_app; now right).
  pose proof (exec_stmt_locals s c f k Hs) as Hloc.
  destruct (exec_stmt s c f) as [[r f1] l1]. simpl in Hloc.
  destruct r as [u|e|w]; simpl; try exact Hloc.
  specialize (IH f1 Hss). destruct (exec_body ss c f1) as [[r2 f2] l2]. simpl in *.
  congruence.
Qed.

(** A statement never changes the names declared [global]; without such
    names it leaves the globals alone. *)
Lemma exec_stmt_global_names (s : stmt) (c : ctx) (f : frame) :
  f_global_names (snd (fst (exec_stmt s c f))) = f_global_names f.
Proof.
  destruct s as [names ln|mn names lv ln|t v|v|[e|]|xs ln|]; simpl;
    try (destruct (builtins_lookup _ _); reflexivity).
  - destruct t as [cst|x ln|o a ln|fn args|items]; simpl; try reflexivity.
    + destruct (eval_expr v c f) as [[vv|e|w] l]; simpl; try reflexivity.
      unfold store_name. destruct (mem_string x (f_global_names f)); reflexivity.
    + destruct (bind _ _ c f) as [r l]; reflexivity.
  - destruct (eval_expr v c f); reflexivity.
  - destruct (eval_expr e c f) as [[vv|ee|w] l]; reflexivity.
  - reflexivity.
  - reflexivity.
  - reflexivity.
Qed.

Lemma exec_stmt_globals (s : stmt) (c : ctx) (f : frame) :
  f_global_names f = [] ->
  f_globals (snd (fst (exec_stmt s c f))) = f_globals f.
Proof.
  intros Hg. destruct s as [names ln|mn names lv ln|t v|v|[e|]|xs ln|]; simpl;
    try (destruct (builtins_lookup _ _); reflexivity).
  - destruct t as [cst|x ln|o a ln|fn args|items]; simpl; try reflexivity.
    + destruct (eval_expr v c f) as [[vv|e|w] l]; simpl; try reflexivity.
      unfold store_name. rewrite Hg. reflexivity.
    + destruct (bind _ _ c f) as [r l]; reflexivity.
  - destruct (eval_expr v c f); reflexivity.
  - destruct (eval_expr e c f) as [[vv|ee|w] l]; reflexivity.
  - reflexivity.
  - reflexivity.
  - reflexivity.
Qed.

Lemma exec_body_globals (ss : list stmt) (c : ctx) (f : frame) :
  f_global_names f = [] ->
  f_globals (snd (fst (exec_body ss c f))) = f_globals f.
Proof.
  revert f. induction ss as [|s ss IH]; intros f Hg; simpl; [reflexivity|].
  pose proof (exec_stmt_globals s c f Hg) as H1.
  pose proof (exec_stmt_global_names s c f) as H2.
  destruct (exec_stmt s c f) as [[r f1] l1]. simpl in H1, H2.
  destruct r as [u|e|w]; simpl; try exact H1.
  rewrite Hg in H2. specialize (IH f1 H2). destruct (exec_body ss c f1) as [[r2 f2] l2].
  simpl in *. congruence.
Qed.

Lemma exec_module_globals (m : module) (c : ctx) (g : ns) :
  global_names m = [] -> f_globals (snd (fst (exec_module m c g))) = g.
Proof.
  intros Hg. unfold exec_module. rewrite Hg.
  destruct (ns_get "__builtins__" g) as [[| | | | | | |kvs| | | | |]|]; try reflexivity.
  apply (exec_body_globals _ c (mk_frame g [] [])). reflexivity.
Qed.

Lemma exec_stmt_global_local (s : stmt) (c : ctx) (f : frame) (k : string) :
  mem_string k (f_global_names f) = true ->
  ns_get k (f_locals (snd (fst (exec_stmt s c f)))) = ns_get k (f_locals f).
Proof.
  intros Hk. destruct s as [names ln|mn names lv ln|t v|v|[e|]|xs ln|]; simpl;
    try (destruct (builtins_lookup _ _); reflexivity).
  - destruct t as [cst|x ln|o a ln|fn args|items]; simpl; try reflexivity.
    + destruct (eval_expr v c f) as [[vv|e|w] l]; simpl; try reflexivity.
      unfold store_name. destruct (mem_string x (f_global_names f)) eqn:Ex; simpl;
        [reflexivity|].
      apply ns_get_set_neq. intros ->. congruence.
    + destruct (bind _ _ c f) as [r l]; reflexivity.
  - destruct (eval_expr v c f); reflexivity.
  - destruct (eval_expr e c f) as [[vv|ee|w] l]; reflexivity.
  - reflexivity.
  - reflexivity.
  - reflexivity.
Qed.

Lemma exec_body_global_local (ss : list stmt) (c : ctx) (f : frame) (k : string) :
  mem_string k (f_global_names f) = true ->
  ns_get k (f_locals (snd (fst (exec_body ss c f)))) = ns_get k (f_locals f).
Proof.
  revert f. induction ss as [|s ss IH]; intros f Hk; simpl; [reflexivity|].
  pose proof (exec_stmt_global_local s c f k Hk) as H2.
  pose proof (exec_stmt_global_names s c f) as H1.
  destruct (exec_stmt s c f) as [[r f1] l1]. simpl in H1, H2.
  destruct r as [u|e|w]; simpl; try exact H2.
  rewrite <- H1 in Hk. specialize (IH f1 Hk).
  destruct (exec_body ss c f1) as [[r2 f2] l2]. simpl in *. congruence.
Qed.

(** ** Programs without attribute access write nothing *)

Lemma eval_expr_Call (fn : expr) (args : list expr) :
  eval_expr (Call fn args) = (fv <- eval_expr fn ;; vs <- eval_exprs args ;; call_value fv vs).
Proof.
  simpl.
  match goal with
  | |- bind _ (fun fv => bind (?F args) _) = _ =>
      assert (HF : forall es, F es = eval_exprs es)
        by (induction es as [|a es IH]; simpl; [reflexivity | rewrite IH; reflexivity])
  end.
  rewrite HF. reflexivity.
Qed.

Lemma eval_expr_Dict (items : list (expr * expr)) :
  eval_expr (Dict items) = (kvs <- eval_pairs items ;; lift (build_dict kvs [])).
Proof.
  simpl.
  match goal with
  | |- bind (?F items) _ = _ =>
      assert (HF : forall its, F its = eval_pairs its)
        by (induction its as [|[k v] its IH]; simpl; [reflexivity | rewrite IH; reflexivity])
  end.
  rewrite HF. reflexivity.
Qed.

Lemma bind_quiet {A B} (okA : A -> bool) (okB : B -> bool) (m : Eval A) (k : A -> Eval B)
  (c : ctx) (f : frame) :
  quiet okA (m c f) ->
  (forall a, okA a = true -> quiet okB (k a c f)) ->
  quiet okB (bind m k c f).
Proof.
  unfold bind. intros [Hl Hok] Hk.
  destruct (m c f) as [[a|e|w] l]; simpl in Hl, Hok; subst l.
  - specialize (Hk a (Hok a eq_refl)). destruct (k a c f) as [r l2]. destruct Hk as [Hl2 Hok2].
    simpl in *. subst l2. split; [reflexivity | exact Hok2].
  - split; [reflexivity | discriminate].
  - split; [reflexivity | discriminate].
Qed.

Lemma ret_quiet {A} (ok : A -> bool) (a : A) (c : ctx) (f : frame) :
  ok a = true -> quiet ok (ret a c f).
Proof. intros H. split; [reflexivity | intros a' E; inversion E; subst; exact H]. Qed.

Lemma harmless_sdict (kvs : list (string * value)) :
  harmless (sdict kvs) = forallb (fun kv => harmless (snd kv)) kvs.
Proof. unfold sdict. induction kvs as [|[k v] kvs IH]; simpl in *; [reflexivity|]. now rewrite IH. Qed.

Lemma harmless_kw_get (kw : list (string * value)) (k : string) (dflt : value) :
  forallb (fun kv => harmless (snd kv)) kw = true -> harmless dflt = true ->
  harmless (kw_get kw k dflt) = true.
Proof.
  unfold kw_get. induction kw as [|[k' v'] kw IH]; simpl; intros H Hd; [exact Hd|].
  apply andb_prop in H as [H1 H2]. destruct (String.eqb k k'); auto.
Qed.

Lemma forallb_filter_snd (p : string * value -> bool) (kw : list (string * value)) :
  forallb (fun kv => harmless (snd kv)) kw = true ->
  forallb (fun kv => harmless (snd kv)) (filter p kw) = true.
Proof.
  induction kw as [|kv kw IH]; simpl; [reflexivity|]. intros H.
  apply andb_prop in H as [H1 H2]. destruct (p kv); simpl; rewrite ?H1; auto.
Qed.

Ltac harmless_tool :=
  intros op kw Hkw;
  repeat match goal with
         | |- context [py_eq ?a ?b] => destruct (py_eq a b)
         end;
  rewrite ?harmless_sdict; simpl;
  rewrite ?harmless_kw_get by (auto || reflexivity); try reflexivity.

Lemma google_drive_execute_harmless : forall r op kw,
  forallb (fun kv => harmless (snd kv)) kw = true -> harmless (google_drive_execute r op kw) = true.
Proof. intros r. unfold google_drive_execute. harmless_tool. Qed.

Lemma salesforce_execute_harmless : forall r op kw,
  forallb (fun kv => harmless (snd kv)) kw = true -> harmless (salesforce_execute r op kw) = true.
Proof.
  intros r. unfold salesforce_execute. harmless_tool.
  destruct (kw_get kw "data" VNone); reflexivity.
Qed.

Lemma slack_execute_harmless : forall now r op kw,
  forallb (fun kv => harmless (snd kv)) kw = true -> harmless (slack_execute now r op kw) = true.
Proof. intros now r. unfold slack_execute. harmless_tool. Qed.

Lemma google_sheets_execute_harmless : forall r op kw,
  forallb (fun kv => harmless (snd kv)) kw = true -> harmless (google_sheets_execute r op kw) = true.
Proof. intros r. unfold google_sheets_execute. harmless_tool. Qed.

Lemma call_tool_harmless (c : ctx) (t : value) (kw : list (string * value)) (v : value) :
  forallb (fun kv => harmless (snd kv)) kw = true ->
  call_tool c t kw = Ok v -> harmless v = true.
Proof.
  intros Hkw. unfold call_tool. destruct (negb (hashable t)); [discriminate|].
  pose proof (forallb_filter_snd (fun kv => negb (String.eqb (fst kv) "operation")) kw Hkw) as Hr.
  repeat match goal with
         | |- context [py_eq ?a ?b] => destruct (py_eq a b)
         end;
  destruct (ns_get "operation" kw) as [op|]; intros H; inversion H; subst; clear H;
    rewrite ?harmless_sdict; simpl; try reflexivity.
  - now rewrite google_drive_execute_harmless.
  - now rewrite salesforce_execute_harmless.
  - now rewrite slack_execute_harmless.
  - now rewrite google_sheets_execute_harmless.
Qed.

Lemma capability_params_in (n : string) (ps : list string) :
  capability_params n = Some ps -> In n capability_names /\ ps <> [].
Proof.
  unfold capability_params, capability_names.
  repeat match goal with
         | |- context [String.eqb n ?x] =>
             let E := fresh "E" in
             destruct (String.eqb n x) eqn:E;
             [apply String.eqb_eq in E; subst n; intros H; inversion H; subst;
              split; [simpl; tauto | discriminate] |]
         end.
  discriminate.
Qed.

Lemma call_capability_harmless (c : ctx) (n : string) (ps : list string) (args : list value)
  (v : value) :
  In n capability_names -> forallb harmless args = true ->
  call_capability c n ps args = Ok v -> harmless v = true.
Proof.
  intros Hn Hargs. unfold call_capability.
  destruct (Nat.ltb _ _); [discriminate|]. destruct (Nat.ltb _ _); [discriminate|].
  unfold capability_names in Hn. unfold capability_body.
  destruct Hn as [<-|[<-|[<-|[<-|[<-|[<-|[<-|[]]]]]]]];
    destruct args as [|a1 [|a2 [|a3 args]]]; simpl; try discriminate;
    intros H; (eapply call_tool_harmless; [|exact H]);
    simpl in *; rewrite ?Bool.andb_true_r in *; rewrite ?Bool.andb_true_iff in *; tauto.
Qed.

Ltac quiet_done :=
  split; [reflexivity | intros ? Ha; simpl in Ha; try discriminate].

Lemma call_value_quiet (fn : value) (args : list value) (c : ctx) (f : frame) :
  harmless fn = true -> forallb harmless args = true ->
  quiet harmless (call_value fn args c f).
Proof.
  intros Hfn Hargs.
  destruct fn as [| | | | | | | |s|n|o nm|cls xs|]; simpl in Hfn; try discriminate;
    unfold call_value; try quiet_done.
  - destruct (capability_params n) as [ps|] eqn:Hc.
    + split; [reflexivity|]. intros a Ha. simpl in Ha.
      exact (call_capability_harmless _ _ _ _ _ (proj1 (capability_params_in _ _ Hc)) Hargs Ha).
    + destruct (mem_string n exception_classes).
      * split; [reflexivity|]. intros a Ha. inversion Ha; subst. exact Hargs.
      * apply Bool.negb_true_iff in Hfn. rewrite Hfn.
        destruct (String.eqb n "sys.exit");
          [destruct args as [|? [|? ?]]; quiet_done|].
        destruct (String.eqb n "time.time");
          [destruct args; quiet_done; inversion Ha; reflexivity|].
        quiet_done.
  - destruct args as [|x [|y ys]]; quiet_done.
    inversion Ha; subst. simpl in Hargs. now rewrite Bool.andb_true_r in Hargs.
Qed.

Lemma call_value_nil_quiet (fn : value) (c : ctx) (f : frame) :
  quiet harmless (call_value fn [] c f).
Proof.
  destruct fn as [| | | | | | | |s|n|o nm|cls xs|]; unfold call_value; try quiet_done.
  - destruct (capability_params n) as [ps|] eqn:Hc.
    + pose proof (proj2 (capability_params_in _ _ Hc)) as Hps.
      unfold call_capability. simpl.
      destruct ps as [|p ps]; [congruence|]. quiet_done.
    + destruct (mem_string n exception_classes); [quiet_done; inversion Ha; reflexivity|].
      destruct (String.eqb n "getattr"); [quiet_done|].
      destruct (String.eqb n "sys.exit"); [quiet_done|].
      destruct (String.eqb n "time.time"); [quiet_done; inversion Ha; reflexivity|].
      quiet_done.
  - destruct o; try quiet_done; destruct (negb _); try quiet_done; destruct s; quiet_done.
Qed.

(** [_print._call_print] never yields a value. *)
Lemma py_getattr_call_print (c : ctx) (p v : value) :
  py_getattr c p "_call_print" <> Ok v.
Proof.
  destruct p; simpl; try discriminate;
    repeat match goal with |- context [match ?x with _ => _ end] => destruct x end;
    discriminate.
Qed.

Lemma dict_set_harmless (k v : value) (d : list (value * value)) :
  harmless k = true -> harmless v = true ->
  forallb (fun kv => harmless (fst kv) && harmless (snd kv)) d = true ->
  forallb (fun kv => harmless (fst kv) && harmless (snd kv)) (dict_set k v d) = true.
Proof.
  intros Hk Hv. induction d as [|[k' v'] d IH]; simpl; intros H.
  - now rewrite Hk, Hv.
  - apply andb_prop in H as [H1 H2]. apply andb_prop in H1 as [H1 H3].
    destruct (py_eq k k'); simpl; rewrite H1; simpl; [now rewrite Hv, H2 | now rewrite H3, IH].
Qed.

Lemma build_dict_harmless (kvs acc : list (value * value)) (v : value) :
  forallb (fun kv => harmless (fst kv) && harmless (snd kv)) kvs = true ->
  forallb (fun kv => harmless (fst kv) && harmless (snd kv)) acc = true ->
  build_dict kvs acc = Ok v -> harmless v = true.
Proof.
  revert acc. induction kvs as [|[k w] kvs IH]; simpl; intros acc Hkvs Hacc H.
  - inversion H; subst. exact Hacc.
  - apply andb_prop in Hkvs as [Hkw Hkvs]. apply andb_prop in Hkw as [Hk Hw].
    destruct (hashable k); [|discriminate]. destruct (key_tracked k); [|discriminate].
    exact (IH _ Hkvs (dict_set_harmless _ _ _ Hk Hw Hacc) H).
Qed.

(** A name RestrictedPython's name check accepts is a user name. *)
Lemma check_name_user (ln : Z) (id : string) : check_name ln id = [] -> user_name id = true.
Proof.
  unfold check_name, user_name.
  destruct (String.prefix "_" id), (String.eqb id "_"); simpl; try reflexivity.
  discriminate.
Qed.

Lemma load_name_any (id : string) (c : ctx) (f : frame) :
  quiet (fun _ => true) (load_name id c f).
Proof. unfold load_name. destruct (lookup_name f id); split; reflexivity. Qed.

Lemma load_name_quiet (id : string) (c : ctx) (f : frame) :
  frame_ok f -> user_name id = true -> quiet harmless (load_name id c f).
Proof.
  intros Hf Hid. unfold load_name. destruct (lookup_name f id) as [v|] eqn:E;
    (split; [reflexivity|]); simpl; intros a Ha; inversion Ha; subst.
  exact (Hf id a Hid E).
Qed.

(** Evaluating an attribute-free expression that passed RestrictedPython's
    name check writes nothing and yields a harmless value. *)
Lemma eval_quiet (e : expr) : forall c f,
  frame_ok f -> expr_errors e = [] -> attr_free e = true ->
  quiet harmless (eval_expr e c f).
Proof.
  induction e as [k|id ln|o a ln IH|fn args IHfn IHargs|items IHitems] using expr_ind';
    intros c f Hf Herr Hat.
  - apply ret_quiet. destruct k; reflexivity.
  - simpl. cbn [expr_errors] in Herr.
    destruct (String.eqb id "print") eqn:E1.
    + apply (bind_quiet (fun _ => true)); [apply load_name_any|]. intros p _.
      split; [reflexivity|]. intros a Ha. exfalso. exact (py_getattr_call_print c p a Ha).
    + destruct (String.eqb id "printed") eqn:E2.
      * apply (bind_quiet (fun _ => true)); [apply load_name_any|]. intros p _.
        apply call_value_nil_quiet.
      * assert (Hm : mem_string id ["print"; "printed"] = false)
          by (unfold mem_string; cbn [existsb]; rewrite E1, E2; reflexivity).
        rewrite Hm in Herr.
        apply load_name_quiet; [exact Hf | exact (check_name_user _ _ Herr)].
  - discriminate Hat.
  - rewrite eval_expr_Call. simpl in Herr, Hat.
    apply app_eq_nil in Herr as [Hfe Hae]. apply andb_prop in Hat as [Hfa Haa].
    apply (bind_quiet harmless); [apply IHfn; assumption|]. intros fv Hfv.
    apply (bind_quiet (forallb harmless)).
    + clear Hfe Hfa IHfn Hfv. revert Hae Haa.
      induction IHargs as [|a args Ha Hargs IH]; intros Hae Haa; simpl.
      * apply ret_quiet; reflexivity.
      * simpl in Hae, Haa. apply app_eq_nil in Hae as [Hae1 Hae2].
        apply andb_prop in Haa as [Haa1 Haa2].
        apply (bind_quiet harmless); [apply Ha; assumption|]. intros v Hv.
        apply (bind_quiet (forallb harmless)); [apply IH; assumption|]. intros vs Hvs.
        apply ret_quiet. simpl. now rewrite Hv, Hvs.
    + intros vs Hvs. apply call_value_quiet; assumption.
  - rewrite eval_expr_Dict. simpl in Herr, Hat.
    apply app_eq_nil in Herr as [Hke Hve].
    apply (bind_quiet (forallb (fun kv => harmless (fst kv) && harmless (snd kv)))).
    + revert Hke Hve Hat.
      induction IHitems as [|[k v] items [Hk Hv] Hitems IH]; intros Hke Hve Hat; simpl.
      * apply ret_quiet; reflexivity.
      * simpl in Hke, Hve, Hat. apply app_eq_nil in Hke as [Hke1 Hke2].
        apply app_eq_nil in Hve as [Hve1 Hve2].
        apply andb_prop in Hat as [Hat1 Hat2]. apply andb_prop in Hat1 as [Hka Hva].
        apply (bind_quiet harmless); [apply Hk; assumption|]. intros kv Hkv.
        apply (bind_quiet harmless); [apply Hv; assumption|]. intros vv Hvv.
        apply (bind_quiet (forallb (fun kv => harmless (fst kv) && harmless (snd kv))));
          [apply IH; assumption|]. intros rest Hrest.
        apply ret_quiet. simpl. now rewrite Hkv, Hvv, Hrest.
    + intros kvs Hkvs. split; [reflexivity|]. intros a Ha.
      exact (build_dict_harmless kvs [] a Hkvs eq_refl Ha).
Qed.

Lemma lookup_store_eq (x : string) (v : value) (f : frame) :
  lookup_name (store_name x v f) x = Some v.
Proof.
  unfold store_name, lookup_name.
  destruct (mem_string x (f_global_names f)) eqn:M; simpl; rewrite M; rewrite ns_get_set_eq; reflexivity.
Qed.

Lemma lookup_store_neq (x id : string) (v : value) (f : frame) :
  id <> x -> "__builtins__" <> x ->
  lookup_name (store_name x v f) id = lookup_name f id.
Proof.
  intros H1 H2. unfold store_name, lookup_name, builtins_lookup.
  destruct (mem_string x (f_global_names f)); simpl;
    rewrite ?(ns_get_set_neq id x v _ H1); rewrite ?(ns_get_set_neq "__builtins__" x v _ H2);
    reflexivity.
Qed.

Lemma store_frame_ok (x : string) (v : value) (f : frame) :
  frame_ok f -> user_name x = true -> harmless v = true ->
  frame_ok (store_name x v f).
Proof.
  intros Hf Hx Hv id w Hid Hl. destruct (String.eqb id x) eqn:E.
  - apply String.eqb_eq in E; subst id. rewrite lookup_store_eq in Hl.
    inversion Hl; subst; exact Hv.
  - apply String.eqb_neq in E. rewrite lookup_store_neq in Hl.
    + exact (Hf id w Hid Hl).
    + exact E.
    + intros Heq. rewrite <- Heq in Hx. discriminate Hx.
Qed.

Lemma exec_stmt_quiet (s : stmt) (c : ctx) (f : frame) :
  frame_ok f -> stmt_errors s = [] -> attr_free_stmt s = true ->
  snd (exec_stmt s c f) = [] /\ frame_ok (snd (fst (exec_stmt s c f))).
Proof.
  intros Hf Herr Hat.
  destruct s as [names ln|mn names lv ln|t v|v|[e|]|xs ln|]; simpl in Herr, Hat |- *.
  - destruct (builtins_lookup _ _); simpl; auto.
  - destruct (builtins_lookup _ _); simpl; auto.
  - apply app_eq_nil in Herr as [Ht Hv]. apply andb_prop in Hat as [Hta Hva].
    pose proof (eval_quiet v c f Hf Hv Hva) as [Hl Hok].
    destruct t as [cst|x ln|o a ln|fn args|items]; simpl; try (split; [reflexivity | exact Hf]).
    + destruct (eval_expr v c f) as [[vv|ee|w] l]; simpl in Hl, Hok; subst l; simpl;
        (split; [reflexivity|]); try exact Hf.
      apply store_frame_ok;
        [exact Hf | exact (check_name_user _ _ Ht) | exact (Hok vv eq_refl)].
    + discriminate Hta.
  - pose proof (eval_quiet v c f Hf Herr Hat) as [Hl _].
    destruct (eval_expr v c f) as [r l]; simpl in *; auto.
  - pose proof (eval_quiet e c f Hf Herr Hat) as [Hl _].
    destruct (eval_expr e c f) as [[vv|ee|w] l]; simpl in *; auto.
  - auto.
  - auto.
  - auto.
Qed.

Lemma exec_body_quiet (ss : list stmt) (c : ctx) (f : frame) :
  frame_ok f -> flat_map stmt_errors ss = [] -> forallb attr_free_stmt ss = true ->
  snd (exec_body ss c f) = [].
Proof.
  revert f. induction ss as [|s ss IH]; intros f Hf Herr Hat; [reflexivity|].
  simpl in Herr, Hat. apply app_eq_nil in Herr as [H1 H2]. apply andb_prop in Hat as [H3 H4].
  pose proof (exec_stmt_quiet s c f Hf H1 H3) as [Hl Hf1]. simpl.
  destruct (exec_stmt s c f) as [[r f1] l1]. simpl in Hl, Hf1. subst l1.
  destruct r; simpl; auto.
  specialize (IH f1 Hf1 H2 H4). destruct (exec_body ss c f1) as [[r2 f2] l2].
  simpl in *. congruence.
Qed.

Lemma lookup_start (g : ns) (gn : list string) (id : string) :
  lookup_name (mk_frame g [] gn) id =
  match ns_get id g with Some v => Some v | None => builtins_lookup g id end.
Proof. unfold lookup_name. simpl. destruct (mem_string id gn); reflexivity. Qed.

Lemma ns_get_In {A} (k : string) (d : list (string * A)) (v : A) :
  ns_get k d = Some v -> In (k, v) d.
Proof.
  induction d as [|[k' v'] d IH]; simpl; [discriminate|].
  destruct (String.eqb k k') eqn:E; intros H.
  - apply String.eqb_eq in E; subst k'. inversion H; subst. now left.
  - right. auto.
Qed.

Lemma dict_get_In (k : value) (d : list (value * value)) (v : value) :
  dict_get k d = Some v -> exists k', In (k', v) d.
Proof.
  induction d as [|[k' v'] d IH]; simpl; [discriminate|].
  destruct (py_eq k k'); intros H.
  - inversion H; subst. exists k'. now left.
  - destruct (IH H) as [k'' Hin]. exists k''. now right.
Qed.

Lemma builtins_lookup_harmless (g : ns) (id : string) (v : value) :
  globals_ok g = true -> builtins_lookup g id = Some v -> harmless v = true.
Proof.
  unfold globals_ok, builtins_lookup. intros H.
  apply andb_prop in H as [H _]. apply andb_prop in H as [_ H].
  destruct (ns_get "__builtins__" g) as [b|]; [destruct b|]; try (intros; discriminate).
  intros Hd. apply dict_get_In in Hd as [k' Hin].
  rewrite forallb_forall in H. exact (H _ Hin).
Qed.

Lemma globals_start_ok (g : ns) (gn : list string) :
  globals_ok g = true -> frame_ok (mk_frame g [] gn).
Proof.
  intros Hg id v Hid. rewrite lookup_start. destruct (ns_get id g) eqn:E.
  - intros H; inversion H; subst. apply ns_get_In in E.
    unfold globals_ok in Hg. apply andb_prop in Hg as [Hg _]. apply andb_prop in Hg as [Hg _].
    rewrite forallb_forall in Hg. specialize (Hg _ E). simpl in Hg.
    rewrite Hid in Hg. exact Hg.
  - apply builtins_lookup_harmless. exact Hg.
Qed.

Lemma print_hook_harmless (g : ns) (gn : list string) (v : value) :
  globals_ok g = true -> lookup_name (mk_frame g [] gn) "_print_" = Some v -> harmless v = true.
Proof.
  intros Hg. rewrite lookup_start. destruct (ns_get "_print_" g) eqn:E.
  - intros H; inversion H; subst. unfold globals_ok in Hg.
    apply andb_prop in Hg as [_ Hg]. rewrite E in Hg. exact Hg.
  - apply builtins_lookup_harmless. exact Hg.
Qed.

(** Calling a harmless value writes nothing, whatever the arguments. *)
Lemma call_value_log (fn : value) (args : list value) (c : ctx) (f : frame) :
  harmless fn = true -> snd (call_value fn args c f) = [].
Proof.
  intros Hfn.
  destruct fn as [| | | | | | | |s|n|o nm|cls xs|]; simpl in Hfn; try discriminate;
    unfold call_value; try reflexivity.
  - destruct (capability_params n); [reflexivity|].
    destruct (mem_string n exception_classes); [reflexivity|].
    destruct (String.eqb n "getattr");
      [destruct args as [|a1 [|a2 [|a3 args]]]; try reflexivity; destruct a2; reflexivity|].
    destruct (String.eqb n "sys.exit"); [destruct args as [|? [|? ?]]; reflexivity|].
    destruct (String.eqb n "time.time"); [destruct args; reflexivity|].
    reflexivity.
  - destruct args as [|? [|? ?]]; reflexivity.
Qed.

Lemma prologue_quiet (c : ctx) (f : frame) :
  frame_ok f -> (forall v, lookup_name f "_print_" = Some v -> harmless v = true) ->
  snd (exec_stmt prologue_stmt c f) = [] /\ frame_ok (snd (fst (exec_stmt prologue_stmt c f))).
Proof.
  intros Hf Hp.
  assert (Hl : snd (eval_expr (Call (Name "_print_" 0) [Name "_getattr_" 0]) c f) = []).
  { rewrite eval_expr_Call. simpl eval_expr. simpl eval_exprs. unfold bind, ret, load_name.
    destruct (lookup_name f "_print_") as [pv|] eqn:E; [|reflexivity].
    destruct (lookup_name f "_getattr_") as [ga|]; [|reflexivity].
    pose proof (call_value_log pv [ga] c f (Hp pv eq_refl)) as H.
    destruct (call_value pv [ga] c f) as [r l]. simpl in *. subst l. reflexivity. }
  unfold prologue_stmt, exec_stmt.
  destruct (eval_expr (Call (Name "_print_" 0) [Name "_getattr_" 0]) c f) as [[vv|e|w] l];
    simpl in Hl; subst l; simpl; (split; [reflexivity|]); try exact Hf.
  intros id v Hid Hl. rewrite lookup_store_neq in Hl.
  - exact (Hf _ _ Hid Hl).
  - intros ->. discriminate Hid.
  - discriminate.
Qed.

(** A compiled attribute-free program, run in a harmless environment,
    writes nothing. *)
Lemma exec_module_quiet (m : module) (c : ctx) (g : ns) :
  globals_ok g = true -> restricted_errors m = [] -> forallb attr_free_stmt m = true ->
  snd (exec_module m c g) = [].
Proof.
  intros Hg Herr Hat. unfold exec_module.
  destruct (ns_get "__builtins__" g) as [[| | | | | | |kvs| | | | |]|]; try reflexivity.
  unfold print_prologue.
  pose proof (globals_start_ok g (global_names m) Hg) as Hf.
  destruct (uses_print m); [|exact (exec_body_quiet m c _ Hf Herr Hat)].
  change (snd (exec_body (prologue_stmt :: m) c (mk_frame g [] (global_names m))) = []).
  rewrite exec_body_cons.
  pose proof (prologue_quiet c (mk_frame g [] (global_names m)) Hf
                (fun v => print_hook_harmless g (global_names m) v Hg)) as [Hl Hf1].
  destruct (exec_stmt prologue_stmt c _) as [[r1 f1] l1]. simpl in Hl, Hf1. subst l1.
  destruct r1; simpl; auto.
  pose proof (exec_body_quiet m c f1 Hf1 Herr Hat) as H2.
  destruct (exec_body m c f1) as [[r2 f2] l2]. simpl in *. congruence.
Qed.

(** ** The walk of [validate_code] visits every node *)

Lemma sum_app (l1 l2 : list nat) : list_sum (l1 ++ l2) = list_sum l1 + list_sum l2.
Proof. induction l1 as [|x l1 IH]; simpl; lia. Qed.

Lemma node_size_children (n : node) :
  node_size n = S (list_sum (map node_size (iter_child_nodes n))).
Proof.
  destruct n as [m|s|e|a]; simpl.
  - unfold module_size. rewrite map_map. reflexivity.
  - destruct s as [names ln|mn names lv ln|t v|v|[e|]|xs ln|]; simpl; rewrite ?map_map; try lia.
    + f_equal. induction names; simpl in *; lia.
    + f_equal. induction names; simpl in *; lia.
  - destruct e as [k|id ln|o a ln|fn args|items]; simpl; try lia.
    + f_equal. f_equal. induction args as [|a args IH]; simpl; congruence.
    + rewrite map_app, sum_app. f_equal.
      induction items as [|[k v] items IH]; simpl in *; lia.
  - reflexivity.
Qed.

Lemma walk_queue_complete (fuel : nat) : forall todo,
  list_sum (map node_size todo) <= fuel ->
  forall n d, In n todo -> reach n d -> In d (walk_queue fuel todo).
Proof.
  induction fuel as [|f IH]; intros todo Hs n d Hin Hr;
    (destruct todo as [|x rest]; [destruct Hin|]).
  - simpl in Hs. rewrite node_size_children in Hs. lia.
  - simpl.
    assert (Hs' : list_sum (map node_size (rest ++ iter_child_nodes x)) <= f).
    { rewrite map_app, sum_app. simpl in Hs. rewrite node_size_children in Hs. lia. }
    destruct Hin as [Heq|Hin].
    + subst x. destruct Hr as [y|y c d Hc Hcd]; [now left|].
      right. apply (IH _ Hs' c d); [apply in_or_app; now right | exact Hcd].
    + right. apply (IH _ Hs' n d); [apply in_or_app; now left | exact Hr].
Qed.

Lemma walk_queue_sound (fuel : nat) : forall todo d,
  In d (walk_queue fuel todo) -> exists n, In n todo /\ reach n d.
Proof.
  induction fuel as [|f IH]; intros todo d H; [destruct todo; contradiction|].
  destruct todo as [|x rest]; simpl in H; [contradiction|].
  destruct H as [<-|H].
  - exists x. split; [now left | constructor].
  - destruct (IH _ _ H) as [n [Hn Hr]]. apply in_app_or in Hn as [Hn|Hn].
    + exists n. split; [now right | exact Hr].
    + exists x. split; [now left | econstructor; eauto].
Qed.

Lemma ast_walk_iff (m : module) (d : node) : In d (ast_walk m) <-> reach (NModule m) d.
Proof.
  split.
  - intros H. destruct (walk_queue_sound _ _ _ H) as [n [[<-|[]] Hr]]. exact Hr.
  - intros Hr. unfold ast_walk.
    apply (walk_queue_complete (module_size m) [NModule m]) with (n := NModule m);
      [simpl; unfold module_size; lia | now left | exact Hr].
Qed.

Lemma validate_tree_ok (m : module) :
  validate_tree (ParseOk m) =
  Returned (mk_verdict (match flat_map node_violations (ast_walk m) with [] => true | _ => false end)
                       (flat_map node_violations (ast_walk m))).
Proof. unfold validate_tree. destruct (flat_map node_violations (ast_walk m)); reflexivity. Qed.

Lemma validate_tree_valid (p : parse_result) (v : verdict) :
  validate_tree p = Returned v -> (valid v = true <-> errors v = []).
Proof.
  destruct p as [m|cls msg ln txt|cls msg]; intros H.
  - rewrite validate_tree_ok in H. injection H as <-. cbn [valid errors].
    match goal with |- context [match ?l with [] => _ | _ :: _ => _ end] => destruct l end;
      split; congruence.
  - simpl in H. injection H as <-. simpl. split; discriminate.
  - discriminate H.
Qed.

(** ** The skill store *)


Lemma replace_nonempty_absent (fuel : nat) (old new s : string) :
  py_contains old s = false -> replace_nonempty fuel old new s = s.
Proof.
  revert s. induction fuel as [|f IH]; intros s H; [reflexivity|].
  destruct s as [|ch rest]; [reflexivity|]. simpl in H |- *.
  apply orb_false_iff in H as [H1 H2]. simpl in H1. rewrite H1.
  rewrite (IH rest H2). reflexivity.
Qed.

(** ** Imports in the environment [__init__] builds *)

Lemma import_stmt_fails (s : stmt) (c : ctx) (f : frame) :
  is_import s = true -> builtins_lookup (f_globals f) "__import__" = None ->
  exec_stmt s c f = (Exn (exc "ImportError" "__import__ not found"), f, []).
Proof. intros Hs Hb. destruct s; try discriminate; simpl; rewrite Hb; reflexivity. Qed.

(** The prologue [_print = _print_(_getattr_)] in the environment [__init__] builds. *)
Lemma prologue_init (c : ctx) (gn : list string) :
  exec_stmt prologue_stmt c (mk_frame init_globals [] gn) =
  (Ok tt, store_name "_print" (VBuiltin "getattr") (mk_frame init_globals [] gn), []).
Proof.
  unfold prologue_stmt, exec_stmt.
  assert (He : eval_expr (Call (Name "_print_" 0) [Name "_getattr_" 0]) c
                 (mk_frame init_globals [] gn) = (Ok (VBuiltin "getattr"), [])).
  { rewrite eval_expr_Call. simpl eval_expr. simpl eval_exprs. unfold bind, ret, load_name.
    rewrite !lookup_start. reflexivity. }
  rewrite He. reflexivity.
Qed.

Lemma init_builtins : exists d, ns_get "__builtins__" init_globals = Some (VDict d).
Proof. eexists. reflexivity. Qed.

Lemma exec_module_import_first (c : ctx) (s : stmt) (rest : list stmt) :
  is_import s = true ->
  fst (fst (exec_module (s :: rest) c init_globals)) = Exn (exc "ImportError" "__import__ not found") /\
  snd (exec_module (s :: rest) c init_globals) = [].
Proof.
  intros Hs. unfold exec_module. destruct init_builtins as [d Hd]. rewrite Hd.
  unfold print_prologue.
  destruct (uses_print (s :: rest)); simpl app.
  - rewrite exec_body_cons, prologue_init, exec_body_cons.
    rewrite import_stmt_fails; [split; reflexivity | exact Hs |].
    unfold store_name. destruct (mem_string "_print" _); simpl;
      unfold builtins_lookup; rewrite ?ns_get_set_neq by discriminate; reflexivity.
  - rewrite exec_body_cons, import_stmt_fails by (exact Hs || reflexivity). split; reflexivity.
Qed.

(** ** The exit paths of [execute_code] *)

Section Execute.

Variable ast_parse : string -> parse_result.

(** A code object comes from a parse that passed the checks. *)
Lemma compile_some (code : string) (m : module) (el : list string) :
  compile_restricted_exec ast_parse code = Ok (mk_compile_result (Some m) el) ->
  ast_parse code = ParseOk m /\ restricted_errors m = [] /\ el = [].
Proof.
  unfold compile_restricted_exec.
  destruct (ast_parse code) as [m'|cls msg ln txt|cls msg]; [|discriminate|].
  - unfold compile_tree. destruct (restricted_errors m') eqn:E; [|discriminate].
    destruct (has_future_import m'); [discriminate|].
    destruct (symtable_check _ _ _); [discriminate|].
    intros H. inversion H; subst. auto.
  - destruct (mem_string cls caught_parse_errors); discriminate.
Qed.

(** The module path: the envelope, the new environment and the run. *)
Lemma execute_code_run (self : CodeExecutionEnvironment) (code : string) (w : world)
  (m : module) (r : res unit) (fr : frame) (l : log) :
  compile_restricted_exec ast_parse code = Ok (mk_compile_result (Some m) []) ->
  exec_module m (run_ctx w) (safe_globals self) = (r, fr, l) ->
  match r with
  | Ok _ =>
      exists w', execute_code ast_parse self code w =
        Done (Returned (completed_envelope (written_to CaptureOut l)
                          (match ns_get "result" (f_locals fr) with Some v => v | None => VNone end)))
             (mk_env (f_globals fr)) w'
  | Exn e =>
      exists w', execute_code ast_parse self code w =
        Done (if is_Exception e
              then Returned (fault_envelope (written_to CaptureOut l) (py_str (object_repr w) e))
              else Raises e)
             (mk_env (f_globals fr)) w'
  | Unmodelled what => execute_code ast_parse self code w = NotModelled what
  end.
Proof.
  intros Hc Hx. unfold execute_code. rewrite Hc. cbn [error_log byte_code].
  unfold run_ctx in Hx |- *. cbn [clock object_repr]. rewrite Hx.
  destruct r as [u|e|what]; [| |reflexivity].
  - eexists. cbn [buffers]. rewrite apply_log_at. reflexivity.
  - destruct (is_Exception e); eexists; cbn [buffers object_repr];
      rewrite ?apply_log_at; reflexivity.
Qed.

Lemma execute_code_compile_log (self : CodeExecutionEnvironment) (code : string) (w : world)
  (bc : option module) (e : string) (es : list string) :
  compile_restricted_exec ast_parse code = Ok (mk_compile_result bc (e :: es)) ->
  exists w', execute_code ast_parse self code w =
    Done (Returned (fault_envelope "" ("Compilation errors: " ++ str_tuple (e :: es)))) self w'.
Proof. intros Hc. unfold execute_code. rewrite Hc. eexists. reflexivity. Qed.

Lemma execute_code_compile_exn (self : CodeExecutionEnvironment) (code : string) (w : world)
  (e : value) :
  compile_restricted_exec ast_parse code = Exn e ->
  exists w', execute_code ast_parse self code w =
    Done (if is_Exception e then Returned (fault_envelope "" (py_str (object_repr w) e))
          else Raises e) self w'.
Proof. intros Hc. unfold execute_code. rewrite Hc. destruct (is_Exception e); eexists; reflexivity. Qed.

(** Every exit of [execute_code] puts the streams back, and the clock and
    the [repr] of the process are unchanged. *)
Lemma execute_code_done (self : CodeExecutionEnvironment) (code : string) (w : world)
  (r : py_ret envelope) (env : CodeExecutionEnvironment) (w' : world) :
  execute_code ast_parse self code w = Done r env w' ->
  sys_stdout w' = sys_stdout w /\ sys_stderr w' = sys_stderr w /\
  clock w' = clock w /\ object_repr w' = object_repr w.
Proof.
  unfold execute_code.
  destruct (compile_restricted_exec ast_parse code) as [[bc el]|e|what];
    cbn [error_log byte_code]; [|destruct (is_Exception e)|discriminate];
    try (intros H; inversion H; subst; simpl; repeat split; fail).
  destruct el as [|e0 el]; [|intros H; inversion H; subst; simpl; repeat split].
  destruct bc as [m|]; [|intros H; inversion H; subst; simpl; repeat split].
  destruct (exec_module m _ _) as [[rr fr] l].
  destruct rr as [u|e|what]; [|destruct (is_Exception e)|discriminate];
    intros H; inversion H; subst; simpl; repeat split.
Qed.

(** The outcome of [execute_code] depends on the process state only through
    the clock and the [repr] text of objects. *)
Lemma execute_code_indep (self : CodeExecutionEnvironment) (code : string) (w1 w2 : world)
  (r : py_ret envelope) (env : CodeExecutionEnvironment) (w1' : world) :
  clock w1 = clock w2 -> object_repr w1 = object_repr w2 ->
  execute_code ast_parse self code w1 = Done r env w1' ->
  exists w2', execute_code ast_parse self code w2 = Done r env w2'.
Proof.
  intros Hc Hr. unfold execute_code, run_ctx. cbn [clock object_repr].
  rewrite <- Hc, <- Hr.
  destruct (compile_restricted_exec ast_parse code) as [[bc el]|e|what];
    cbn [error_log byte_code]; [|destruct (is_Exception e)|discriminate];
    try (intros H; inversion H; subst; eexists; reflexivity).
  destruct el as [|e0 el]; [|intros H; inversion H; subst; eexists; reflexivity].
  destruct bc as [m|]; [|intros H; inversion H; subst; eexists; reflexivity].
  destruct (exec_module m _ _) as [[rr fr] l]. cbn [buffers]. rewrite !apply_log_at.
  destruct rr as [u|e|what]; [|destruct (is_Exception e)|discriminate];
    intros H; inversion H; subst; eexists; reflexivity.
Qed.

(** Every dict [execute_code] returns has the keys of [result_init]. *)
Lemma execute_code_keys (self : CodeExecutionEnvironment) (code : string) (w : world)
  (d : envelope) :
  envelope_of (execute_code ast_parse self code w) = Some (Returned d) ->
  ns_keys d = envelope_keys.
Proof.
  unfold envelope_of, execute_code.
  destruct (compile_restricted_exec ast_parse code) as [[bc el]|e|what];
    cbn [error_log byte_code]; [|destruct (is_Exception e)|discriminate];
    try (intros H; inversion H; subst; reflexivity).
  destruct el as [|e0 el]; [|intros H; inversion H; subst; reflexivity].
  destruct bc as [m|]; [|intros H; inversion H; subst; reflexivity].
  destruct (exec_module m _ _) as [[rr fr] l].
  destruct rr as [u|e|what]; [|destruct (is_Exception e)|discriminate];
    intros H; inversion H; subst; reflexivity.
Qed.

(** After a program that declares no name [global], the environment is the
    one before the call. *)
Lemma execute_code_env (self : CodeExecutionEnvironment) (code : string) (w : world)
  (r : py_ret envelope) (env : CodeExecutionEnvironment) (w' : world) :
  (forall m, ast_parse code = ParseOk m -> global_names m = []) ->
  execute_code ast_parse self code w = Done r env w' -> env = self.
Proof.
  intros Hg. unfold execute_code.
  destruct (compile_restricted_exec ast_parse code) as [[bc el]|e|what] eqn:Hc;
    cbn [error_log byte_code]; [|destruct (is_Exception e)|discriminate];
    try (intros H; inversion H; subst; reflexivity).
  destruct el as [|e0 el]; [|intros H; inversion H; subst; reflexivity].
  destruct bc as [m|]; [|intros H; inversion H; subst; reflexivity].
  destruct (compile_some code m [] Hc) as [Hp _].
  pose proof (exec_module_globals m (run_ctx (mk_world CaptureOut CaptureErr
     (fun s => if stream_eqb s CaptureOut || stream_eqb s CaptureErr then "" else buffers w s)
     (clock w) (object_repr w))) (safe_globals self) (Hg m Hp)) as Hgl.
  destruct (exec_module m _ _) as [[rr fr] l]. simpl in Hgl.
  destruct rr as [u|e|what]; [|destruct (is_Exception e)|discriminate];
    intros H; inversion H; subst; rewrite Hgl; destruct self; reflexivity.
Qed.

(** The same facts for [execute_agent_code]. *)
Lemma execute_agent_code_done (self : CodeExecutionEnvironment) (code : string) (w : world)
  (r : py_ret envelope) (env : CodeExecutionEnvironment) (w' : world) :
  execute_agent_code ast_parse self code w = Done r env w' ->
  sys_stdout w' = sys_stdout w /\ sys_stderr w' = sys_stderr w /\
  clock w' = clock w /\ object_repr w' = object_repr w.
Proof.
  unfold execute_agent_code. destruct (validate_code ast_parse code) as [v|e].
  - destruct (negb (valid v)); [intros H; inversion H; subst; repeat split|].
    apply execute_code_done.
  - intros H; inversion H; subst; repeat split.
Qed.

Lemma execute_agent_code_indep (self : CodeExecutionEnvironment) (code : string) (w1 w2 : world)
  (r : py_ret envelope) (env : CodeExecutionEnvironment) (w1' : world) :
  clock w1 = clock w2 -> object_repr w1 = object_repr w2 ->
  execute_agent_code ast_parse self code w1 = Done r env w1' ->
  exists w2', execute_agent_code ast_parse self code w2 = Done r env w2'.
Proof.
  intros Hc Hr. unfold execute_agent_code. destruct (validate_code ast_parse code) as [v|e].
  - destruct (negb (valid v)); [intros H; inversion H; subst; eexists; reflexivity|].
    apply execute_code_indep; assumption.
  - intros H; inversion H; subst; eexists; reflexivity.
Qed.

Lemma execute_agent_code_envelope_indep (self : CodeExecutionEnvironment) (code : string)
  (w1 w2 : world) :
  clock w1 = clock w2 -> object_repr w1 = object_repr w2 ->
  envelope_of (execute_agent_code ast_parse self code w1) =
  envelope_of (execute_agent_code ast_parse self code w2).
Proof.
  intros Hc Hr.
  destruct (execute_agent_code ast_parse self code w1) as [r1 env1 w1'|what1] eqn:E1;
    destruct (execute_agent_code ast_parse self code w2) as [r2 env2 w2'|what2] eqn:E2;
    simpl.
  - destruct (execute_agent_code_indep self code w1 w2 r1 env1 w1' Hc Hr E1) as [w3 H3].
    rewrite E2 in H3. inversion H3; subst. reflexivity.
  - destruct (execute_agent_code_indep self code w1 w2 r1 env1 w1' Hc Hr E1) as [w3 H3].
    rewrite E2 in H3. discriminate H3.
  - destruct (execute_agent_code_indep self code w2 w1 r2 env2 w2' (eq_sym Hc) (eq_sym Hr) E2)
      as [w3 H3].
    rewrite E1 in H3. discriminate H3.
  - reflexivity.
Qed.

Lemma execute_agent_code_env (self : CodeExecutionEnvironment) (code : string) (w : world)
  (r : py_ret envelope) (env : CodeExecutionEnvironment) (w' : world) :
  (forall m, ast_parse code = ParseOk m -> global_names m = []) ->
  execute_agent_code ast_parse self code w = Done r env w' -> env = self.
Proof.
  intros Hg. unfold execute_agent_code. destruct (validate_code ast_parse code) as [v|e].
  - destruct (negb (valid v)); [intros H; inversion H; subst; reflexivity|].
    apply execute_code_env. exact Hg.
  - intros H; inversion H; subst; reflexivity.
Qed.

End Execute.


(** A completed [exec] ran the prologue and the module from fresh locals. *)
Lemma exec_module_ok (m : module) (c : ctx) (g : ns) (u : unit) (fr : frame) (l : log) :
  exec_module m c g = (Ok u, fr, l) ->
  exec_body (print_prologue m ++ m) c (mk_frame g [] (global_names m)) = (Ok u, fr, l).
Proof.
  unfold exec_module.
  destruct (ns_get "__builtins__" g) as [[| | | | | | |kvs| | | | |]|]; try discriminate.
  exact (fun H => H).
Qed.

(** A name neither the module nor the prologue binds stays unbound in the locals. *)
Lemma exec_module_locals (m : module) (c : ctx) (g : ns) (k : string) :
  ~ In k (assigned_names m) -> k <> "_print" ->
  ns_get k (f_locals (snd (fst (exec_module m c g)))) = None.
Proof.
  intros Hk Hp. unfold exec_module.
  destruct (ns_get "__builtins__" g) as [[| | | | | | |kvs| | | | |]|]; try reflexivity.
  rewrite exec_body_locals; [reflexivity|].
  unfold assigned_names. rewrite flat_map_app. intros Hin.
  apply in_app_or in Hin as [Hin|Hin].
  - unfold print_prologue in Hin. destruct (uses_print m); simpl in Hin;
      [destruct Hin as [Hin|[]]; congruence | contradiction].
  - exact (Hk Hin).
Qed.


Section Execute2.

Variable ast_parse : string -> parse_result.

Lemma execute_code_compile_none (self : CodeExecutionEnvironment) (code : string) (w : world) :
  compile_restricted_exec ast_parse code = Ok (mk_compile_result None []) ->
  exists w', execute_code ast_parse self code w =
    Done (Returned (fault_envelope "" "Compilation failed: returned None")) self w'.
Proof. intros Hc. unfold execute_code. rewrite Hc. eexists. reflexivity. Qed.

Lemma execute_code_compile_unmodelled (self : CodeExecutionEnvironment) (code : string)
  (w : world) (what : string) :
  compile_restricted_exec ast_parse code = Unmodelled what ->
  execute_code ast_parse self code w = NotModelled what.
Proof. intros Hc. unfold execute_code. rewrite Hc. reflexivity. Qed.

End Execute2.

(** ** The claims *)

Section Claims.

Variable ast_parse : string -> parse_result.

(** C1 (the source's behaviour): [from os import system] passes
    [validate_code], and [execute_agent_code] compiles and runs it; the
    failure it reports is the [ImportError] raised by the import statement
    inside the restricted interpreter. *)
Theorem from_os_import_runs (w : world) :
  ast_parse "from os import system" =
    ParseOk [ImportFrom (Some "os") [mk_alias "system" None] 0 1] ->
  validate_code ast_parse "from os import system" = Returned (mk_verdict true []) /\
  envelope_of (execute_agent_code ast_parse CodeExecutionEnvironment_init
                 "from os import system" w) =
  Some (Returned (fault_envelope "" "__import__ not found")).
Proof.
  intros H. unfold envelope_of, execute_agent_code, validate_code.
  rewrite H. split; [reflexivity|].
  unfold execute_code, compile_restricted_exec. rewrite H. reflexivity.
Qed.


(** C3 (the source's behaviour): when validation fails, the dict
    [execute_agent_code] returns has the keys [success] and [error] only;
    when validation passes and [execute_code] returns, the dict has
    exactly the keys [success], [output], [result] and [error]. *)
Theorem execute_agent_code_envelope_keys (self : CodeExecutionEnvironment) (code : string)
  (w : world) (d : envelope) :
  envelope_of (execute_agent_code ast_parse self code w) = Some (Returned d) ->
  exists v, validate_code ast_parse code = Returned v /\
    ns_keys d = (if valid v then envelope_keys else ["success"; "error"]).
Proof.
  intros H. unfold execute_agent_code in H.
  destruct (validate_code ast_parse code) as [v|e]; [|discriminate H].
  exists v. split; [reflexivity|]. destruct (valid v); cbn [negb] in H.
  - exact (execute_code_keys ast_parse self code w d H).
  - inversion H; reflexivity.
Qed.

(** C4 (amended): in a run inside the modelled fragment, the locals are
    fresh and a program that declares no name [global] leaves the shared
    [safe_globals] as they were; so after such a program [A], any program
    [B] gets the envelope it gets when run alone at the same clock. *)
Theorem execute_agent_code_no_leak (self : CodeExecutionEnvironment) (A B : string)
  (w w2 wA : world) (rA : py_ret envelope) (envA : CodeExecutionEnvironment) :
  (forall m, ast_parse A = ParseOk m -> global_names m = []) ->
  execute_agent_code ast_parse self A w = Done rA envA wA ->
  clock w2 = clock w -> object_repr w2 = object_repr w ->
  envA = self /\
  envelope_of (execute_agent_code ast_parse envA B wA) =
  envelope_of (execute_agent_code ast_parse self B w2).
Proof.
  intros Hg HA Hc Hr.
  pose proof (execute_agent_code_env ast_parse self A w rA envA wA Hg HA) as He.
  destruct (execute_agent_code_done ast_parse self A w rA envA wA HA) as [_ [_ [Hc' Hr']]].
  split; [exact He|]. subst envA.
  apply (execute_agent_code_envelope_indep ast_parse); congruence.
Qed.

(** C5: a validated, compiled program that binds no name [result] and
    runs to completion gives [success=True] and [result] None. *)
Theorem execute_agent_code_no_result (self : CodeExecutionEnvironment) (code : string)
  (w : world) (m : module) (fr : frame) (l : log) :
  validate_code ast_parse code = Returned (mk_verdict true []) ->
  compile_restricted_exec ast_parse code = Ok (mk_compile_result (Some m) []) ->
  ~ In "result" (assigned_names m) ->
  exec_module m (run_ctx w) (safe_globals self) = (Ok tt, fr, l) ->
  envelope_of (execute_agent_code ast_parse self code w) =
  Some (Returned (completed_envelope (written_to CaptureOut l) VNone)).
Proof.
  intros Hv Hc Hres Hx.
  assert (Hloc : ns_get "result" (f_locals fr) = None).
  { pose proof (exec_module_locals m (run_ctx w) (safe_globals self) "result" Hres
                  ltac:(discriminate)) as H.
    rewrite Hx in H. exact H. }
  unfold execute_agent_code. rewrite Hv. cbn [valid negb].
  destruct (execute_code_run ast_parse self code w m (Ok tt) fr l Hc Hx) as [w' Hw].
  rewrite Hw, Hloc. reflexivity.
Qed.

(** C6 (amended): after [save_skill(s, t)], [execute_skill(s, **m)] with no
    keyword named [skill_name] runs [execute_agent_code] on [t] with the
    markers [{{k}}] replaced by [str(v)], one keyword after the other in
    the order of [m] (a later replacement also acts on text an earlier one
    inserted). *)
Theorem execute_skill_round_trip (agent : Agent) (s t : string) (m : list (string * value))
  (env : CodeExecutionEnvironment) (w : world) :
  ~ In "skill_name" (ns_keys m) ->
  let r := save_skill agent s t w in
  execute_skill ast_parse (fst r) s m env (snd r) =
  execute_agent_code ast_parse env (substitute (object_repr (snd r)) t m) (snd r).
Proof.
  intros Hk r. subst r. unfold execute_skill, save_skill. simpl.
  rewrite (mem_string_false _ _ Hk). rewrite ns_get_set_eq. reflexivity.
Qed.


(** C9: [validate_code] compares the alias names alone with the deny-list:
    [import os.path] and [from os import system] are valid with no errors,
    and [execute_agent_code] hands them to [execute_code]. *)
Theorem validate_code_misses_dotted_and_from (self : CodeExecutionEnvironment) (w : world) :
  ast_parse "import os.path" = ParseOk [Import [mk_alias "os.path" None] 1] ->
  ast_parse "from os import system" =
    ParseOk [ImportFrom (Some "os") [mk_alias "system" None] 0 1] ->
  validate_code ast_parse "import os.path" = Returned (mk_verdict true []) /\
  validate_code ast_parse "from os import system" = Returned (mk_verdict true []) /\
  execute_agent_code ast_parse self "import os.path" w =
    execute_code ast_parse self "import os.path" w /\
  execute_agent_code ast_parse self "from os import system" w =
    execute_code ast_parse self "from os import system" w.
Proof.
  intros H1 H2. unfold execute_agent_code, validate_code. rewrite H1, H2.
  repeat split; reflexivity.
Qed.

(** C10 (amended): in an environment whose names without a leading
    underscore, builtins and print hook reach no stream (as the one
    [__init__] builds), every program without attribute access gets an
    envelope from [execute_code] whose [output] is the empty string; this
    includes programs calling [print], which writes nothing.  Programs
    that follow module attributes to [sys.stdout] do write to the captured
    buffer. *)
Theorem execute_code_attr_free_output (self : CodeExecutionEnvironment) (code : string)
  (w : world) (d : envelope) :
  globals_ok (safe_globals self) = true ->
  (forall m, ast_parse code = ParseOk m -> forallb attr_free_stmt m = true) ->
  envelope_of (execute_code ast_parse self code w) = Some (Returned d) ->
  ns_get "output" d = Some (VStr "").
Proof.
  intros Hg Hat.
  destruct (compile_restricted_exec ast_parse code) as [[[m|] [|e0 el]]|e|what] eqn:Hc.
  - destruct (compile_some ast_parse code m [] Hc) as [Hp [Hr _]].
    pose proof (exec_module_quiet m (run_ctx w) (safe_globals self) Hg Hr (Hat m Hp)) as Hl.
    destruct (exec_module m (run_ctx w) (safe_globals self)) as [[r fr] l] eqn:Hx.
    simpl in Hl. subst l.
    pose proof (execute_code_run ast_parse self code w m r fr [] Hc Hx) as Hrun.
    destruct r as [u|e|what].
    + destruct Hrun as [w' Hw]. rewrite Hw. intros H; inversion H; reflexivity.
    + destruct Hrun as [w' Hw]. rewrite Hw.
      destruct (is_Exception e); [intros H; inversion H; reflexivity | discriminate].
    + rewrite Hrun. discriminate.
  - destruct (execute_code_compile_log ast_parse self code w (Some m) e0 el Hc) as [w' Hw].
    rewrite Hw. intros H; inversion H; reflexivity.
  - destruct (execute_code_compile_none ast_parse self code w Hc) as [w' Hw].
    rewrite Hw. intros H; inversion H; reflexivity.
  - destruct (execute_code_compile_log ast_parse self code w None e0 el Hc) as [w' Hw].
    rewrite Hw. intros H; inversion H; reflexivity.
  - destruct (execute_code_compile_exn ast_parse self code w e Hc) as [w' Hw].
    rewrite Hw. destruct (is_Exception e); [intros H; inversion H; reflexivity | discriminate].
  - rewrite (execute_code_compile_unmodelled ast_parse self code w what Hc). discriminate.
Qed.

End Claims.

(** ** Further properties: the mock MCP server *)

(** X1: [MCPServer.call_tool] never raises for a hashable tool name: it
    returns a dict whose keys are either just [error] (unknown tool, or an
    [execute] call that raised) or [success] and [result], with [success]
    True. *)
Theorem call_tool_result_shape (c : ctx) (t : value) (kw : list (string * value)) :
  hashable t = true ->
  exists d, call_tool c t kw = Ok (VDict d) /\
    (map fst d = [VStr "error"] \/
     (map fst d = [VStr "success"; VStr "result"] /\ dict_get (VStr "success") d = Some (VBool true))).
Proof.
  intros Ht. unfold call_tool. rewrite Ht. cbn zeta. simpl negb. cbv iota.
  repeat match goal with |- context [if ?b then _ else _] => destruct b end;
  try destruct (ns_get "operation" kw);
  (eexists; split; [reflexivity|]); simpl; auto.
Qed.


(** X3: a call of a known tool with an operation its [execute] does not
    handle still reports [success=True]; the refusal
    [{"error": "Operation op not supported"}] sits in [result]. *)
Theorem call_tool_unsupported_operation (c : ctx) (tool op : string) (kw : list (string * value)) :
  In tool tool_names ->
  mem_string op (supported_operations tool) = false ->
  call_tool c (VStr tool) (("operation", VStr op) :: kw) =
  Ok (sdict [("success", VBool true);
             ("result", sdict [("error", VStr ("Operation " ++ op ++ " not supported"))])]).
Proof.
  intros Hin Hop.
  destruct Hin as [<-|[<-|[<-|[<-|[]]]]]; simpl in Hop;
    apply orb_false_iff in Hop as [H1 Hop]; apply orb_false_iff in Hop as [H2 _];
    unfold call_tool; simpl; unfold google_drive_execute, salesforce_execute, slack_execute,
      google_sheets_execute; simpl; rewrite H1, H2; reflexivity.
Qed.

(** X4: [update_sheet(sheet_id, data)] ignores both arguments: it always
    reports [status "updated"] and [rows_affected 0], since [rows_count] is
    never passed. *)
Theorem update_sheet_result (c : ctx) (f : frame) (sheet_id data : value) :
  call_value (VBuiltin "update_sheet") [sheet_id; data] c f =
  (Ok (sdict [("success", VBool true);
              ("result", sdict [("status", VStr "updated"); ("rows_affected", VInt 0)])]), []).
Proof. reflexivity. Qed.

(** X5: [send_slack_message(channel, message)] returns [status "sent"],
    the channel and the current time; the message text appears nowhere in
    the result. *)
Theorem send_slack_message_result (c : ctx) (f : frame) (channel message : value) :
  call_value (VBuiltin "send_slack_message") [channel; message] c f =
  (Ok (sdict [("success", VBool true);
              ("result", sdict [("status", VStr "sent"); ("channel", channel);
                                ("ts", VFloat (now c))])]), []).
Proof. reflexivity. Qed.

(** X6: [update_salesforce_record(record_id, data)] echoes the record id
    and reports as [updated_fields] the number of keys of [data] when it is a
    dict, and 1 otherwise. *)
Theorem update_salesforce_record_result (c : ctx) (f : frame) (record_id data : value) :
  call_value (VBuiltin "update_salesforce_record") [record_id; data] c f =
  (Ok (sdict [("success", VBool true);
              ("result", sdict [("status", VStr "success"); ("record_id", record_id);
                                ("updated_fields",
                                   match data with
                                   | VDict kvs => VInt (Z.of_nat (length kvs))
                                   | _ => VInt 1
                                   end)])]), []).
Proof. reflexivity. Qed.

(** X7: [get_slack_messages] and [get_sheet_data] ignore their argument:
    every channel and every sheet id gives the same result. *)
Theorem read_capabilities_ignore_argument (c : ctx) (f : frame) (a b : value) :
  call_value (VBuiltin "get_slack_messages") [a] c f =
  call_value (VBuiltin "get_slack_messages") [b] c f /\
  call_value (VBuiltin "get_sheet_data") [a] c f =
  call_value (VBuiltin "get_sheet_data") [b] c f.
Proof. split; reflexivity. Qed.

(** ** Further properties: the skill store *)

(** X16: saving a skill under one name leaves [execute_skill] on every other
    name as it was. *)
Theorem save_skill_other_names (ast_parse : string -> parse_result) (a : Agent) (s t : string)
  (w : world) (s' : string) (m : list (string * value)) (env : CodeExecutionEnvironment) (w' : world) :
  s' <> s ->
  execute_skill ast_parse (fst (save_skill a s t w)) s' m env w' =
  execute_skill ast_parse a s' m env w'.
Proof.
  intros Hne. unfold execute_skill, save_skill. simpl.
  rewrite (ns_get_set_neq s' s t _ Hne). reflexivity.
Qed.


(** X18: the argument substitution of [execute_skill] leaves a template
    unchanged when none of the markers [{{k}}] of its keyword arguments
    occurs in it. *)
Theorem substitute_without_markers (r : value -> string) (t : string) (m : list (string * value)) :
  (forall k, In k (ns_keys m) -> py_contains (marker k) t = false) ->
  substitute r t m = t.
Proof.
  unfold substitute. induction m as [|[k v] m IH]; intros H; simpl; [reflexivity|].
  unfold py_replace at 2. simpl.
  rewrite replace_nonempty_absent by (apply H; now left).
  apply IH. intros k' Hk'. apply H. now right.
Qed.

(** ** Further properties: validation and execution *)

Section Extras.

Variable ast_parse : string -> parse_result.

(** X8: a verdict of [validate_code] is valid exactly when its error list
    is empty, for every source (syntax errors included). *)
Theorem validate_code_valid_iff_no_errors (code : string) (v : verdict) :
  validate_code ast_parse code = Returned v -> (valid v = true <-> errors v = []).
Proof. apply validate_tree_valid. Qed.

(** X9: for a source that parses, the errors [validate_code] reports are
    exactly the violations of the nodes of the tree: the [ast.walk] loop
    visits every node under the module, and only those. *)
Theorem validate_code_errors_complete (code : string) (m : module) :
  ast_parse code = ParseOk m ->
  exists v, validate_code ast_parse code = Returned v /\
    forall err, In err (errors v) <-> exists n, reach (NModule m) n /\ In err (node_violations n).
Proof.
  intros Hp. unfold validate_code. rewrite Hp, validate_tree_ok.
  eexists. split; [reflexivity|]. intros err. cbn [errors]. rewrite in_flat_map.
  split; intros [n [H1 H2]]; exists n; (split; [apply ast_walk_iff; exact H1 | exact H2]).
Qed.

(** X10: a call of [eval], [exec] or [compile] by bare name anywhere
    inside a statement (in an argument, a dict value, a raised expression)
    makes [validate_code] reject the source and name the function. *)
Theorem validate_code_rejects_nested_call (code : string) (m : module) (s : stmt)
  (fname : string) (ln : Z) (args : list expr) :
  ast_parse code = ParseOk m ->
  In s m ->
  reach (NStmt s) (NExpr (Call (Name fname ln) args)) ->
  In fname dangerous_functions ->
  exists v, validate_code ast_parse code = Returned v /\ valid v = false /\
    In ("Dangerous function call: " ++ fname) (errors v).
Proof.
  intros Hp Hs Hr Hf. unfold validate_code. rewrite Hp, validate_tree_ok.
  eexists. split; [reflexivity|]. cbn [valid errors].
  assert (Hin : In ("Dangerous function call: " ++ fname) (flat_map node_violations (ast_walk m))).
  { apply in_flat_map. exists (NExpr (Call (Name fname ln) args)). split.
    - apply ast_walk_iff. apply reach_step with (NStmt s); [apply in_map; exact Hs | exact Hr].
    - unfold node_violations. rewrite (mem_string_In _ _ Hf). now left. }
  split; [|exact Hin].
  destruct (flat_map node_violations (ast_walk m)); [destruct Hin | reflexivity].
Qed.

(** X11: when validation fails, [execute_agent_code] returns the failure
    dict built from the validator's error list and leaves the environment
    and the process state untouched: nothing is compiled, run or printed. *)
Theorem execute_agent_code_invalid (self : CodeExecutionEnvironment) (code : string) (w : world)
  (v : verdict) :
  validate_code ast_parse code = Returned v ->
  valid v = false ->
  execute_agent_code ast_parse self code w =
  Done (Returned [("success", VBool false);
                  ("error", VStr ("Code validation failed: " ++ str_list (errors v)))])
       self w.
Proof. intros Hv Hf. unfold execute_agent_code. rewrite Hv, Hf. reflexivity. Qed.

(** X12: a program that parses but breaks RestrictedPython's rules (a name
    starting with an underscore, for instance) is not run: [execute_code]
    returns [success=False], empty output, no result and the [str] of the
    compiler's error tuple, with the environment unchanged. *)
Theorem execute_code_compile_errors (self : CodeExecutionEnvironment) (code : string)
  (w : world) (m : module) (e : string) (es : list string) :
  ast_parse code = ParseOk m ->
  restricted_errors m = e :: es ->
  exists w', execute_code ast_parse self code w =
    Done (Returned (fault_envelope "" ("Compilation errors: " ++ str_tuple (e :: es)))) self w'.
Proof.
  intros Hp Hr. apply (execute_code_compile_log ast_parse self code w None).
  unfold compile_restricted_exec. rewrite Hp. unfold compile_tree. rewrite Hr. reflexivity.
Qed.

(** X13: when a compiled program runs to completion, [execute_code] returns
    [success=True], the text written to the captured [sys.stdout], the
    value of [result] in the program's locals (None when unbound) and no
    error; the environment keeps the program's globals. *)
Theorem execute_code_completed_envelope (self : CodeExecutionEnvironment) (code : string)
  (w : world) (m : module) (u : unit) (fr : frame) (l : log) :
  compile_restricted_exec ast_parse code = Ok (mk_compile_result (Some m) []) ->
  exec_module m (run_ctx w) (safe_globals self) = (Ok u, fr, l) ->
  exists w', execute_code ast_parse self code w =
    Done (Returned (completed_envelope (written_to CaptureOut l)
                      (match ns_get "result" (f_locals fr) with Some v => v | None => VNone end)))
         (mk_env (f_globals fr)) w'.
Proof. intros Hc Hx. exact (execute_code_run ast_parse self code w m (Ok u) fr l Hc Hx). Qed.

(** X14: a program that declares [global result] stores [result] in the
    shared globals, and the envelope of a completed run reports [result] as
    None. *)
Theorem execute_code_global_result_unreported (self : CodeExecutionEnvironment) (code : string)
  (w : world) (m : module) (u : unit) (fr : frame) (l : log) :
  compile_restricted_exec ast_parse code = Ok (mk_compile_result (Some m) []) ->
  In "result" (global_names m) ->
  exec_module m (run_ctx w) (safe_globals self) = (Ok u, fr, l) ->
  exists w', execute_code ast_parse self code w =
    Done (Returned (completed_envelope (written_to CaptureOut l) VNone)) (mk_env (f_globals fr)) w'.
Proof.
  intros Hc Hg Hx.
  assert (Hloc : ns_get "result" (f_locals fr) = None).
  { pose proof (exec_body_global_local (print_prologue m ++ m)%list (run_ctx w)
                  (mk_frame (safe_globals self) [] (global_names m)) "result"
                  (mem_string_In _ _ Hg)) as H.
    rewrite (exec_module_ok m (run_ctx w) (safe_globals self) u fr l Hx) in H. exact H. }
  destruct (execute_code_run ast_parse self code w m (Ok u) fr l Hc Hx) as [w' Hw].
  rewrite Hloc in Hw. exists w'. exact Hw.
Qed.

(** X15: the outcome of [execute_code] depends on the process state only
    through the clock and the [repr] of objects: text already in the
    streams, and which streams are current, never show up in the envelope
    or the environment. *)
Theorem execute_code_depends_on_clock (self : CodeExecutionEnvironment) (code : string)
  (w1 w2 w1' : world) (r : py_ret envelope) (env : CodeExecutionEnvironment) :
  clock w1 = clock w2 -> object_repr w1 = object_repr w2 ->
  execute_code ast_parse self code w1 = Done r env w1' ->
  exists w2', execute_code ast_parse self code w2 = Done r env w2'.
Proof. intros Hc Hr Hx. exact (execute_code_indep ast_parse self code w1 w2 r env w1' Hc Hr Hx). Qed.

(** X20: in the environment [__init__] builds, every compiled program whose
    first statement is an import fails with
    [ImportError("__import__ not found")], whatever it imports (the exposed
    modules included): [__import__] is bound in the globals, not in the
    builtins dict the import looks in. *)
Theorem execute_code_import_fails (code : string) (w : world) (s : stmt) (rest : list stmt) :
  compile_restricted_exec ast_parse code = Ok (mk_compile_result (Some (s :: rest)) []) ->
  is_import s = true ->
  envelope_of (execute_code ast_parse CodeExecutionEnvironment_init code w) =
  Some (Returned (fault_envelope "" "__import__ not found")).
Proof.
  intros Hc Hs.
  pose proof (exec_module_import_first (run_ctx w) s rest Hs) as [H1 H2].
  destruct (exec_module (s :: rest) (run_ctx w) init_globals) as [[r fr] l] eqn:Hx.
  cbn [fst snd] in H1, H2. subst r l.
  destruct (execute_code_run ast_parse CodeExecutionEnvironment_init code w (s :: rest)
              (Exn (exc "ImportError" "__import__ not found")) fr [] Hc Hx) as [w' Hw].
  rewrite Hw. reflexivity.
Qed.

(** X21: on every exit of [execute_code] inside the modelled fragment
    (compilation errors, a [None] code object, normal completion, a caught
    fault, and also a fault that propagates), [sys.stdout] and [sys.stderr]
    afterwards are the streams they were before the call. *)
Theorem execute_code_restores_streams (self : CodeExecutionEnvironment) (code : string)
  (w w' : world) (r : py_ret envelope) (env : CodeExecutionEnvironment) :
  execute_code ast_parse self code w = Done r env w' ->
  sys_stdout w' = sys_stdout w /\ sys_stderr w' = sys_stderr w.
Proof.
  intros H. destruct (execute_code_done ast_parse self code w r env w' H) as [H1 [H2 _]].
  split; assumption.
Qed.

(** X22: a module that passes RestrictedPython's checks but is refused by
    the symbol table pass of [compile] (a name assigned before its [global]
    declaration, for instance) makes [compile_restricted_exec] raise a
    [SyntaxError]; [execute_code] catches it and reports its [str] with an
    empty output, the environment unchanged. *)
Theorem execute_code_symtable_error (self : CodeExecutionEnvironment) (code : string)
  (w : world) (m : module) (msg : string) :
  ast_parse code = ParseOk m ->
  restricted_errors m = [] ->
  has_future_import m = false ->
  symtable_check [] [] (print_prologue m ++ m)%list = Some msg ->
  exists w', execute_code ast_parse self code w =
    Done (Returned (fault_envelope "" msg)) self w'.
Proof.
  intros Hp Hr Hf Hs.
  assert (Hc : compile_restricted_exec ast_parse code = Exn (exc "SyntaxError" msg)).
  { unfold compile_restricted_exec. rewrite Hp. unfold compile_tree. rewrite Hr, Hf, Hs.
    reflexivity. }
  destruct (execute_code_compile_exn ast_parse self code w _ Hc) as [w' Hw].
  exists w'. rewrite Hw. reflexivity.
Qed.

(** X23: an import of ["*"] is refused by RestrictedPython's checks: the
    error tuple holds the line's [""*" imports are not allowed."] entry and
    nothing of the program runs. *)
Theorem execute_code_star_import (self : CodeExecutionEnvironment) (code : string) (w : world)
  (m : module) (mn : option string) (names : list alias) (lv : nat) (ln : Z) (a : alias) :
  ast_parse code = ParseOk m ->
  In (ImportFrom mn names lv ln) m ->
  In a names ->
  py_contains "*" (alias_name a) = true ->
  In (line_error ln (dq ++ "*" ++ dq ++ " imports are not allowed.")) (restricted_errors m) /\
  exists w', execute_code ast_parse self code w =
    Done (Returned (fault_envelope "" ("Compilation errors: " ++ str_tuple (restricted_errors m))))
         self w'.
Proof.
  intros Hp Hs Ha Hstar.
  assert (Hin : In (line_error ln (dq ++ "*" ++ dq ++ " imports are not allowed."))
                   (restricted_errors m)).
  { unfold restricted_errors. apply in_flat_map. exists (ImportFrom mn names lv ln).
    split; [exact Hs|]. cbn [stmt_errors]. apply in_flat_map. exists a. split; [exact Ha|].
    unfold alias_errors. rewrite Hstar. apply in_or_app. left. now left. }
  split; [exact Hin|].
  destruct (restricted_errors m) as [|e es] eqn:Hr; [destruct Hin|].
  apply (execute_code_compile_log ast_parse self code w None).
  unfold compile_restricted_exec. rewrite Hp. unfold compile_tree. rewrite Hr. reflexivity.
Qed.

End Extras.

Section TaskExtras.

Variable ast_parse : string -> parse_result.

(** X19: [Agent.execute_task] runs the generated code as
    [execute_agent_code] runs it directly: the agent's two [print] lines
    never reach the envelope, and the outcome (envelope and environment) is
    the direct run's. *)
Theorem execute_task_envelope (str_lower : string -> string) (self : Agent)
  (task_description : string) (env : CodeExecutionEnvironment) (w : world)
  (r : py_ret envelope) (env' : CodeExecutionEnvironment) (w' : world) :
  execute_agent_code ast_parse env (generate_code_for_task str_lower task_description) w =
    Done r env' w' ->
  exists w'', execute_task ast_parse str_lower self task_description env w = Done r env' w''.
Proof.
  intros H. unfold execute_task.
  eapply (execute_agent_code_indep ast_parse env _ w); [reflexivity | reflexivity | exact H].
Qed.

End TaskExtras.

(** ** Witnesses and counterexamples *)


Lemma from_os_import_runs_witness :
  sample_ast_parse "from os import system" =
    ParseOk [ImportFrom (Some "os") [mk_alias "system" None] 0 1] /\
  validate_code sample_ast_parse "from os import system" = Returned (mk_verdict true []) /\
  envelope_of (execute_agent_code sample_ast_parse CodeExecutionEnvironment_init
                 "from os import system" host_world) =
  Some (Returned (fault_envelope "" "__import__ not found")).
Proof.
  split; [reflexivity|].
  apply (from_os_import_runs sample_ast_parse host_world). reflexivity.
Defined.



Lemma execute_agent_code_envelope_keys_witness :
  envelope_of (execute_agent_code sample_ast_parse CodeExecutionEnvironment_init
                 "import os" host_world) =
  Some (Returned [("success", VBool false);
                  ("error", VStr "Code validation failed: ['Dangerous import: os']")]) /\
  exists v, validate_code sample_ast_parse "import os" = Returned v /\
    ns_keys [("success", VBool false);
             ("error", VStr "Code validation failed: ['Dangerous import: os']")] =
    (if valid v then envelope_keys else ["success"; "error"]).
Proof.
  split; [vm_compute; reflexivity|].
  apply (execute_agent_code_envelope_keys sample_ast_parse CodeExecutionEnvironment_init
           "import os" host_world). vm_compute. reflexivity.
Defined.

(** C4: after [global x; x = 1], [result = x] finds [x]; alone it raises
    [NameError]. *)
Lemma global_leak_counterexample :
  match execute_agent_code sample_ast_parse CodeExecutionEnvironment_init
          ("global x" ++ newline ++ "x = 1") host_world with
  | Done _ envA wA =>
      envelope_of (execute_agent_code sample_ast_parse envA "result = x" wA) =
      Some (Returned (completed_envelope "" (VInt 1)))
  | NotModelled _ => False
  end /\
  envelope_of (execute_agent_code sample_ast_parse CodeExecutionEnvironment_init
                 "result = x" host_world) =
  Some (Returned (fault_envelope "" "name 'x' is not defined")).
Proof. vm_compute. split; reflexivity. Defined.

Lemma execute_agent_code_no_leak_witness :
  exists rA envA wA,
    execute_agent_code sample_ast_parse CodeExecutionEnvironment_init "x = 1" host_world =
      Done rA envA wA /\
    envA = CodeExecutionEnvironment_init /\
    envelope_of (execute_agent_code sample_ast_parse envA "result = x" wA) =
    envelope_of (execute_agent_code sample_ast_parse CodeExecutionEnvironment_init "result = x"
                   host_world).
Proof.
  assert (Hg : forall m, sample_ast_parse "x = 1" = ParseOk m -> global_names m = []).
  { intros m H. vm_compute in H. inversion H. reflexivity. }
  destruct (execute_agent_code sample_ast_parse CodeExecutionEnvironment_init "x = 1" host_world)
    as [rA envA wA|what] eqn:E; [|vm_compute in E; discriminate E].
  exists rA, envA, wA. split; [reflexivity|].
  exact (execute_agent_code_no_leak sample_ast_parse CodeExecutionEnvironment_init
           "x = 1" "result = x" host_world host_world wA rA envA Hg E eq_refl eq_refl).
Defined.

Lemma execute_agent_code_no_result_witness :
  validate_code sample_ast_parse "x = 1" = Returned (mk_verdict true []) /\
  compile_restricted_exec sample_ast_parse "x = 1" =
    Ok (mk_compile_result (Some [Assign (Name "x" 1) (Constant (KInt 1))]) []) /\
  ~ In "result" (assigned_names [Assign (Name "x" 1) (Constant (KInt 1))]) /\
  exec_module [Assign (Name "x" 1) (Constant (KInt 1))] (run_ctx host_world) init_globals =
    (Ok tt, mk_frame init_globals [("x", VInt 1)] [], []) /\
  envelope_of (execute_agent_code sample_ast_parse CodeExecutionEnvironment_init
                 "x = 1" host_world) =
  Some (Returned (completed_envelope (written_to CaptureOut []) VNone)).
Proof.
  assert (Hn : ~ In "result" (assigned_names [Assign (Name "x" 1) (Constant (KInt 1))])).
  { simpl. intros [H|[]]. discriminate H. }
  split; [vm_compute; reflexivity|]. split; [vm_compute; reflexivity|].
  split; [exact Hn|]. split; [vm_compute; reflexivity|].
  apply (execute_agent_code_no_result sample_ast_parse CodeExecutionEnvironment_init "x = 1"
           host_world [Assign (Name "x" 1) (Constant (KInt 1))]
           (mk_frame init_globals [("x", VInt 1)] []) []);
    [vm_compute; reflexivity | vm_compute; reflexivity | exact Hn | vm_compute; reflexivity].
Defined.

(** C6: a keyword argument named [skill_name] makes the call raise
    [TypeError], while the direct run of the template succeeds. *)
Lemma skill_name_keyword_counterexample :
  let r := save_skill Agent_init "s" "result = 'x'" host_world in
  envelope_of (execute_skill sample_ast_parse (fst r) "s" [("skill_name", VStr "v")]
                 CodeExecutionEnvironment_init (snd r)) =
  Some (Raises (exc "TypeError"
                  "Agent.execute_skill() got multiple values for argument 'skill_name'")) /\
  envelope_of (execute_agent_code sample_ast_parse CodeExecutionEnvironment_init
                 (substitute (object_repr (snd r)) "result = 'x'" [("skill_name", VStr "v")])
                 (snd r)) =
  Some (Returned (completed_envelope "" (VStr "x"))).
Proof. vm_compute. split; reflexivity. Defined.

Lemma execute_skill_round_trip_witness :
  ~ In "skill_name" (ns_keys [("a", VStr "{{b}}"); ("b", VStr "x")]) /\
  let r := save_skill Agent_init "s" "result = '{{a}}'" host_world in
  execute_skill sample_ast_parse (fst r) "s" [("a", VStr "{{b}}"); ("b", VStr "x")]
    CodeExecutionEnvironment_init (snd r) =
  execute_agent_code sample_ast_parse CodeExecutionEnvironment_init
    (substitute (object_repr (snd r)) "result = '{{a}}'" [("a", VStr "{{b}}"); ("b", VStr "x")])
    (snd r).
Proof.
  assert (Hk : ~ In "skill_name" (ns_keys [("a", VStr "{{b}}"); ("b", VStr "x")])).
  { simpl. intros [H|[H|[]]]; discriminate H. }
  split; [exact Hk|].
  exact (execute_skill_round_trip sample_ast_parse Agent_init "s" "result = '{{a}}'"
           [("a", VStr "{{b}}"); ("b", VStr "x")] CodeExecutionEnvironment_init host_world Hk).
Defined.



Lemma validate_code_misses_dotted_and_from_witness :
  sample_ast_parse "import os.path" = ParseOk [Import [mk_alias "os.path" None] 1] /\
  sample_ast_parse "from os import system" =
    ParseOk [ImportFrom (Some "os") [mk_alias "system" None] 0 1] /\
  validate_code sample_ast_parse "import os.path" = Returned (mk_verdict true []) /\
  validate_code sample_ast_parse "from os import system" = Returned (mk_verdict true []) /\
  execute_agent_code sample_ast_parse CodeExecutionEnvironment_init "import os.path" host_world =
    execute_code sample_ast_parse CodeExecutionEnvironment_init "import os.path" host_world /\
  execute_agent_code sample_ast_parse CodeExecutionEnvironment_init "from os import system"
    host_world =
    execute_code sample_ast_parse CodeExecutionEnvironment_init "from os import system"
      host_world.
Proof.
  split; [reflexivity|]. split; [reflexivity|].
  apply (validate_code_misses_dotted_and_from sample_ast_parse CodeExecutionEnvironment_init
           host_world); reflexivity.
Defined.

(** C10: a validated, compiled program reaching [sys.stdout] through
    [re.enum.sys] writes to the captured buffer. *)
Lemma module_attribute_write_counterexample :
  validate_code sample_ast_parse "re.enum.sys.stdout.write('hi')" = Returned (mk_verdict true []) /\
  compile_restricted_exec sample_ast_parse "re.enum.sys.stdout.write('hi')" =
    Ok (mk_compile_result (Some [write_stmt 1 "hi"]) []) /\
  envelope_of (execute_code sample_ast_parse CodeExecutionEnvironment_init
                 "re.enum.sys.stdout.write('hi')" host_world) =
  Some (Returned (completed_envelope "hi" VNone)).
Proof. vm_compute. split; [reflexivity | split; reflexivity]. Defined.

Lemma execute_code_attr_free_output_witness :
  globals_ok init_globals = true /\
  (forall m, sample_ast_parse "print('hi')" = ParseOk m -> forallb attr_free_stmt m = true) /\
  envelope_of (execute_code sample_ast_parse CodeExecutionEnvironment_init "print('hi')"
                 host_world) =
  Some (Returned (fault_envelope ""
                    "'builtin_function_or_method' object has no attribute '_call_print'")) /\
  ns_get "output"
    (fault_envelope "" "'builtin_function_or_method' object has no attribute '_call_print'") =
  Some (VStr "").
Proof.
  assert (Hat : forall m, sample_ast_parse "print('hi')" = ParseOk m ->
                          forallb attr_free_stmt m = true).
  { intros m H. vm_compute in H. inversion H. reflexivity. }
  split; [vm_compute; reflexivity|]. split; [exact Hat|]. split; [vm_compute; reflexivity|].
  apply (execute_code_attr_free_output sample_ast_parse CodeExecutionEnvironment_init
           "print('hi')" host_world); [vm_compute; reflexivity | exact Hat | vm_compute; reflexivity].
Defined.

(** ** Witnesses of the further properties *)

Lemma call_tool_result_shape_witness :
  hashable (VStr "slack") = true /\
  exists d, call_tool (run_ctx host_world) (VStr "slack") [("operation", VStr "get_messages")] =
    Ok (VDict d) /\
    (map fst d = [VStr "error"] \/
     (map fst d = [VStr "success"; VStr "result"] /\ dict_get (VStr "success") d = Some (VBool true))).
Proof. split; [reflexivity|]. apply call_tool_result_shape. reflexivity. Defined.


Lemma call_tool_unsupported_operation_witness :
  In "slack" tool_names /\
  mem_string "delete" (supported_operations "slack") = false /\
  call_tool (run_ctx host_world) (VStr "slack") [("operation", VStr "delete")] =
  Ok (sdict [("success", VBool true);
             ("result", sdict [("error", VStr ("Operation " ++ "delete" ++ " not supported"))])]).
Proof.
  assert (Hin : In "slack" tool_names) by (simpl; tauto).
  split; [exact Hin|]. split; [reflexivity|].
  apply (call_tool_unsupported_operation (run_ctx host_world) "slack" "delete" []);
    [exact Hin | reflexivity].
Defined.

Lemma save_skill_other_names_witness :
  "b" <> "a" /\
  execute_skill sample_ast_parse (fst (save_skill Agent_init "a" "result = 'x'" host_world)) "b" []
    CodeExecutionEnvironment_init host_world =
  execute_skill sample_ast_parse Agent_init "b" [] CodeExecutionEnvironment_init host_world.
Proof.
  assert (Hne : "b" <> "a") by discriminate.
  split; [exact Hne|]. apply save_skill_other_names. exact Hne.
Defined.

Lemma substitute_without_markers_witness :
  (forall k, In k (ns_keys [("a", VStr "v")]) -> py_contains (marker k) "result = 'x'" = false) /\
  substitute (object_repr host_world) "result = 'x'" [("a", VStr "v")] = "result = 'x'".
Proof.
  assert (H : forall k, In k (ns_keys [("a", VStr "v")]) ->
                        py_contains (marker k) "result = 'x'" = false).
  { intros k [<-|[]]. reflexivity. }
  split; [exact H|]. apply substitute_without_markers. exact H.
Defined.

Lemma validate_code_valid_iff_no_errors_witness :
  validate_code sample_ast_parse "if x" =
    Returned (mk_verdict false ["Syntax error: expected ':' (<unknown>, line 1)"]) /\
  (valid (mk_verdict false ["Syntax error: expected ':' (<unknown>, line 1)"]) = true <->
   errors (mk_verdict false ["Syntax error: expected ':' (<unknown>, line 1)"]) = []).
Proof.
  split; [vm_compute; reflexivity|].
  apply (validate_code_valid_iff_no_errors sample_ast_parse "if x"). vm_compute. reflexivity.
Defined.

Lemma validate_code_errors_complete_witness :
  let m := [Assign (Name "x" 1)
              (Dict [(Constant (KStr "a"), Call (Name "eval" 1) [Constant (KStr "1")])])] in
  sample_ast_parse "x = {'a': eval('1')}" = ParseOk m /\
  validate_code sample_ast_parse "x = {'a': eval('1')}" =
    Returned (mk_verdict false ["Dangerous function call: eval"]) /\
  exists v, validate_code sample_ast_parse "x = {'a': eval('1')}" = Returned v /\
    forall err, In err (errors v) <-> exists n, reach (NModule m) n /\ In err (node_violations n).
Proof.
  intros m. split; [reflexivity|]. split; [vm_compute; reflexivity|].
  apply validate_code_errors_complete. reflexivity.
Defined.

Lemma validate_code_rejects_nested_call_witness :
  let s := Assign (Name "x" 1)
             (Dict [(Constant (KStr "a"), Call (Name "eval" 1) [Constant (KStr "1")])]) in
  sample_ast_parse "x = {'a': eval('1')}" = ParseOk [s] /\
  In s [s] /\
  reach (NStmt s) (NExpr (Call (Name "eval" 1) [Constant (KStr "1")])) /\
  In "eval" dangerous_functions /\
  exists v, validate_code sample_ast_parse "x = {'a': eval('1')}" = Returned v /\
    valid v = false /\ In ("Dangerous function call: " ++ "eval") (errors v).
Proof.
  intros s.
  assert (Hr : reach (NStmt s) (NExpr (Call (Name "eval" 1) [Constant (KStr "1")]))).
  { eapply reach_step; [simpl; right; left; reflexivity|].
    eapply reach_step; [simpl; right; left; reflexivity|]. apply reach_refl. }
  assert (Hs : In s [s]) by (left; reflexivity).
  assert (Hf : In "eval" dangerous_functions) by (simpl; tauto).
  split; [reflexivity|]. split; [exact Hs|]. split; [exact Hr|]. split; [exact Hf|].
  apply (validate_code_rejects_nested_call sample_ast_parse "x = {'a': eval('1')}" [s] s "eval"
           1 [Constant (KStr "1")]); [reflexivity | exact Hs | exact Hr | exact Hf].
Defined.

Lemma execute_agent_code_invalid_witness :
  validate_code sample_ast_parse "if x" =
    Returned (mk_verdict false ["Syntax error: expected ':' (<unknown>, line 1)"]) /\
  valid (mk_verdict false ["Syntax error: expected ':' (<unknown>, line 1)"]) = false /\
  execute_agent_code sample_ast_parse CodeExecutionEnvironment_init "if x" host_world =
  Done (Returned [("success", VBool false);
                  ("error", VStr ("Code validation failed: [" ++ dq
                                  ++ "Syntax error: expected ':' (<unknown>, line 1)"
                                  ++ dq ++ "]"))])
       CodeExecutionEnvironment_init host_world.
Proof.
  split; [vm_compute; reflexivity|]. split; [reflexivity|].
  rewrite (execute_agent_code_invalid sample_ast_parse CodeExecutionEnvironment_init "if x"
             host_world (mk_verdict false ["Syntax error: expected ':' (<unknown>, line 1)"]));
    [vm_compute; reflexivity | vm_compute; reflexivity | reflexivity].
Defined.

Lemma execute_code_compile_errors_witness :
  sample_ast_parse "_x = 1" = ParseOk [Assign (Name "_x" 1) (Constant (KInt 1))] /\
  restricted_errors [Assign (Name "_x" 1) (Constant (KInt 1))] =
    ["Line 1: " ++ dq ++ "_x" ++ dq ++ " is an invalid variable name because it starts with "
     ++ dq ++ "_" ++ dq] /\
  exists w', execute_code sample_ast_parse CodeExecutionEnvironment_init "_x = 1" host_world =
    Done (Returned (fault_envelope ""
                      ("Compilation errors: ('Line 1: " ++ dq ++ "_x" ++ dq
                       ++ " is an invalid variable name because it starts with "
                       ++ dq ++ "_" ++ dq ++ "',)")))
         CodeExecutionEnvironment_init w'.
Proof.
  split; [reflexivity|]. split; [vm_compute; reflexivity|].
  destruct (execute_code_compile_errors sample_ast_parse CodeExecutionEnvironment_init "_x = 1"
              host_world [Assign (Name "_x" 1) (Constant (KInt 1))]
              ("Line 1: " ++ dq ++ "_x" ++ dq
               ++ " is an invalid variable name because it starts with " ++ dq ++ "_" ++ dq) [])
    as [w' Hw]; [reflexivity | vm_compute; reflexivity |].
  exists w'. rewrite Hw. vm_compute. reflexivity.
Defined.

Lemma execute_code_completed_envelope_witness :
  compile_restricted_exec sample_ast_parse "result = 'x'" =
    Ok (mk_compile_result (Some [Assign (Name "result" 1) (Constant (KStr "x"))]) []) /\
  exec_module [Assign (Name "result" 1) (Constant (KStr "x"))] (run_ctx host_world) init_globals =
    (Ok tt, mk_frame init_globals [("result", VStr "x")] [], []) /\
  exists w', execute_code sample_ast_parse CodeExecutionEnvironment_init "result = 'x'" host_world =
    Done (Returned (completed_envelope (written_to CaptureOut [])
                      (match ns_get "result" [("result", VStr "x")] with
                       | Some v => v | None => VNone end)))
         (mk_env init_globals) w'.
Proof.
  split; [vm_compute; reflexivity|]. split; [vm_compute; reflexivity|].
  apply (execute_code_completed_envelope sample_ast_parse CodeExecutionEnvironment_init
           "result = 'x'" host_world [Assign (Name "result" 1) (Constant (KStr "x"))] tt
           (mk_frame init_globals [("result", VStr "x")] []) []);
    vm_compute; reflexivity.
Defined.

Lemma execute_code_global_result_unreported_witness :
  let m := [Global ["result"] 1; Assign (Name "result" 2) (Constant (KInt 1))] in
  let fr := mk_frame (ns_set "result" (VInt 1) init_globals) [] ["result"] in
  compile_restricted_exec sample_ast_parse ("global result" ++ newline ++ "result = 1") =
    Ok (mk_compile_result (Some m) []) /\
  In "result" (global_names m) /\
  exec_module m (run_ctx host_world) init_globals = (Ok tt, fr, []) /\
  exists w', execute_code sample_ast_parse CodeExecutionEnvironment_init
               ("global result" ++ newline ++ "result = 1") host_world =
    Done (Returned (completed_envelope (written_to CaptureOut []) VNone)) (mk_env (f_globals fr)) w'.
Proof.
  intros m fr.
  assert (Hg : In "result" (global_names m)) by (simpl; tauto).
  split; [vm_compute; reflexivity|]. split; [exact Hg|].
  split; [vm_compute; reflexivity|].
  apply (execute_code_global_result_unreported sample_ast_parse CodeExecutionEnvironment_init
           ("global result" ++ newline ++ "result = 1") host_world m tt fr []);
    [vm_compute; reflexivity | exact Hg | vm_compute; reflexivity].
Defined.

Lemma execute_code_depends_on_clock_witness :
  let w2 := mk_world CaptureOut HostStderr (fun _ => "stale") 0%float (fun _ => "<object>") in
  exists r env w1',
    execute_code sample_ast_parse CodeExecutionEnvironment_init "x = 1" host_world =
      Done r env w1' /\
    exists w2', execute_code sample_ast_parse CodeExecutionEnvironment_init "x = 1" w2 =
      Done r env w2'.
Proof.
  intros w2.
  destruct (execute_code sample_ast_parse CodeExecutionEnvironment_init "x = 1" host_world)
    as [r env w1'|what] eqn:E; [|vm_compute in E; discriminate E].
  exists r, env, w1'. split; [reflexivity|].
  apply (execute_code_depends_on_clock sample_ast_parse CodeExecutionEnvironment_init "x = 1"
           host_world w2 w1' r env); [reflexivity | reflexivity | exact E].
Defined.

Lemma execute_code_import_fails_witness :
  compile_restricted_exec sample_ast_parse "import math" =
    Ok (mk_compile_result (Some [Import [mk_alias "math" None] 1]) []) /\
  is_import (Import [mk_alias "math" None] 1) = true /\
  envelope_of (execute_code sample_ast_parse CodeExecutionEnvironment_init "import math"
                 host_world) =
  Some (Returned (fault_envelope "" "__import__ not found")).
Proof.
  split; [vm_compute; reflexivity|]. split; [reflexivity|].
  apply (execute_code_import_fails sample_ast_parse "import math" host_world
           (Import [mk_alias "math" None] 1) []); [vm_compute; reflexivity | reflexivity].
Defined.

Lemma execute_code_restores_streams_witness :
  exists r env w',
    execute_code sample_ast_parse CodeExecutionEnvironment_init fault_source host_world =
      Done r env w' /\
    sys_stdout w' = HostStdout /\ sys_stderr w' = HostStderr.
Proof.
  destruct (execute_code sample_ast_parse CodeExecutionEnvironment_init fault_source host_world)
    as [r env w'|what] eqn:E; [|vm_compute in E; discriminate E].
  exists r, env, w'. split; [reflexivity|].
  exact (execute_code_restores_streams sample_ast_parse CodeExecutionEnvironment_init
           fault_source host_world w' r env E).
Defined.

Lemma execute_code_symtable_error_witness :
  let m := [Assign (Name "x" 1) (Constant (KInt 1)); Global ["x"] 2] in
  sample_ast_parse ("x = 1" ++ newline ++ "global x") = ParseOk m /\
  restricted_errors m = [] /\
  has_future_import m = false /\
  symtable_check [] [] (print_prologue m ++ m)%list =
    Some "name 'x' is assigned to before global declaration (<string>, line 2)" /\
  exists w', execute_code sample_ast_parse CodeExecutionEnvironment_init
               ("x = 1" ++ newline ++ "global x") host_world =
    Done (Returned (fault_envelope ""
                      "name 'x' is assigned to before global declaration (<string>, line 2)"))
         CodeExecutionEnvironment_init w'.
Proof.
  intros m. split; [vm_compute; reflexivity|]. split; [reflexivity|]. split; [reflexivity|].
  split; [vm_compute; reflexivity|].
  apply (execute_code_symtable_error sample_ast_parse CodeExecutionEnvironment_init
           ("x = 1" ++ newline ++ "global x") host_world m); vm_compute; reflexivity.
Defined.

Lemma execute_code_star_import_witness :
  sample_ast_parse "from math import *" =
    ParseOk [ImportFrom (Some "math") [mk_alias "*" None] 0 1] /\
  restricted_errors [ImportFrom (Some "math") [mk_alias "*" None] 0 1] =
    ["Line 1: " ++ dq ++ "*" ++ dq ++ " imports are not allowed."] /\
  In (line_error 1 (dq ++ "*" ++ dq ++ " imports are not allowed."))
     (restricted_errors [ImportFrom (Some "math") [mk_alias "*" None] 0 1]) /\
  exists w', execute_code sample_ast_parse CodeExecutionEnvironment_init "from math import *"
               host_world =
    Done (Returned (fault_envelope ""
                      ("Compilation errors: " ++
                       str_tuple (restricted_errors [ImportFrom (Some "math") [mk_alias "*" None] 0 1]))))
         CodeExecutionEnvironment_init w'.
Proof.
  split; [reflexivity|]. split; [vm_compute; reflexivity|].
  apply (execute_code_star_import sample_ast_parse CodeExecutionEnvironment_init
           "from math import *" host_world [ImportFrom (Some "math") [mk_alias "*" None] 0 1]
           (Some "math") [mk_alias "*" None] 0 1 (mk_alias "*" None));
    [reflexivity | left; reflexivity | left; reflexivity | reflexivity].
Defined.

Lemma execute_task_envelope_witness :
  exists env w',
    execute_agent_code sample_ast_parse CodeExecutionEnvironment_init
      (generate_code_for_task (fun s => s) "x") host_world =
      Done (Returned (completed_envelope ""
                        (sdict [("task", VStr "x"); ("status", VStr "completed");
                                ("message", VStr "Task completed using code execution paradigm")])))
           env w' /\
    exists w'', execute_task sample_ast_parse (fun s => s) Agent_init "x"
                  CodeExecutionEnvironment_init host_world =
      Done (Returned (completed_envelope ""
                        (sdict [("task", VStr "x"); ("status", VStr "completed");
                                ("message", VStr "Task completed using code execution paradigm")])))
           env w''.
Proof.
  destruct (execute_agent_code sample_ast_parse CodeExecutionEnvironment_init
              (generate_code_for_task (fun s => s) "x") host_world) as [r env w'|what] eqn:E;
    [|vm_compute in E; discriminate E].
  assert (Hr : r = Returned (completed_envelope ""
                 (sdict [("task", VStr "x"); ("status", VStr "completed");
                         ("message", VStr "Task completed using code execution paradigm")]))).
  { vm_compute in E. inversion E. reflexivity. }
  subst r. exists env, w'. split; [reflexivity|].
  exact (execute_task_envelope sample_ast_parse (fun s => s) Agent_init "x"
           CodeExecutionEnvironment_init host_world _ env w' E).
Defined.
